(** * Quantum classifiers: the QCNN topology generator and the classifier drivers

    A shallow embedding of [src/qcnn_method.py] and [src/kernel_method.py].

    Conventions of the embedding:
    - Python integers are [Z]; NumPy floating-point values (parameters,
      labels, expectation values, probabilities, costs) are exact rationals
      [Q]; register sizes stay far below 2^53, where the float quotient
      [size / 2] taken before [np.ceil] is exact. The float product whose
      rounding decides the index of the split, [training_ratio *
      len(labels)], is rounded as binary64 rounds it ([Py.fmul]).
    - Quantum operations are recorded on a tape, in the order in which the
      source queues them; the simulator behind a QNode is a parameter.
    - A Python exception is an [outcome] of its own; [while] loops run on
      fuel, and running out of it is the outcome [OutOfFuel]. *)

From Stdlib Require Import ZArith List Lia Bool QArith Qround.
Import ListNotations.
Open Scope Z_scope.

(** ** Outcomes of a Python computation *)

Inductive exn : Type :=
| IndexError
| ZeroDivisionError
| ValueError.

Inductive outcome (A : Type) : Type :=
| Done (a : A)
| Raise (e : exn)
| OutOfFuel.

Arguments Done {A} a.
Arguments Raise {A} e.
Arguments OutOfFuel {A}.

Definition obind {A B : Type} (m : outcome A) (f : A -> outcome B) : outcome B :=
  match m with
  | Done a => f a
  | Raise e => Raise e
  | OutOfFuel => OutOfFuel
  end.

Fixpoint omap {A B : Type} (f : A -> outcome B) (l : list A) : outcome (list B) :=
  match l with
  | [] => Done []
  | x :: l' =>
      obind (f x) (fun y => obind (omap f l') (fun ys => Done (y :: ys)))
  end.

(** ** Python and NumPy primitives *)

Module Py.

(** [int(np.ceil(a / 2))] *)
Definition ceil_half (a : Z) : Z :=
  let (q, r) := Z.div_eucl a 2 in
  if r =? 0 then q else q + 1.

(** [range(lo, hi)] *)
Definition range (lo hi : Z) : list Z :=
  map (fun k => lo + Z.of_nat k) (seq 0 (Z.to_nat (hi - lo))).

(** [l[i]] on a sequence: negative indices count from the end, anything
    outside [-len, len) raises. *)
Definition getitem {A : Type} (l : list A) (i : Z) : outcome A :=
  let len := Z.of_nat (length l) in
  let j := if i <? 0 then len + i else i in
  if (0 <=? j) && (j <? len) then
    match nth_error l (Z.to_nat j) with
    | Some x => Done x
    | None => Raise IndexError
    end
  else Raise IndexError.

(** Normalisation of one bound of a slice of step 1. *)
Definition clamp (len i : Z) : Z :=
  if i <? 0 then Z.max 0 (len + i) else Z.min i len.

(** [l[lo:hi]]; [None] is an omitted bound. Never raises. *)
Definition slice {A : Type} (l : list A) (lo hi : option Z) : list A :=
  let len := Z.of_nat (length l) in
  let a := match lo with Some i => clamp len i | None => 0 end in
  let b := match hi with Some j => clamp len j | None => len end in
  firstn (Z.to_nat (b - a)) (skipn (Z.to_nat a) l).

(** [int(x)] on a float: truncation toward zero. *)
Definition int (x : Q) : Z := Z.quot (Qnum x) (Z.pos (Qden x)).

(** Rounding of the fraction [a / b], [0 <= a], to the nearest integer, ties
    to even. *)
Definition rne (a : Z) (b : positive) : Z :=
  let q := a / Z.pos b in
  let r := a mod Z.pos b in
  match 2 * r ?= Z.pos b with
  | Lt => q
  | Gt => q + 1
  | Eq => if Z.even q then q else q + 1
  end.

(** The number [s] of fraction bits of the binary64 numbers around [a / b],
    [0 < a / b < 2^53]: [2^52 <= (a / b) * 2^s < 2^53], and at most 1074 (the
    subnormal numbers). *)
Definition grid_bits (a : Z) (b : positive) : Z :=
  let k := Z.log2 a - Z.log2 (Z.pos b) in
  let s := if Z.pos b * 2 ^ 52 <=? a * 2 ^ (52 - k) then 52 - k else 53 - k in
  Z.max 0 (Z.min 1074 s).

(** The binary64 number nearest to [a / b], [0 < a], ties to even. A value
    of 2^53 or more is kept as it is: the floats rounded here are products
    of a ratio and a sample count, and these stay below 2^53. *)
Definition round64_pos (a : Z) (b : positive) : Q :=
  if Z.pos b * 2 ^ 53 <=? a then a # b
  else let s := grid_bits a b in
       rne (a * 2 ^ s) b # Z.to_pos (2 ^ s).

Definition round64 (x : Q) : Q :=
  match Qnum x with
  | 0 => 0%Q
  | Z.pos p => round64_pos (Z.pos p) (Qden x)
  | Z.neg p => Qopp (round64_pos (Z.pos p) (Qden x))
  end.

(** [x * y] on floats: the product, rounded. *)
Definition fmul (x y : Q) : Q := round64 (x * y)%Q.

(** [l[i] = x] on an array: negative indices count from the end, anything
    outside [-len, len) raises. *)
Definition setitem {A : Type} (l : list A) (i : Z) (x : A) : outcome (list A) :=
  let len := Z.of_nat (length l) in
  let j := if i <? 0 then len + i else i in
  if (0 <=? j) && (j <? len) then
    Done (firstn (Z.to_nat j) l ++ x :: skipn (S (Z.to_nat j)) l)
  else Raise IndexError.

(** [a / b] on integers: true division. *)
Definition truediv (a b : Z) : outcome Q :=
  if b =? 0 then Raise ZeroDivisionError
  else Done (Qmake a 1 / Qmake b 1)%Q.

(** [np.sign] *)
Definition sign (x : Q) : Q :=
  match (x ?= 0)%Q with
  | Lt => (-1)%Q
  | Eq => 0%Q
  | Gt => 1%Q
  end.

(** [np.random.randn(n)]: [n] draws of the generator [draw]; a negative
    dimension is refused. *)
Definition randn (draw : nat -> Q) (n : Z) : outcome (list Q) :=
  if n <? 0 then Raise ValueError
  else Done (map draw (seq 0 (Z.to_nat n))).

End Py.

(** ** Recorded circuits *)

Section Circuit.

(** Feature vectors are opaque to the classifiers. *)
Variable fvec : Type.

Inductive op : Type :=
| RY (theta : Q) (wire : Z)
| CNOT (control target : Z)
| Embedding (x : fvec)
| Adjoint (o : op).

Inductive measurement : Type :=
| Expval_PauliZ (wire : Z)
| Probs (wires : list Z).

Definition tape : Type := list op.

(** A circuit-building computation: it queues operations on the tape. *)
Definition Circ (A : Type) : Type := tape -> outcome (A * tape).

Definition ret {A : Type} (a : A) : Circ A := fun t => Done (a, t).

Definition bind {A B : Type} (m : Circ A) (f : A -> Circ B) : Circ B :=
  fun t =>
    match m t with
    | Done (a, t') => f a t'
    | Raise e => Raise e
    | OutOfFuel => OutOfFuel
    end.

Definition queue (o : op) : Circ unit := fun t => Done (tt, t ++ [o]).

Definition lift {A : Type} (m : outcome A) : Circ A :=
  fun t =>
    match m with
    | Done a => Done (a, t)
    | Raise e => Raise e
    | OutOfFuel => OutOfFuel
    end.

(** [for i in l: s = body(i, s)] *)
Fixpoint for_ {S : Type} (l : list Z) (body : Z -> S -> Circ S) (s : S) : Circ S :=
  match l with
  | [] => ret s
  | i :: l' => bind (body i s) (for_ l' body)
  end.

End Circuit.

Arguments RY {fvec} theta wire.
Arguments CNOT {fvec} control target.
Arguments Embedding {fvec} x.
Arguments Adjoint {fvec} o.
Arguments ret {fvec A} a.
Arguments bind {fvec A B} m f.
Arguments queue {fvec} o.
Arguments lift {fvec A} m.
Arguments for_ {fvec S} l body s.

Declare Scope circ_scope.
Delimit Scope circ_scope with circ.
Notation "x <- m ;; k" := (bind m (fun x => k))
  (at level 61, m at next level, right associativity) : circ_scope.
Notation "m ;;; k" := (bind m (fun _ => k))
  (at level 61, right associativity) : circ_scope.

(** ** Execution nodes *)

Inductive value : Type :=
| Scalar (x : Q)
| Vector (v : list Q).

(** The computational basis outcomes of [n] positions, in the order in which
    [qml.probs] lists their probabilities: lexicographic, the all-zero
    outcome first. *)
Fixpoint basis_states (n : nat) : list (list bool) :=
  match n with
  | O => [[]]
  | S n' => map (cons false) (basis_states n') ++ map (cons true) (basis_states n')
  end.

Section QNode.

Variable fvec : Type.

(** The simulator: the expectation of Pauli-Z on a position, and the
    probability of a basis outcome over some positions, after a tape. *)
Variable expval_PauliZ : tape fvec -> Z -> Q.
Variable prob : tape fvec -> list Z -> list bool -> Q.

Definition measure (t : tape fvec) (m : measurement) : value :=
  match m with
  | Expval_PauliZ w => Scalar (expval_PauliZ t w)
  | Probs ws => Vector (map (prob t ws) (basis_states (length ws)))
  end.

(** Modelled from the spec: [get_qnode_instance] of [utils/utils.py], the
    execution-node factory. The node runs the circuit-construction function
    on an empty tape and returns the measurement result that the function
    declares; an exception of the function propagates. *)
Definition get_qnode_instance (circuit : Circ fvec measurement) : outcome value :=
  match circuit [] with
  | Done (m, t) => Done (measure t m)
  | Raise e => Raise e
  | OutOfFuel => OutOfFuel
  end.

End QNode.

(** ** The positional train/test split

    The first five statements of [Quantum_Kernel_Classification.run],
    [QCNN_Solver.run] and [QCNN_Solver.run_batched] are the same. *)

Definition training_period (training_ratio : Q) (labels : list Q) : Z :=
  Py.int (Py.fmul training_ratio (inject_Z (Z.of_nat (length labels)))).

Record partition (fvec : Type) : Type := {
  training_vectors : list fvec;
  testing_vectors : list fvec;
  training_labels : list Q;
  testing_labels : list Q
}.

Arguments training_vectors {fvec} p.
Arguments testing_vectors {fvec} p.
Arguments training_labels {fvec} p.
Arguments testing_labels {fvec} p.

Definition split {fvec : Type} (feature_vectors : list fvec) (labels : list Q)
           (training_ratio : Q) : partition fvec :=
  let training_period := training_period training_ratio labels in
  {| training_vectors := Py.slice feature_vectors None (Some training_period);
     testing_vectors := Py.slice feature_vectors (Some training_period) None;
     training_labels := Py.slice labels None (Some training_period);
     testing_labels := Py.slice labels (Some training_period) None |}.

(** ** Optimizers

    An optimizer is a caller-supplied callable: all it can do with the cost
    function is to call it on parameters of its choice, any number of times,
    and finally return parameters. *)

Inductive optimizer : Type :=
| Return (params : list Q)
| Call (params : list Q) (k : Q -> optimizer).

(** Running an optimizer against a cost function that owns a state [S]
    (the variables the closure captures). The third component is the state
    at which each call of the cost function started, in call order. *)
Fixpoint optimize {S : Type} (cost_function : list Q -> S -> outcome (Q * S))
         (o : optimizer) (s : S) : outcome (list Q * S * list S) :=
  match o with
  | Return p => Done (p, s, [])
  | Call p k =>
      obind (cost_function p s) (fun cs =>
      obind (optimize cost_function (k (fst cs)) (snd cs)) (fun r =>
      Done (fst (fst r), snd (fst r), s :: snd r)))
  end.

(** ** The QCNN solver, [src/qcnn_method.py] *)

Module QCNN.

Section Solver.

Variable fvec : Type.

Record QCNN_Solver : Type := {
  num_qubits : Z;
  num_params : Z;
  params : list Q
}.

(** The [while test_qubits > 1] loop of [__init__]. *)
Fixpoint count_loop (fuel : nat) (num_params test_qubits : Z) : outcome Z :=
  if test_qubits >? 1 then
    match fuel with
    | O => OutOfFuel
    | S fuel' =>
        count_loop fuel' (num_params + 2 * test_qubits) (Py.ceil_half test_qubits)
    end
  else Done num_params.

(** [self.num_params] as [__init__] leaves it. *)
Definition count_params (fuel : nat) (num_qubits : Z) : outcome Z :=
  obind (count_loop fuel 0 num_qubits) (fun c => Done (c - 2)).

(** [__init__]; [draw] is the random generator behind [np.random.randn]. *)
Definition init (fuel : nat) (draw : nat -> Q) (num_qubits : Z) : outcome QCNN_Solver :=
  obind (count_params fuel num_qubits) (fun c =>
  obind (Py.randn draw c) (fun r =>
  Done {| num_qubits := num_qubits;
          num_params := c;
          params := map (Qmult (1 # 2)) r |})).

Local Open Scope circ_scope.

(** [qml.CNOT(wires)]: the two wires must differ. *)
Definition cnot (control target : Z) : Circ fvec unit :=
  if control =? target then lift (Raise ValueError)
  else queue (CNOT control target).

(** [pool] *)
Definition pool (old_size : Z) : Circ fvec Z :=
  let new_size := Py.ceil_half old_size in
  for_ (Py.range new_size old_size)
       (fun i _ => cnot i (old_size - i - 1)) tt ;;;
  ret new_size.

(** The [else] branch of [convolution]: the general case. Inside the loop
    [num_qubits >= 1], so [%] has a positive divisor. *)
Definition convolution_general (num_qubits : Z) (params : list Q) : Circ fvec Z :=
  let qubit_to_target := Z.max (num_qubits - 3) 1 in
  for_ (Py.range 0 num_qubits)
       (fun i i_param =>
          let target_qubit := (i + qubit_to_target) mod num_qubits in
          p0 <- lift (Py.getitem params i_param) ;;
          queue (RY p0 i) ;;;
          p1 <- lift (Py.getitem params (i_param + 1)) ;;
          queue (RY p1 target_qubit) ;;;
          cnot i target_qubit ;;;
          ret (i_param + 2))
       0.

(** [convolution] *)
Definition convolution (num_qubits : Z) (params : list Q) : Circ fvec Z :=
  if num_qubits =? 2 then
    p0 <- lift (Py.getitem params 0) ;;
    queue (RY p0 0) ;;;
    p1 <- lift (Py.getitem params 1) ;;
    queue (RY p1 1) ;;;
    cnot 0 1 ;;;
    ret 2
  else convolution_general num_qubits params.

(** The [while True] loop of [generate_qcnn_circuit]; it returns the final
    [(num_params_utilized, num_qubits_utilized)]. *)
Fixpoint layers (fuel : nat) (params : list Q)
         (num_params_utilized num_qubits_utilized : Z) : Circ fvec (Z * Z) :=
  match fuel with
  | O => fun _ => OutOfFuel
  | S fuel' =>
      used <- convolution num_qubits_utilized
                (Py.slice params (Some num_params_utilized) None) ;;
      let num_params_utilized := num_params_utilized + used in
      num_qubits_utilized <- pool num_qubits_utilized ;;
      if num_qubits_utilized =? 1
      then ret (num_params_utilized, num_qubits_utilized)
      else layers fuel' params num_params_utilized num_qubits_utilized
  end.

(** [generate_qcnn_circuit] *)
Definition generate_qcnn_circuit (fuel : nat) (self : QCNN_Solver)
           (feature_vector : fvec) (params : list Q) : Circ fvec measurement :=
  queue (Embedding feature_vector) ;;;
  layers fuel params 0 (num_qubits self) ;;;
  ret (Expval_PauliZ 0).

(** *** The drivers *)

Variable expval_PauliZ : tape fvec -> Z -> Q.
Variable prob : tape fvec -> list Z -> list bool -> Q.

(** [get_score] of [utils/utils.py] and the caller's error function. *)
Variable get_score : list Q -> list Q -> Z.
Variable error_function : list Q -> list Q -> Q.

(** What [np.empty_like] leaves in the cell of each index. *)
Variable uninitialised : nat -> Q.

(** [self.circuit_to_optimize]: the node of [generate_qcnn_circuit], whose
    measurement is an expectation value, hence a scalar. *)
Definition circuit_to_optimize (fuel : nat) (self : QCNN_Solver)
           (feature_vector : fvec) (params : list Q) : outcome Q :=
  obind (get_qnode_instance fvec expval_PauliZ prob
           (generate_qcnn_circuit fuel self feature_vector params))
        (fun v => match v with
                  | Scalar x => Done x
                  | Vector _ => Raise ValueError
                  end).

(** [np.empty_like(testing_labels)] *)
Definition empty_like (testing_labels : list Q) : list Q :=
  map uninitialised (seq 0 (length testing_labels)).

(** The loop that fills [predictions], from the index [i] on: the circuit
    is evaluated first, then its sign is stored at [i]. *)
Fixpoint fill (fuel : nat) (self : QCNN_Solver) (i : Z)
         (testing_vectors : list fvec) (predictions : list Q) : outcome (list Q) :=
  match testing_vectors with
  | [] => Done predictions
  | testing_vector :: rest =>
      obind (circuit_to_optimize fuel self testing_vector (params self)) (fun x =>
      obind (Py.setitem predictions i (Py.sign x)) (fun predictions =>
      fill fuel self (i + 1) rest predictions))
  end.

(** [for i, testing_vector in enumerate(testing_vectors): ...] *)
Definition predict (fuel : nat) (self : QCNN_Solver)
           (testing_vectors : list fvec) (predictions : list Q) : outcome (list Q) :=
  fill fuel self 0 testing_vectors predictions.

Definition set_params (self : QCNN_Solver) (p : list Q) : QCNN_Solver :=
  {| num_qubits := num_qubits self; num_params := num_params self; params := p |}.

(** The cost function of [run]; it captures no mutable variable. *)
Definition cost_function (fuel : nat) (self : QCNN_Solver)
           (d : partition fvec) (params : list Q) (_ : unit) : outcome (Q * unit) :=
  obind (omap (fun training_vector =>
                 circuit_to_optimize fuel self training_vector params)
              (training_vectors d))
        (fun resulting_labels =>
           Done (error_function resulting_labels (training_labels d), tt)).

(** [run]: the updated instance, the score and the predictions. *)
Definition run (fuel : nat) (self : QCNN_Solver)
           (feature_vectors : list fvec) (labels : list Q)
           (optimizer_function : list Q -> optimizer)
           (training_ratio : Q) : outcome (QCNN_Solver * (Z * list Q)) :=
  let d := split feature_vectors labels training_ratio in
  let predictions := empty_like (testing_labels d) in
  obind (optimize (cost_function fuel self d)
                  (optimizer_function (params self)) tt) (fun r =>
  let self := set_params self (fst (fst r)) in
  obind (predict fuel self (testing_vectors d) predictions) (fun predictions =>
  Done (self, (get_score predictions (testing_labels d), predictions)))).

(** [batch_lenght] of [run_batched]. *)
Definition batch_lenght (training_labels : list Q) (num_batches : Z) : outcome Z :=
  obind (Py.truediv (Z.of_nat (length training_labels)) num_batches)
        (fun q => Done (Py.int q)).

(** The slice that the cost function of [run_batched] takes at
    [batch_number]. *)
Definition batched {A : Type} (training : list A) (batch_lenght batch_number : Z)
  : list A :=
  Py.slice training (Some (batch_number * batch_lenght))
                    (Some ((batch_number + 1) * batch_lenght)).

(** The cost function of [run_batched]; its state is [batch_number]. *)
Definition batched_cost_function (fuel : nat) (self : QCNN_Solver)
           (d : partition fvec) (batch_lenght : Z)
           (params : list Q) (batch_number : Z) : outcome (Q * Z) :=
  let batched_training_vectors := batched (training_vectors d) batch_lenght batch_number in
  let batched_training_labels := batched (training_labels d) batch_lenght batch_number in
  obind (omap (fun training_vector =>
                 circuit_to_optimize fuel self training_vector params)
              batched_training_vectors)
        (fun resulting_labels =>
           let batch_number := batch_number + 1 in
           Done (error_function resulting_labels batched_training_labels, batch_number)).

(** [run_batched] up to the call of the optimizer: the optimized
    parameters, the final [batch_number] and the [batch_number] of each
    call of the cost function. *)
Definition train_batched (fuel : nat) (self : QCNN_Solver)
           (feature_vectors : list fvec) (labels : list Q)
           (optimizer_function : list Q -> optimizer)
           (num_batches : Z) (training_ratio : Q)
  : outcome (list Q * Z * list Z) :=
  let d := split feature_vectors labels training_ratio in
  obind (batch_lenght (training_labels d) num_batches) (fun batch_lenght =>
  let batch_number := 0 in
  optimize (batched_cost_function fuel self d batch_lenght)
           (optimizer_function (params self)) batch_number).

(** [run_batched] *)
Definition run_batched (fuel : nat) (self : QCNN_Solver)
           (feature_vectors : list fvec) (labels : list Q)
           (optimizer_function : list Q -> optimizer)
           (num_batches : Z) (training_ratio : Q)
  : outcome (QCNN_Solver * (Z * list Q)) :=
  let d := split feature_vectors labels training_ratio in
  let predictions := empty_like (testing_labels d) in
  obind (train_batched fuel self feature_vectors labels optimizer_function
           num_batches training_ratio) (fun r =>
  let self := set_params self (fst (fst r)) in
  obind (predict fuel self (testing_vectors d) predictions) (fun predictions =>
  Done (self, (get_score predictions (testing_labels d), predictions)))).

End Solver.

End QCNN.

(** ** The kernel classifier, [src/kernel_method.py] *)

Module Kernel.

Section Classifier.

Variable fvec : Type.
Variable expval_PauliZ : tape fvec -> Z -> Q.
Variable prob : tape fvec -> list Z -> list bool -> Q.

(** The support vector machine handed to [run]: the fitted model, its
    score and its predictions are the library's. *)
Variable model : Type.
Variable svm_fit :
  (list fvec -> list fvec -> outcome (list (list Q))) ->
  list fvec -> list Q -> outcome model.
Variable svm_score : model -> list fvec -> list Q -> outcome Q.
Variable svm_predict : model -> list fvec -> outcome (list Q).

Record Quantum_Kernel_Classification : Type := {
  num_qubits : Z
}.

Local Open Scope circ_scope.

(** [get_kernel_embedding] *)
Definition get_kernel_embedding (self : Quantum_Kernel_Classification)
           (a b : fvec) : Circ fvec measurement :=
  queue (Embedding a) ;;;
  queue (Adjoint (Embedding b)) ;;;
  ret (Probs (Py.range 0 (num_qubits self))).

(** [self.kernel_circuit] *)
Definition kernel_circuit (self : Quantum_Kernel_Classification)
           (a b : fvec) : outcome value :=
  get_qnode_instance fvec expval_PauliZ prob (get_kernel_embedding self a b).

(** [v[0]] on the result of a node. *)
Definition item0 (v : value) : outcome Q :=
  match v with
  | Vector l => Py.getitem l 0
  | Scalar _ => Raise IndexError
  end.

(** [qkernel], local to [run] *)
Definition qkernel (self : Quantum_Kernel_Classification)
           (A B : list fvec) : outcome (list (list Q)) :=
  omap (fun a => omap (fun b => obind (kernel_circuit self a b) item0) B) A.

(** [run] *)
Definition run (self : Quantum_Kernel_Classification)
           (feature_vectors : list fvec) (labels : list Q)
           (training_ratio : Q) : outcome (Q * list Q) :=
  let d := split feature_vectors labels training_ratio in
  obind (svm_fit (qkernel self) (training_vectors d) (training_labels d)) (fun model =>
  obind (svm_score model (testing_vectors d) (testing_labels d)) (fun score =>
  obind (svm_predict model (testing_vectors d)) (fun predictions =>
  Done (score, predictions)))).

End Classifier.

End Kernel.

(** ** The entry point, [src/main.py] *)

Module Main.

(** The binary64 number that the literal [0.8] denotes. *)
Definition literal_0_8 : Q := 3602879701896397 # 4503599627370496.

Section Entry.

Variable fvec : Type.
Variable expval_PauliZ : tape fvec -> Z -> Q.
Variable prob : tape fvec -> list Z -> list bool -> Q.
Variable model : Type.
Variable svm_fit :
  (list fvec -> list fvec -> outcome (list (list Q))) ->
  list fvec -> list Q -> outcome model.
Variable svm_score : model -> list fvec -> list Q -> outcome Q.
Variable svm_predict : model -> list fvec -> outcome (list Q).

(** What [main] prints, in order. *)
Record printed : Type := {
  the_score : Q;
  the_predictions : list Q;
  the_true_labels : list Q
}.

(** [main]; the angle embedding on 4 positions is the [Embedding] of the
    tape, and the literal [0.8] is the rational 4/5: on fewer than 2^50
    labels the product with it has the integer part of the binary64 product
    with [literal_0_8]. *)
Definition main (feature_vectors : list fvec) (labels : list Q)
           (training_ratio : Q) : outcome printed :=
  let num_qubits := 4 in
  let kernel_qml := {| Kernel.num_qubits := num_qubits |} in
  obind (Kernel.run fvec expval_PauliZ prob model svm_fit svm_score svm_predict
                    kernel_qml feature_vectors labels training_ratio) (fun r =>
  let training_period := Py.int (inject_Z (Z.of_nat (length labels)) * (4 # 5))%Q in
  Done {| the_score := fst r;
          the_predictions := snd r;
          the_true_labels := Py.slice labels (Some training_period) None |}).

(** The [__main__] block, from the loaded dataset on. *)
Definition entry (dataset_vectors : list fvec) (dataset_labels : list Q)
  : outcome printed :=
  let feature_vectors := Py.slice dataset_vectors (Some 1949) (Some 2049) in
  let labels := Py.slice dataset_labels (Some 1949) (Some 2049) in
  let training_ratio := (4 # 5)%Q in
  main feature_vectors labels training_ratio.

End Entry.

End Main.

(** * Vocabulary of the statements *)

(** The angles of the rotation gates of a tape, in queue order: the
    parameters that the tape consumed. *)
Definition angles {fvec : Type} (t : tape fvec) : list Q :=
  flat_map (fun o => match o with RY theta _ => [theta] | _ => [] end) t.

(** One turn of the loop of the general convolution. *)
Definition conv_body {fvec : Type} (num_qubits : Z) (params : list Q) (i i_param : Z)
  : Circ fvec Z :=
  (let target_qubit := (i + Z.max (num_qubits - 3) 1) mod num_qubits in
   p0 <- lift (Py.getitem params i_param) ;;
   queue (RY p0 i) ;;;
   p1 <- lift (Py.getitem params (i_param + 1)) ;;
   queue (RY p1 target_qubit) ;;;
   QCNN.cnot fvec i target_qubit ;;;
   ret (i_param + 2))%circ.

(** The parameters that one convolution step consumes. *)
Definition conv_cost (size : Z) : Z := if size =? 2 then 2 else 2 * size.

(** The number of halving steps from [size] down to 1. *)
Definition steps (size : Z) : nat := Z.to_nat (Z.log2_up size).

(** What the constructor accumulates over [k] steps from [size]. *)
Fixpoint accumulated (k : nat) (size : Z) : Z :=
  match k with
  | O => 0
  | S k' => 2 * size + accumulated k' (Py.ceil_half size)
  end.

(** What the convolutions of [k] steps from [size] consume. *)
Fixpoint consumed (k : nat) (size : Z) : Z :=
  match k with
  | O => 0
  | S k' => conv_cost size + consumed k' (Py.ceil_half size)
  end.

(** A label of the QCNN is -1 or +1. *)
Definition valid_label (l : Q) : Prop := (l == 1)%Q \/ (l == -1)%Q.

(** An optimizer all of whose parameter vectors, those it evaluates and
    the one it returns, have at least [c] entries. *)
Fixpoint well_sized (c : Z) (o : optimizer) : Prop :=
  match o with
  | Return p => c <= Z.of_nat (length p)
  | Call p k => c <= Z.of_nat (length p) /\ forall cost, well_sized c (k cost)
  end.

(** The probability of the all-zero outcome, over all the positions, after
    the embedding of [a] followed by the adjoint of the embedding of [b]. *)
Definition kernel_value (fvec : Type)
           (prob : tape fvec -> list Z -> list bool -> Q)
           (self : Kernel.Quantum_Kernel_Classification) (a b : fvec) : Q :=
  let wires := Py.range 0 (Kernel.num_qubits self) in
  prob [Embedding a; Adjoint (Embedding b)] wires (repeat false (length wires)).

(** The target of the entangling gate of position [i] in the general
    convolution on [n] positions. *)
Definition conv_target (n i : Z) : Z := (i + Z.max (n - 3) 1) mod n.

(** The gates of the general convolution on [n] positions: one triple per
    position, with the parameters taken in order. *)
Definition conv_gates {fvec : Type} (n : Z) (params : list Q) : tape fvec :=
  flat_map (fun i => [RY (nth (Z.to_nat (2 * i)) params 0%Q) i;
                      RY (nth (Z.to_nat (2 * i + 1)) params 0%Q) (conv_target n i);
                      CNOT i (conv_target n i)])
           (Py.range 0 n).

(** The positions on which a rotation or an entangling gate acts. *)
Fixpoint op_wires {fvec : Type} (o : op fvec) : list Z :=
  match o with
  | RY _ w => [w]
  | CNOT c t => [c; t]
  | Embedding _ => []
  | Adjoint o' => op_wires o'
  end.

(** All the gates of a tape act on positions below [size]. *)
Definition within {fvec : Type} (size : Z) (t : tape fvec) : Prop :=
  Forall (fun o => Forall (fun w => 0 <= w < size) (op_wires o)) t.

(** The parameters that a convolution needs, whatever the size. *)
Definition conv_need (size : Z) : Z :=
  if size =? 2 then 2 else 2 * Z.max 0 size.

(** The gates of the base case of the convolution. *)
Definition base_gates {fvec : Type} (params : list Q) : tape fvec :=
  [RY (nth 0 params 0%Q) 0; RY (nth 1 params 0%Q) 1; CNOT 0 1].

(** ** A small concrete world, for the instances below *)

Module Example.

(** A simulator whose observable is the sum of the rotation angles queued
    (0 on the parameters below) and whose probabilities are uniform. *)
Definition expval_PauliZ (t : tape Z) (w : Z) : Q :=
  fold_right Qplus 0%Q (angles t).
Definition prob (t : tape Z) (ws : list Z) (o : list bool) : Q :=
  (1 # Pos.of_nat (length (basis_states (length ws))))%Q.
Definition get_score (predictions labels : list Q) : Z :=
  Z.of_nat (length (filter (fun pl => Qeq_bool (fst pl) (snd pl))
                           (combine predictions labels))).
Definition error_function (resulting_labels labels : list Q) : Q :=
  fold_right Qplus 0%Q
    (map (fun rl => (fst rl - snd rl) * (fst rl - snd rl))%Q
         (combine resulting_labels labels)).

Definition self : QCNN.QCNN_Solver :=
  {| QCNN.num_qubits := 2; QCNN.num_params := 2; QCNN.params := [1 # 2; -1 # 2]%Q |}.

Definition feature_vectors : list Z := Py.range 1 12.
Definition labels : list Q :=
  map (fun i => if Z.even i then 1%Q else (-1)%Q) (Py.range 1 12).

(** Optimizers that evaluate the cost function a fixed number of times at
    the initial parameters and return them. *)
Fixpoint calls (n : nat) (p : list Q) : optimizer :=
  match n with
  | O => Return p
  | S n' => Call p (fun _ => calls n' p)
  end.

(** An optimizer that evaluates the cost function [n] times at [p] and
    returns, in place of parameters, the costs it was given, in order and
    in lowest terms. *)
Fixpoint record (n : nat) (p : list Q) (seen : list Q) : optimizer :=
  match n with
  | O => Return seen
  | S n' => Call p (fun cost => record n' p (seen ++ [Qred cost]))
  end.

(** The content of a fresh array. *)
Definition uninitialised (i : nat) : Q := inject_Z (Z.of_nat i + 100).

(** A support vector machine that keeps its training set and predicts the
    first training label for every vector. *)
Definition svm_fit (kernel : list Z -> list Z -> outcome (list (list Q)))
           (X : list Z) (y : list Q) : outcome (list Z * list Q) :=
  obind (kernel X X) (fun _ => Done (X, y)).
Definition svm_predict (m : list Z * list Q) (X : list Z) : outcome (list Q) :=
  Done (map (fun _ => hd 0%Q (snd m)) X).
Definition svm_score (m : list Z * list Q) (X : list Z) (y : list Q) : outcome Q :=
  Done (inject_Z (get_score (map (fun _ => hd 0%Q (snd m)) X) y)).

End Example.

(** * Properties *)

(** ** The primitives *)

Lemma ceil_half_spec (a : Z) :
  2 * Py.ceil_half a - 1 <= a <= 2 * Py.ceil_half a.
Proof.
  unfold Py.ceil_half.
  pose proof (Z.div_eucl_eq a 2 ltac:(lia)) as E.
  pose proof (Z.mod_pos_bound a 2 ltac:(lia)) as B.
  unfold Z.modulo in B.
  destruct (Z.div_eucl a 2) as [q r].
  destruct (Z.eqb_spec r 0); lia.
Qed.

Lemma ceil_half_2 : Py.ceil_half 2 = 1.
Proof. reflexivity. Qed.

Lemma ceil_half_ge_2 (a : Z) : 3 <= a -> 2 <= Py.ceil_half a < a.
Proof. pose proof (ceil_half_spec a). lia. Qed.

Lemma range_nil (lo hi : Z) : hi <= lo -> Py.range lo hi = [].
Proof.
  intros H. unfold Py.range.
  replace (Z.to_nat (hi - lo)) with 0%nat by lia. reflexivity.
Qed.

Lemma range_cons (lo hi : Z) :
  lo < hi -> Py.range lo hi = lo :: Py.range (lo + 1) hi.
Proof.
  intros H. unfold Py.range.
  replace (Z.to_nat (hi - lo)) with (S (Z.to_nat (hi - (lo + 1)))) by lia.
  cbn [seq map]. f_equal; [lia|].
  rewrite <- seq_shift, map_map.
  apply map_ext. intros k. lia.
Qed.

Lemma range_length (lo hi : Z) : length (Py.range lo hi) = Z.to_nat (hi - lo).
Proof. unfold Py.range. now rewrite length_map, length_seq. Qed.

Lemma range_nth (lo hi k : Z) :
  0 <= k < hi - lo -> nth_error (Py.range lo hi) (Z.to_nat k) = Some (lo + k).
Proof.
  intros H. unfold Py.range.
  rewrite nth_error_map, nth_error_seq.
  destruct (Nat.ltb_spec (Z.to_nat k) (Z.to_nat (hi - lo))); [|lia].
  cbn. f_equal. lia.
Qed.

Lemma range_In (lo hi i : Z) : In i (Py.range lo hi) <-> lo <= i < hi.
Proof.
  unfold Py.range. rewrite in_map_iff. split.
  - intros (k & <- & Hk). apply in_seq in Hk. lia.
  - intros H. exists (Z.to_nat (i - lo)). split; [lia|].
    apply in_seq. lia.
Qed.

(** A list with its length as measure: induction over ranges. *)
Lemma range_ind (P : Z -> Z -> Prop) :
  (forall lo hi, hi <= lo -> P lo hi) ->
  (forall lo hi, lo < hi -> P (lo + 1) hi -> P lo hi) ->
  forall lo hi, P lo hi.
Proof.
  intros Hnil Hcons lo hi.
  remember (Z.to_nat (hi - lo)) as n eqn:En.
  revert lo En. induction n as [|n IH]; intros lo En.
  - apply Hnil. lia.
  - apply Hcons; [lia|]. apply IH. lia.
Qed.

Lemma getitem_nth {A : Type} (l : list A) (i : Z) (x : A) :
  0 <= i -> nth_error l (Z.to_nat i) = Some x -> Py.getitem l i = Done x.
Proof.
  intros Hi Hx. unfold Py.getitem.
  assert (Hlt : (Z.to_nat i < length l)%nat)
    by (apply nth_error_Some; congruence).
  destruct (Z.ltb_spec i 0); [lia|].
  destruct (Z.leb_spec 0 i); [|lia].
  destruct (Z.ltb_spec i (Z.of_nat (length l))); [|lia].
  cbn. now rewrite Hx.
Qed.

Lemma slice_from {A : Type} (l : list A) (a : Z) :
  0 <= a -> Py.slice l (Some a) None = skipn (Z.to_nat a) l.
Proof.
  intros Ha. unfold Py.slice, Py.clamp.
  destruct (Z.ltb_spec a 0); [lia|].
  destruct (Z.le_gt_cases a (Z.of_nat (length l))).
  - rewrite Z.min_l by lia.
    apply firstn_all2. rewrite length_skipn. lia.
  - rewrite Z.min_r by lia.
    rewrite (skipn_all2 l (n := Z.to_nat a)) by lia.
    rewrite skipn_all2 by lia. now rewrite firstn_nil.
Qed.

Lemma slice_to {A : Type} (l : list A) (b : Z) :
  0 <= b -> Py.slice l None (Some b) = firstn (Z.to_nat b) l.
Proof.
  intros Hb. unfold Py.slice, Py.clamp.
  destruct (Z.ltb_spec b 0); [lia|].
  cbn [Z.to_nat skipn]. rewrite Z.sub_0_r.
  destruct (Z.le_gt_cases b (Z.of_nat (length l))).
  - now rewrite Z.min_l by lia.
  - rewrite Z.min_r by lia.
    rewrite !firstn_all2 by lia. reflexivity.
Qed.

Lemma slice_between {A : Type} (l : list A) (a b : Z) :
  0 <= a <= b ->
  Py.slice l (Some a) (Some b) = firstn (Z.to_nat (b - a)) (skipn (Z.to_nat a) l).
Proof.
  intros Hab. unfold Py.slice, Py.clamp.
  destruct (Z.ltb_spec a 0); [lia|].
  destruct (Z.ltb_spec b 0); [lia|].
  set (len := Z.of_nat (length l)).
  destruct (Z.le_gt_cases b len).
  - now rewrite !Z.min_l by lia.
  - rewrite (Z.min_r b) by lia.
    destruct (Z.le_gt_cases a len).
    + rewrite Z.min_l by lia.
      rewrite !firstn_all2; [reflexivity| |]; rewrite length_skipn; lia.
    + rewrite Z.min_r by lia.
      rewrite (skipn_all2 l (n := Z.to_nat a)) by lia.
      rewrite skipn_all2 by lia. now rewrite !firstn_nil.
Qed.

Lemma int_nonneg (x : Q) : (0 <= x)%Q -> Py.int x = Qfloor x.
Proof.
  intros H. unfold Py.int. destruct x as [n d]. cbn.
  unfold Qle in H. cbn in H.
  apply Z.quot_div_nonneg; lia.
Qed.

(** ** The circuit steps *)

(** *** Rounding *)

Lemma rne_lower (A M : Z) (b : positive) :
  M * Z.pos b <= A -> M <= Py.rne A b.
Proof.
  intros H. unfold Py.rne.
  assert (Hq : M <= A / Z.pos b) by (apply Z.div_le_lower_bound; lia).
  destruct (2 * (A mod Z.pos b) ?= Z.pos b); [destruct (Z.even _)| |]; lia.
Qed.

Lemma rne_upper (A M : Z) (b : positive) :
  A <= M * Z.pos b -> Py.rne A b <= M.
Proof.
  intros H. unfold Py.rne.
  pose proof (Z.div_mod A (Z.pos b) ltac:(lia)) as Hdm.
  pose proof (Z.mod_pos_bound A (Z.pos b) ltac:(lia)) as Hr.
  assert (Hq : A / Z.pos b <= M) by (apply Z.div_le_upper_bound; lia).
  destruct (Z.eq_dec (A / Z.pos b) M) as [E|E].
  - assert (Hr0 : A mod Z.pos b = 0) by nia.
    rewrite Hr0. cbn. lia.
  - destruct (2 * (A mod Z.pos b) ?= Z.pos b); [destruct (Z.even _)| |]; lia.
Qed.

Lemma round64_pos_lower (a n : Z) (b : positive) :
  0 <= n -> n * Z.pos b <= a -> (inject_Z n <= Py.round64_pos a b)%Q.
Proof.
  intros Hn H. unfold Py.round64_pos.
  destruct (Z.pos b * 2 ^ 53 <=? a).
  - unfold Qle, inject_Z. cbn. lia.
  - set (s := Py.grid_bits a b).
    assert (Hs : 0 < 2 ^ s)
      by (apply Z.pow_pos_nonneg; [lia | unfold s, Py.grid_bits; lia]).
    pose proof (rne_lower (a * 2 ^ s) (n * 2 ^ s) b ltac:(nia)) as Hm.
    unfold Qle, inject_Z. cbn [Qnum Qden].
    rewrite Z2Pos.id by exact Hs. lia.
Qed.

Lemma round64_pos_upper (a n : Z) (b : positive) :
  0 <= n -> a <= n * Z.pos b -> (Py.round64_pos a b <= inject_Z n)%Q.
Proof.
  intros Hn H. unfold Py.round64_pos.
  destruct (Z.pos b * 2 ^ 53 <=? a).
  - unfold Qle, inject_Z. cbn. lia.
  - set (s := Py.grid_bits a b).
    assert (Hs : 0 < 2 ^ s)
      by (apply Z.pow_pos_nonneg; [lia | unfold s, Py.grid_bits; lia]).
    pose proof (rne_upper (a * 2 ^ s) (n * 2 ^ s) b ltac:(nia)) as Hm.
    unfold Qle, inject_Z. cbn [Qnum Qden].
    rewrite Z2Pos.id by exact Hs. lia.
Qed.

(** Rounding never crosses an integer: integers are binary64 numbers. *)
Lemma round64_lower (x : Q) (n : Z) :
  0 <= n -> (inject_Z n <= x)%Q -> (inject_Z n <= Py.round64 x)%Q.
Proof.
  intros Hn H. destruct x as [a b]. unfold Py.round64. cbn [Qnum Qden].
  unfold Qle, inject_Z in H. cbn in H.
  destruct a as [|p|p].
  - unfold Qle, inject_Z. cbn. lia.
  - apply round64_pos_lower; lia.
  - lia.
Qed.

Lemma round64_upper (x : Q) (n : Z) :
  (0 <= x)%Q -> (x <= inject_Z n)%Q -> (Py.round64 x <= inject_Z n)%Q.
Proof.
  intros H0 H. destruct x as [a b]. unfold Py.round64. cbn [Qnum Qden].
  unfold Qle, inject_Z in H0, H. cbn in H0, H.
  destruct a as [|p|p].
  - unfold Qle, inject_Z. cbn. lia.
  - apply round64_pos_upper; lia.
  - lia.
Qed.

Lemma int_between (y : Q) (n : Z) :
  0 <= n -> (inject_Z n <= y)%Q -> (y < inject_Z (n + 1))%Q -> Py.int y = n.
Proof.
  intros Hn Hlo Hhi. destruct y as [a b].
  unfold Qle, Qlt, inject_Z in Hlo, Hhi. cbn in Hlo, Hhi.
  unfold Py.int. cbn [Qnum Qden].
  rewrite Z.quot_div_nonneg by lia.
  symmetry. apply (Z.div_unique a (Z.pos b) n (a - n * Z.pos b)); lia.
Qed.

Lemma int_ge (y : Q) (n : Z) :
  0 <= n -> (inject_Z n <= y)%Q -> n <= Py.int y.
Proof.
  intros Hn H. destruct y as [a b].
  unfold Qle, inject_Z in H. cbn in H.
  unfold Py.int. cbn [Qnum Qden].
  rewrite Z.quot_div_nonneg by lia.
  apply Z.div_le_lower_bound; lia.
Qed.

Lemma int_le (y : Q) (n : Z) :
  (0 <= y)%Q -> (y <= inject_Z n)%Q -> Py.int y <= n.
Proof.
  intros H0 H. destruct y as [a b].
  unfold Qle, inject_Z in H0, H. cbn in H0, H.
  unfold Py.int. cbn [Qnum Qden].
  rewrite Z.quot_div_nonneg by lia.
  apply Z.div_le_upper_bound; lia.
Qed.

(** The truncated rounded value is the floor of the exact value, or one
    more when the value rounds up to the next integer. *)
Lemma int_round64 (x : Q) :
  (0 <= x)%Q ->
  Py.int (Py.round64 x) = Qfloor x
  \/ (Py.int (Py.round64 x) = Qfloor x + 1
      /\ (Py.round64 x == inject_Z (Qfloor x + 1))%Q).
Proof.
  intros H0.
  assert (HF : 0 <= Qfloor x).
  { change 0 with (Qfloor 0). now apply Qfloor_resp_le. }
  pose proof (round64_lower x (Qfloor x) HF (Qfloor_le x)) as Hlo.
  pose proof (round64_upper x (Qfloor x + 1) H0
                (Qlt_le_weak _ _ (Qlt_floor x))) as Hhi.
  destruct (Qlt_le_dec (Py.round64 x) (inject_Z (Qfloor x + 1))) as [Hlt|Hge].
  - left. now apply int_between.
  - right. split; [|now apply Qle_antisym].
    apply int_between; [lia|exact Hge|].
    eapply Qle_lt_trans; [exact Hhi|].
    rewrite <- Zlt_Qlt. lia.
Qed.

Lemma angles_app {fvec : Type} (t1 t2 : tape fvec) :
  angles (t1 ++ t2) = angles t1 ++ angles t2.
Proof. apply flat_map_app. Qed.

Lemma skipn_two {A : Type} (l : list A) (i : nat) :
  (i + 2 <= length l)%nat ->
  exists x y, nth_error l i = Some x /\ nth_error l (S i) = Some y
              /\ skipn i l = x :: y :: skipn (i + 2) l.
Proof.
  revert l. induction i as [|i IH]; intros l H.
  - destruct l as [|x [|y l]]; cbn in H; try lia.
    exists x, y. auto.
  - destruct l as [|z l]; cbn in H; [lia|].
    destruct (IH l ltac:(lia)) as (x & y & Hx & Hy & E).
    exists x, y. cbn. auto.
Qed.

Section Steps.

Context {fvec : Type}.

Lemma cnot_run (c g : Z) (t : tape fvec) :
  c <> g -> QCNN.cnot fvec c g t = Done (tt, t ++ [CNOT c g]).
Proof.
  intros H. unfold QCNN.cnot. destruct (Z.eqb_spec c g); [contradiction|].
  reflexivity.
Qed.

Lemma cnot_same (c : Z) (t : tape fvec) :
  QCNN.cnot fvec c c t = Raise ValueError.
Proof. unfold QCNN.cnot. now rewrite Z.eqb_refl. Qed.

Lemma for_cnot (f g : Z -> Z) (l : list Z) (t : tape fvec) :
  (forall i, In i l -> f i <> g i) ->
  for_ l (fun i _ => QCNN.cnot fvec (f i) (g i)) tt t
  = Done (tt, t ++ map (fun i => CNOT (f i) (g i)) l).
Proof.
  revert t. induction l as [|i l IH]; intros t H; cbn [for_ map].
  - unfold ret. now rewrite app_nil_r.
  - unfold bind at 1. rewrite cnot_run by (apply H; now left).
    rewrite IH by (intros j Hj; apply H; now right).
    now rewrite <- app_assoc.
Qed.

Lemma pool_run (old_size : Z) (t : tape fvec) :
  QCNN.pool fvec old_size t =
  Done (Py.ceil_half old_size,
        t ++ map (fun i => CNOT i (old_size - i - 1))
                 (Py.range (Py.ceil_half old_size) old_size)).
Proof.
  unfold QCNN.pool, bind.
  rewrite (for_cnot (fun i => i) (fun i => old_size - i - 1)); [reflexivity|].
  intros i Hi. apply range_In in Hi.
  pose proof (ceil_half_spec old_size). lia.
Qed.

(** From 2 positions on, the target of a position in the general
    convolution is another position. *)
Lemma conv_target_other (n i : Z) :
  2 <= n -> 0 <= i < n -> i <> (i + Z.max (n - 3) 1) mod n.
Proof.
  intros Hn Hi. set (o := Z.max (n - 3) 1).
  assert (Ho : 1 <= o < n) by (unfold o; lia).
  destruct (Z.lt_ge_cases (i + o) n) as [Hs|Hs].
  - rewrite Z.mod_small by lia. lia.
  - rewrite <- (Z.mod_unique (i + o) n 1 (i + o - n)); lia.
Qed.

Lemma angles_cnots (f g : Z -> Z) (l : list Z) :
  angles (map (fun i => @CNOT fvec (f i) (g i)) l) = [].
Proof. induction l; cbn; auto. Qed.

Lemma conv_body_run (n : Z) (params : list Q) (i i_param : Z) (t : tape fvec) :
  2 <= n -> 0 <= i < n ->
  0 <= i_param -> i_param + 2 <= Z.of_nat (length params) ->
  exists p0 p1,
    skipn (Z.to_nat i_param) params
    = p0 :: p1 :: skipn (Z.to_nat (i_param + 2)) params
    /\ conv_body n params i i_param t
       = Done (i_param + 2,
               t ++ [RY p0 i;
                     RY p1 ((i + Z.max (n - 3) 1) mod n);
                     CNOT i ((i + Z.max (n - 3) 1) mod n)]).
Proof.
  intros Hn Hi H0 Hlen.
  destruct (skipn_two params (Z.to_nat i_param) ltac:(lia))
    as (p0 & p1 & E0 & E1 & Esk).
  exists p0, p1. split.
  - rewrite Esk. do 3 f_equal. lia.
  - unfold conv_body, bind, lift, queue, ret.
    rewrite (getitem_nth params i_param p0) by auto.
    rewrite (getitem_nth params (i_param + 1) p1)
      by (try lia; now replace (Z.to_nat (i_param + 1)) with (S (Z.to_nat i_param)) by lia).
    rewrite cnot_run by now apply conv_target_other.
    rewrite <- !app_assoc. reflexivity.
Qed.

Lemma conv_loop_run (n : Z) (params : list Q) (lo hi : Z) :
  2 <= n ->
  forall (i_param : Z) (t : tape fvec),
    0 <= lo -> hi <= n ->
    0 <= i_param ->
    i_param + 2 * Z.max 0 (hi - lo) <= Z.of_nat (length params) ->
    exists gates,
      for_ (Py.range lo hi) (conv_body n params) i_param t
      = Done (i_param + 2 * Z.max 0 (hi - lo), t ++ gates)
      /\ angles gates
         = firstn (Z.to_nat (2 * Z.max 0 (hi - lo)))
                  (skipn (Z.to_nat i_param) params)
      /\ Z.of_nat (length gates) = 3 * Z.max 0 (hi - lo).
Proof.
  intros Hn. pattern lo, hi. apply range_ind; clear lo hi.
  - intros lo hi Hle i_param t Hlo Hhi H0 Hlen.
    rewrite range_nil by auto. rewrite Z.max_l by lia.
    exists []. cbn. rewrite app_nil_r, Z.add_0_r. auto.
  - intros lo hi Hlt IH i_param t Hlo Hhi H0 Hlen.
    rewrite Z.max_r in * by lia.
    rewrite range_cons by auto. cbn [for_]. unfold bind at 1.
    destruct (conv_body_run n params lo i_param t Hn ltac:(lia) H0 ltac:(lia))
      as (p0 & p1 & Esk & ->).
    destruct (IH (i_param + 2)
                (t ++ [RY p0 lo; RY p1 ((lo + Z.max (n - 3) 1) mod n);
                       CNOT lo ((lo + Z.max (n - 3) 1) mod n)])
                ltac:(lia) Hhi ltac:(lia) ltac:(lia))
      as (gates & -> & Hang & Hlen').
    eexists. rewrite <- app_assoc. split; [f_equal; f_equal; lia|].
    split.
    + rewrite angles_app, Hang, Esk. cbn [angles flat_map app].
      replace (Z.to_nat (2 * (hi - lo)))
        with (S (S (Z.to_nat (2 * (hi - (lo + 1)))))) by lia.
      reflexivity.
    + rewrite length_app. cbn [length]. lia.
Qed.

Lemma convolution_general_run (n : Z) (params : list Q) (t : tape fvec) :
  2 <= n ->
  2 * Z.max 0 n <= Z.of_nat (length params) ->
  exists gates,
    QCNN.convolution_general fvec n params t = Done (2 * Z.max 0 n, t ++ gates)
    /\ angles gates = firstn (Z.to_nat (2 * Z.max 0 n)) params
    /\ Z.of_nat (length gates) = 3 * Z.max 0 n.
Proof.
  intros Hn Hlen.
  destruct (conv_loop_run n params 0 n Hn 0 t ltac:(lia) ltac:(lia) ltac:(lia)
              ltac:(rewrite Z.sub_0_r; lia))
    as (gates & E & Hang & Hl).
  rewrite Z.sub_0_r in *. exists gates. auto.
Qed.

Lemma convolution_base_run (p0 p1 : Q) (rest : list Q) (t : tape fvec) :
  QCNN.convolution fvec 2 (p0 :: p1 :: rest) t
  = Done (2, t ++ [RY p0 0; RY p1 1; CNOT 0 1]).
Proof.
  unfold QCNN.convolution. cbn [Z.eqb Pos.eqb].
  unfold bind, lift, queue, ret.
  rewrite (getitem_nth (p0 :: p1 :: rest) 0 p0) by (cbn; auto; lia).
  rewrite (getitem_nth (p0 :: p1 :: rest) 1 p1) by (cbn; auto; lia).
  rewrite cnot_run by lia.
  rewrite <- !app_assoc. reflexivity.
Qed.

Lemma convolution_run (n : Z) (params : list Q) (t : tape fvec) :
  2 <= n -> conv_cost n <= Z.of_nat (length params) ->
  exists gates,
    QCNN.convolution fvec n params t = Done (conv_cost n, t ++ gates)
    /\ angles gates = firstn (Z.to_nat (conv_cost n)) params.
Proof.
  intros Hn Hlen. unfold conv_cost in *.
  destruct (Z.eqb_spec n 2) as [->|Hne].
  - destruct params as [|p0 [|p1 rest]]; cbn in Hlen; try lia.
    eexists. rewrite convolution_base_run. split; reflexivity.
  - unfold QCNN.convolution.
    destruct (Z.eqb_spec n 2); [contradiction|].
    destruct (convolution_general_run n params t Hn ltac:(lia))
      as (gates & E & Hang & _).
    rewrite Z.max_r in * by lia. exists gates. auto.
Qed.

End Steps.

(** ** The qubit-count trajectory *)

Lemma log2_up_ceil_half (s : Z) :
  2 <= s -> Z.log2_up (Py.ceil_half s) = Z.log2_up s - 1.
Proof.
  intros Hs.
  destruct (Z.eq_dec s 2) as [->|Hne]; [reflexivity|].
  pose proof (ceil_half_spec s) as Hc.
  pose proof (Z.log2_up_spec s ltac:(lia)) as [Hlo Hhi].
  assert (Hk : 2 <= Z.log2_up s).
  { destruct (Z.le_gt_cases 2 (Z.log2_up s)) as [|Hlt]; auto.
    assert (Hpow : 2 ^ Z.log2_up s <= 2 ^ 1)
      by (apply Z.pow_le_mono_r; lia).
    change (2 ^ 1) with 2 in Hpow. lia. }
  apply Z.log2_up_unique; [lia|].
  set (k := Z.log2_up s) in *.
  assert (E1 : 2 ^ (k - 1) = 2 * 2 ^ (k - 2)).
  { replace (k - 1) with (Z.succ (k - 2)) by lia. apply Z.pow_succ_r. lia. }
  assert (E2 : 2 ^ k = 2 * 2 ^ (k - 1)).
  { replace k with (Z.succ (k - 1)) at 1 by lia. apply Z.pow_succ_r. lia. }
  replace (Z.pred k) with (k - 1) in Hlo by lia.
  replace (Z.pred (k - 1)) with (k - 2) by lia.
  lia.
Qed.

Lemma steps_2 : steps 2 = 1%nat.
Proof. reflexivity. Qed.

Lemma steps_succ (s : Z) : 3 <= s -> steps s = S (steps (Py.ceil_half s)).
Proof.
  intros Hs. unfold steps. rewrite log2_up_ceil_half by lia.
  pose proof (Z.log2_up_pos s ltac:(lia)). lia.
Qed.

Lemma steps_pos (s : Z) : 2 <= s -> (1 <= steps s)%nat.
Proof.
  intros Hs. unfold steps. pose proof (Z.log2_up_pos s ltac:(lia)). lia.
Qed.

(** Case analysis along the trajectory: a size of 2 is the last step, a
    larger one is followed by a size that is again at least 2. *)
Lemma steps_cases (k : nat) (s : Z) :
  2 <= s -> steps s = k ->
  (s = 2 /\ k = 1%nat) \/
  (3 <= s /\ 2 <= Py.ceil_half s /\ exists k', k = S k' /\ steps (Py.ceil_half s) = k').
Proof.
  intros Hs Hk.
  destruct (Z.eq_dec s 2) as [->|Hne].
  - left. split; [reflexivity|]. now rewrite <- Hk.
  - right. pose proof (ceil_half_ge_2 s ltac:(lia)).
    repeat split; try lia.
    exists (steps (Py.ceil_half s)). split; [|reflexivity].
    rewrite <- Hk. apply steps_succ. lia.
Qed.

Lemma trajectory_iter (k : nat) :
  forall s, 2 <= s -> steps s = k ->
    Nat.iter k Py.ceil_half s = 1
    /\ forall j, (j < k)%nat -> 1 < Nat.iter j Py.ceil_half s.
Proof.
  induction k as [|k IH]; intros s Hs Hk.
  - pose proof (steps_pos s Hs). lia.
  - destruct (steps_cases (S k) s Hs Hk)
      as [[-> Hk1] | (H3 & Hc & k' & Ek & Hk')].
    + injection Hk1 as ->. split; [reflexivity|].
      intros j Hj. replace j with 0%nat by lia. cbn. lia.
    + injection Ek as ->. destruct (IH _ Hc Hk') as [Hone Hgt].
      split.
      * now rewrite Nat.iter_succ_r.
      * intros [|j] Hj; [cbn; lia|].
        rewrite Nat.iter_succ_r. apply Hgt. lia.
Qed.

Lemma conv_cost_ge (s : Z) : 2 <= s -> 2 <= conv_cost s.
Proof. unfold conv_cost. destruct (Z.eqb_spec s 2); lia. Qed.

Lemma consumed_nonneg (k : nat) :
  forall s, 2 <= s -> steps s = k -> 0 <= consumed k s.
Proof.
  induction k as [|k IH]; intros s Hs Hk; cbn; [lia|].
  pose proof (conv_cost_ge s Hs).
  destruct (steps_cases (S k) s Hs Hk)
    as [[-> Hk1] | (H3 & Hc & k' & Ek & Hk')].
  - injection Hk1 as ->. cbn. lia.
  - injection Ek as ->. specialize (IH _ Hc Hk'). lia.
Qed.

(** The correction term of the constructor: the accumulation counts 4 for
    the last step, the base case of the convolution consumes 2. *)
Lemma accumulated_consumed (k : nat) :
  forall s, 2 <= s -> steps s = k -> accumulated k s - 2 = consumed k s.
Proof.
  induction k as [|k IH]; intros s Hs Hk.
  - pose proof (steps_pos s Hs). lia.
  - destruct (steps_cases (S k) s Hs Hk)
      as [[-> Hk1] | (H3 & Hc & k' & Ek & Hk')].
    + injection Hk1 as ->. reflexivity.
    + injection Ek as ->. cbn [accumulated consumed].
      specialize (IH _ Hc Hk').
      unfold conv_cost. destruct (Z.eqb_spec s 2); lia.
Qed.

(** ** The two loops *)

Lemma count_loop_run (k : nat) :
  forall s fuel acc, 2 <= s -> steps s = k -> (k <= fuel)%nat ->
    QCNN.count_loop fuel acc s = Done (acc + accumulated k s).
Proof.
  induction k as [|k IH]; intros s fuel acc Hs Hk Hf.
  - pose proof (steps_pos s Hs). lia.
  - destruct fuel as [|fuel]; [lia|]. cbn [QCNN.count_loop accumulated].
    destruct (Z.gtb_spec s 1); [|lia].
    destruct (steps_cases (S k) s Hs Hk)
      as [[-> Hk1] | (H3 & Hc & k' & Ek & Hk')].
    + injection Hk1 as ->. rewrite ceil_half_2.
      destruct fuel; cbn; f_equal; lia.
    + injection Ek as ->. rewrite (IH _ fuel _ Hc Hk') by lia.
      f_equal. lia.
Qed.

Lemma count_loop_short (k : nat) :
  forall s fuel acc, 2 <= s -> steps s = k -> (fuel < k)%nat ->
    QCNN.count_loop fuel acc s = OutOfFuel.
Proof.
  induction k as [|k IH]; intros s fuel acc Hs Hk Hf; [lia|].
  destruct fuel as [|fuel]; cbn [QCNN.count_loop];
    (destruct (Z.gtb_spec s 1); [|lia]); [reflexivity|].
  destruct (steps_cases (S k) s Hs Hk)
    as [[-> Hk1] | (H3 & Hc & k' & Ek & Hk')]; [lia|].
  injection Ek as ->. apply (IH _ fuel _ Hc Hk'). lia.
Qed.

Lemma count_loop_small (fuel : nat) (acc s : Z) :
  s <= 1 -> QCNN.count_loop fuel acc s = Done acc.
Proof.
  intros Hs. destruct fuel; cbn; destruct (Z.gtb_spec s 1); auto; lia.
Qed.

Lemma firstn_plus {A : Type} (a b : nat) :
  forall l : list A, firstn (a + b) l = firstn a l ++ firstn b (skipn a l).
Proof.
  induction a as [|a IH]; intros l; [reflexivity|].
  destruct l as [|x l]; cbn; [now rewrite firstn_nil|].
  now rewrite IH.
Qed.

Section Layers.

Context {fvec : Type}.

Lemma layers_S (fuel : nat) (params : list Q) (u s : Z) (t : tape fvec) :
  QCNN.layers fvec (S fuel) params u s t =
  match QCNN.convolution fvec s (Py.slice params (Some u) None) t with
  | Done (used, t') =>
      match QCNN.pool fvec s t' with
      | Done (s', t'') =>
          if s' =? 1 then Done (u + used, s', t'')
          else QCNN.layers fvec fuel params (u + used) s' t''
      | Raise e => Raise e
      | OutOfFuel => OutOfFuel
      end
  | Raise e => Raise e
  | OutOfFuel => OutOfFuel
  end.
Proof.
  cbn [QCNN.layers]. unfold bind.
  destruct (QCNN.convolution fvec s _ t) as [[used t']| |]; auto.
  destruct (QCNN.pool fvec s t') as [[s' t'']| |]; auto.
  destruct (s' =? 1); reflexivity.
Qed.

(** With enough fuel and enough parameters the loop ends at size 1,
    having consumed [consumed k s] parameters, in order and once each. *)
Lemma layers_run (k : nat) :
  forall s fuel params u (t : tape fvec),
    2 <= s -> steps s = k -> (k <= fuel)%nat -> 0 <= u ->
    u + consumed k s <= Z.of_nat (length params) ->
    exists gates,
      QCNN.layers fvec fuel params u s t = Done (u + consumed k s, 1, t ++ gates)
      /\ angles gates
         = firstn (Z.to_nat (consumed k s)) (skipn (Z.to_nat u) params).
Proof.
  induction k as [|k IH]; intros s fuel params u t Hs Hk Hf Hu Hlen.
  - pose proof (steps_pos s Hs). lia.
  - destruct fuel as [|fuel]; [lia|].
    rewrite layers_S, slice_from by auto.
    pose proof (conv_cost_ge s Hs) as Hcost.
    cbn [consumed] in *.
    destruct (steps_cases (S k) s Hs Hk)
      as [[-> Hk1] | (H3 & Hc & k' & Ek & Hk')].
    + injection Hk1 as ->. cbn [consumed] in *.
      destruct (convolution_run 2 (skipn (Z.to_nat u) params) t
                  ltac:(lia) ltac:(rewrite length_skipn; lia))
        as (g1 & -> & Hang).
      rewrite pool_run, ceil_half_2. cbn [Z.eqb Pos.eqb].
      eexists. split; [rewrite <- app_assoc; reflexivity|].
      rewrite angles_app, angles_cnots, app_nil_r, Hang.
      now rewrite Z.add_0_r.
    + injection Ek as ->.
      pose proof (consumed_nonneg _ _ Hc Hk') as Hnn.
      destruct (convolution_run s (skipn (Z.to_nat u) params) t
                  ltac:(lia) ltac:(rewrite length_skipn; lia))
        as (g1 & -> & Hang1).
      rewrite pool_run.
      destruct (Z.eqb_spec (Py.ceil_half s) 1); [lia|].
      destruct (IH (Py.ceil_half s) fuel params (u + conv_cost s)
                  ((t ++ g1) ++ map (fun i => CNOT i (s - i - 1))
                                    (Py.range (Py.ceil_half s) s))
                  Hc Hk' ltac:(lia) ltac:(lia) ltac:(lia))
        as (g2 & -> & Hang2).
      eexists. split; [rewrite <- !app_assoc, Z.add_assoc; reflexivity|].
      rewrite !angles_app, angles_cnots, Hang1, Hang2. cbn [app].
      rewrite (Z2Nat.inj_add (conv_cost s)), firstn_plus, skipn_skipn by lia.
      do 3 f_equal. lia.
Qed.

(** With less fuel than steps the loop is still running when the fuel is
    spent. *)
Lemma layers_short (k : nat) :
  forall s fuel params u (t : tape fvec),
    2 <= s -> steps s = k -> (fuel < k)%nat -> 0 <= u ->
    u + consumed k s <= Z.of_nat (length params) ->
    QCNN.layers fvec fuel params u s t = OutOfFuel.
Proof.
  induction k as [|k IH]; intros s fuel params u t Hs Hk Hf Hu Hlen; [lia|].
  destruct fuel as [|fuel]; [reflexivity|].
  rewrite layers_S, slice_from by auto.
  pose proof (conv_cost_ge s Hs) as Hcost.
  cbn [consumed] in *.
  destruct (steps_cases (S k) s Hs Hk)
    as [[-> Hk1] | (H3 & Hc & k' & Ek & Hk')]; [lia|].
  injection Ek as ->.
  pose proof (consumed_nonneg _ _ Hc Hk') as Hnn.
  destruct (convolution_run s (skipn (Z.to_nat u) params) t
              ltac:(lia) ltac:(rewrite length_skipn; lia))
    as (g1 & -> & _).
  rewrite pool_run.
  destruct (Z.eqb_spec (Py.ceil_half s) 1); [lia|].
  apply (IH _ fuel); auto; lia.
Qed.

Lemma for_terminates {S : Type} (body : Z -> S -> Circ fvec S) (l : list Z) :
  (forall i s t, body i s t <> OutOfFuel) ->
  forall s t, for_ l body s t <> OutOfFuel.
Proof.
  intros Hb. induction l as [|i l IH]; intros s t; cbn; [discriminate|].
  unfold bind. specialize (Hb i s t).
  destruct (body i s t) as [[s' t']| |]; [apply IH|discriminate|contradiction].
Qed.

Lemma convolution_terminates (n : Z) (params : list Q) (t : tape fvec) :
  QCNN.convolution fvec n params t <> OutOfFuel.
Proof.
  assert (Hget : forall (l : list Q) i, Py.getitem l i <> OutOfFuel).
  { intros l i. unfold Py.getitem.
    destruct (_ && _); [|discriminate].
    destruct (nth_error _ _); discriminate. }
  unfold QCNN.convolution. destruct (n =? 2).
  - unfold bind, lift, queue, ret, QCNN.cnot.
    pose proof (Hget params 0). pose proof (Hget params 1).
    destruct (Py.getitem params 0); try easy.
    destruct (Py.getitem params 1); easy.
  - apply for_terminates. intros i s t'.
    unfold bind, lift, queue, ret, QCNN.cnot.
    pose proof (Hget params s). pose proof (Hget params (s + 1)).
    destruct (Py.getitem params s); try easy.
    destruct (Py.getitem params (s + 1)); try easy.
    destruct (_ =? _); easy.
Qed.

(** Whatever the parameters, the loop ends (with a result or with an
    exception) within [steps s] turns. *)
Lemma layers_terminates (k : nat) :
  forall s fuel params u (t : tape fvec),
    2 <= s -> steps s = k -> (k <= fuel)%nat ->
    QCNN.layers fvec fuel params u s t <> OutOfFuel.
Proof.
  induction k as [|k IH]; intros s fuel params u t Hs Hk Hf.
  - pose proof (steps_pos s Hs). lia.
  - destruct fuel as [|fuel]; [lia|]. rewrite layers_S.
    pose proof (convolution_terminates s (Py.slice params (Some u) None) t) as Hc.
    destruct (QCNN.convolution fvec s _ t) as [[used t']| |];
      [|discriminate|contradiction].
    rewrite pool_run.
    destruct (Z.eqb_spec (Py.ceil_half s) 1); [discriminate|].
    destruct (steps_cases (S k) s Hs Hk)
      as [[-> Hk1] | (H3 & Hc' & k' & Ek & Hk')]; [cbn in *; lia|].
    injection Ek as ->. apply (IH _ fuel); auto; lia.
Qed.

End Layers.

Lemma consumed_ge_2 (k : nat) (s : Z) :
  2 <= s -> steps s = k -> 2 <= consumed k s.
Proof.
  intros Hs Hk. pose proof (conv_cost_ge s Hs).
  destruct (steps_cases k s Hs Hk)
    as [[-> ->] | (H3 & Hc & k' & -> & Hk')].
  - cbn. lia.
  - cbn [consumed]. pose proof (consumed_nonneg _ _ Hc Hk'). lia.
Qed.

Lemma count_params_run (n : Z) (fuel : nat) :
  2 <= n -> (steps n <= fuel)%nat ->
  QCNN.count_params fuel n = Done (consumed (steps n) n).
Proof.
  intros Hn Hf. unfold QCNN.count_params.
  rewrite (count_loop_run (steps n)) by auto. cbn [obind].
  f_equal. rewrite <- (accumulated_consumed (steps n)) by auto. lia.
Qed.

Lemma init_run (n : Z) (fuel : nat) (draw : nat -> Q) :
  2 <= n -> (steps n <= fuel)%nat ->
  exists self,
    QCNN.init fuel draw n = Done self
    /\ QCNN.num_qubits self = n
    /\ QCNN.num_params self = consumed (steps n) n
    /\ Z.of_nat (length (QCNN.params self)) = consumed (steps n) n.
Proof.
  intros Hn Hf. unfold QCNN.init. rewrite count_params_run by auto.
  pose proof (consumed_ge_2 (steps n) n Hn eq_refl) as Hc.
  cbn [obind]. unfold Py.randn.
  destruct (Z.ltb_spec (consumed (steps n) n) 0); [lia|].
  cbn [obind]. eexists. split; [reflexivity|]. cbn.
  rewrite !length_map, length_seq. repeat split; lia.
Qed.

(** ** The claims on the topology generator *)

(** C1: for every register size of at least 2, the parameter count that the
    constructor precomputes is exactly the number of parameters that the
    convolution steps of one full circuit generation consume; the rotation
    angles queued are the first that many parameters, in order, so that the
    instance's own parameter vector is used up exactly. *)
Theorem param_count_lockstep
        (fvec : Type) (n : Z) (fuel fuel' : nat) (draw : nat -> Q) :
  2 <= n -> (steps n <= fuel)%nat -> (steps n <= fuel')%nat ->
  exists c self,
    QCNN.count_params fuel n = Done c
    /\ QCNN.init fuel draw n = Done self
    /\ QCNN.num_params self = c
    /\ Z.of_nat (length (QCNN.params self)) = c
    /\ (forall (params : list Q) (t : tape fvec),
          c <= Z.of_nat (length params) ->
          exists gates,
            QCNN.layers fvec fuel' params 0 n t = Done (c, 1, t ++ gates)
            /\ angles gates = firstn (Z.to_nat c) params)
    /\ (forall x : fvec,
          exists gates,
            QCNN.generate_qcnn_circuit fvec fuel' self x (QCNN.params self) []
            = Done (Expval_PauliZ 0, Embedding x :: gates)
            /\ angles gates = QCNN.params self).
Proof.
  intros Hn Hf Hf'.
  destruct (init_run n fuel draw Hn Hf) as (self & Hinit & Hq & Hp & Hlen).
  assert (Hlayers : forall (params : list Q) (t : tape fvec),
             consumed (steps n) n <= Z.of_nat (length params) ->
             exists gates,
               QCNN.layers fvec fuel' params 0 n t
               = Done (consumed (steps n) n, 1, t ++ gates)
               /\ angles gates = firstn (Z.to_nat (consumed (steps n) n)) params).
  { intros params t Hl.
    destruct (layers_run (steps n) n fuel' params 0 t Hn eq_refl Hf'
                ltac:(lia) ltac:(lia)) as (gates & E & Hang).
    exists gates. now rewrite E, Hang. }
  exists (consumed (steps n) n), self.
  repeat split; auto using count_params_run.
  intros x.
  destruct (Hlayers (QCNN.params self) [Embedding x] ltac:(lia))
    as (gates & E & Hang).
  exists gates. unfold QCNN.generate_qcnn_circuit, bind, queue, ret.
  rewrite Hq. cbn [app]. rewrite E. split; [reflexivity|].
  rewrite Hang. apply firstn_all2. lia.
Qed.

(** C4: the pooling step returns the rounded-up half of [old_size], queues
    one entangling gate from [i] to [old_size - i - 1] for each [i] from the
    new size up to [old_size], nothing else, and no rotation (it consumes no
    parameter). *)
Theorem pool_spec (fvec : Type) (old_size : Z) (t : tape fvec) :
  2 <= old_size ->
  exists new_size gates,
    QCNN.pool fvec old_size t = Done (new_size, t ++ gates)
    /\ 2 * new_size - 1 <= old_size <= 2 * new_size
    /\ gates = map (fun i => CNOT i (old_size - i - 1)) (Py.range new_size old_size)
    /\ Z.of_nat (length gates) = old_size - new_size
    /\ (forall k, 0 <= k < old_size - new_size ->
          nth_error gates (Z.to_nat k)
          = Some (CNOT (new_size + k) (old_size - (new_size + k) - 1)))
    /\ angles gates = [].
Proof.
  intros Hs. pose proof (ceil_half_spec old_size) as Hc.
  exists (Py.ceil_half old_size). eexists.
  split; [apply pool_run|]. split; [exact Hc|]. split; [reflexivity|].
  split; [|split].
  - rewrite length_map, range_length. lia.
  - intros k Hk. rewrite nth_error_map, range_nth by auto. reflexivity.
  - apply (angles_cnots (fun i => i) (fun i => old_size - i - 1)).
Qed.

Lemma param_count_lockstep_witness :
  2 <= 3 /\ (steps 3 <= 2)%nat /\
  exists c,
    QCNN.count_params 2 3 = Done c
    /\ forall (params : list Q) (t : tape unit),
         c <= Z.of_nat (length params) ->
         exists gates,
           QCNN.layers unit 2 params 0 3 t = Done (c, 1, t ++ gates)
           /\ angles gates = firstn (Z.to_nat c) params.
Proof.
  assert (H3 : 2 <= 3) by lia.
  assert (Hs : (steps 3 <= 2)%nat) by (vm_compute; lia).
  split; [exact H3|]. split; [exact Hs|].
  destruct (param_count_lockstep unit 3 2 2 (fun _ => 1%Q) H3 Hs Hs)
    as (c & self & Hc & _ & _ & _ & Hl & _).
  exists c. split; [exact Hc | exact Hl].
Defined.

Lemma pool_spec_witness :
  2 <= 5 /\ QCNN.pool unit 5 [] = Done (3, [CNOT 3 1; CNOT 4 0]).
Proof.
  assert (H5 : 2 <= 5) by lia.
  split; [exact H5|].
  destruct (pool_spec unit 5 [] H5) as (new_size & gates & E & Hb & Hg & _).
  assert (new_size = 3) as -> by lia.
  rewrite E, Hg. reflexivity.
Defined.

(** C2, as amended: at size 2 the general-case formula does not reduce to
    the base case. It queues the three gates of the base case, with the same
    two parameters, and then a second triple (a rotation on 1, a rotation on
    0, an entangling gate from 1 to 0) with two more parameters: six gates
    and 4 parameters, against three gates and 2 parameters; on the two
    parameters that the base case needs it raises. *)
Theorem convolution_general_at_2
        (fvec : Type) (p0 p1 p2 p3 : Q) (rest : list Q) (t : tape fvec) :
  QCNN.convolution fvec 2 (p0 :: p1 :: p2 :: p3 :: rest) t
  = Done (2, t ++ [RY p0 0; RY p1 1; CNOT 0 1])
  /\ QCNN.convolution_general fvec 2 (p0 :: p1 :: p2 :: p3 :: rest) t
     = Done (4, (t ++ [RY p0 0; RY p1 1; CNOT 0 1])
                  ++ [RY p2 1; RY p3 0; CNOT 1 0])
  /\ QCNN.convolution fvec 2 [p0; p1] t
     = Done (2, t ++ [RY p0 0; RY p1 1; CNOT 0 1])
  /\ QCNN.convolution_general fvec 2 [p0; p1] t = Raise IndexError.
Proof.
  split; [apply convolution_base_run|].
  split; [|split; [apply convolution_base_run|]].
  - unfold QCNN.convolution_general.
    change (Py.range 0 2) with [0; 1].
    cbn [for_]. unfold bind, lift, queue, ret.
    rewrite (getitem_nth _ 0 p0) by (cbn; auto; lia).
    rewrite (getitem_nth _ (0 + 1) p1) by (cbn; auto; lia).
    rewrite cnot_run by (vm_compute; easy).
    rewrite (getitem_nth _ (0 + 2) p2) by (cbn; auto; lia).
    rewrite (getitem_nth _ (0 + 2 + 1) p3) by (cbn; auto; lia).
    rewrite cnot_run by (vm_compute; easy).
    rewrite <- !app_assoc. reflexivity.
  - unfold QCNN.convolution_general.
    change (Py.range 0 2) with [0; 1].
    cbn [for_]. unfold bind, lift, queue, ret.
    rewrite (getitem_nth _ 0 p0) by (cbn; auto; lia).
    rewrite (getitem_nth _ (0 + 1) p1) by (cbn; auto; lia).
    rewrite cnot_run by (vm_compute; easy).
    reflexivity.
Qed.

Lemma general_formula_at_2_differs :
  QCNN.convolution_general unit 2 [1; 2; 3; 4]%Q []
  = Done (4, [RY 1 0; RY 2 1; CNOT 0 1; RY 3 1; RY 4 0; CNOT 1 0])
  /\ QCNN.convolution unit 2 [1; 2; 3; 4]%Q []
     = Done (2, [RY 1 0; RY 2 1; CNOT 0 1])
  /\ QCNN.convolution_general unit 2 [1; 2; 3; 4]%Q []
     <> QCNN.convolution unit 2 [1; 2; 3; 4]%Q [].
Proof.
  split; [reflexivity|]. split; [reflexivity|].
  vm_compute. discriminate.
Qed.

(** C5: from any size of at least 2 the trajectory of rounded-up halves
    reaches 1 after exactly [ceil(log2 n)] steps and not before, so the
    counting loop of the constructor and the convolution/pooling loop of the
    circuit generation both end: with that many turns of fuel they return or
    raise, with fewer the counting loop is still running. *)
Theorem trajectory_reaches_one (n : Z) :
  2 <= n ->
  let k := Z.to_nat (Z.log2_up n) in
  2 ^ (Z.log2_up n - 1) < n <= 2 ^ Z.log2_up n
  /\ Nat.iter k Py.ceil_half n = 1
  /\ (forall j, (j < k)%nat -> 1 < Nat.iter j Py.ceil_half n)
  /\ (forall fuel, (k <= fuel)%nat -> exists c, QCNN.count_params fuel n = Done c)
  /\ (forall fuel, (fuel < k)%nat -> QCNN.count_params fuel n = OutOfFuel)
  /\ (forall (fvec : Type) fuel params (t : tape fvec),
        (k <= fuel)%nat -> QCNN.layers fvec fuel params 0 n t <> OutOfFuel)
  /\ (forall (fvec : Type) fuel self (x : fvec) params (t : tape fvec),
        QCNN.num_qubits self = n -> (k <= fuel)%nat ->
        QCNN.generate_qcnn_circuit fvec fuel self x params t <> OutOfFuel).
Proof.
  intros Hn k. fold (steps n) in k.
  destruct (trajectory_iter k n Hn eq_refl) as [Hone Hgt].
  split.
  { pose proof (Z.log2_up_spec n ltac:(lia)) as Hspec.
    now replace (Z.pred (Z.log2_up n)) with (Z.log2_up n - 1) in Hspec by lia. }
  split; [exact Hone|]. split; [exact Hgt|].
  split; [|split; [|split]].
  - intros fuel Hf. eexists. now apply count_params_run.
  - intros fuel Hf. unfold QCNN.count_params.
    now rewrite (count_loop_short k).
  - intros fvec fuel params t Hf. now apply (layers_terminates k).
  - intros fvec fuel self x params t Hq Hf.
    unfold QCNN.generate_qcnn_circuit, bind, queue, ret. rewrite Hq.
    pose proof (layers_terminates k n fuel params 0 (t ++ [Embedding x])
                  Hn eq_refl Hf) as Hl.
    destruct (QCNN.layers fvec fuel params 0 n _) as [[r t']| |];
      [discriminate|discriminate|contradiction].
Qed.

Lemma trajectory_reaches_one_witness :
  2 <= 5 /\
  Nat.iter 3 Py.ceil_half 5 = 1
  /\ (forall j, (j < 3)%nat -> 1 < Nat.iter j Py.ceil_half 5)
  /\ (forall fuel, (3 <= fuel)%nat -> exists c, QCNN.count_params fuel 5 = Done c).
Proof.
  assert (H5 : 2 <= 5) by lia.
  split; [exact H5|].
  destruct (trajectory_reaches_one 5 H5) as (_ & Hone & Hgt & Hc & _).
  split; [exact Hone|]. split; [exact Hgt | exact Hc].
Defined.

(** C9: the parameter count of the constructor is positive only from a
    register size of 2 on. For a size of 1 or less the loop body never runs,
    the count is -2, the parameter vector is requested with a negative
    length and no instance is built. *)
Theorem count_params_below_2 (n : Z) (fuel : nat) (draw : nat -> Q) :
  n <= 1 ->
  QCNN.count_loop fuel 0 n = Done 0
  /\ QCNN.count_params fuel n = Done (-2)
  /\ Py.randn draw (-2) = Raise ValueError
  /\ QCNN.init fuel draw n = Raise ValueError
  /\ (forall m fuel' c, QCNN.count_params fuel' m = Done c -> (0 < c <-> 2 <= m)).
Proof.
  intros Hn.
  assert (Hsmall : forall m f, m <= 1 -> QCNN.count_params f m = Done (-2)).
  { intros m f Hm. unfold QCNN.count_params.
    now rewrite count_loop_small by auto. }
  split; [now apply count_loop_small|].
  split; [now apply Hsmall|]. split; [reflexivity|].
  split; [unfold QCNN.init; now rewrite Hsmall by auto|].
  intros m fuel' c Hc.
  destruct (Z.le_gt_cases m 1) as [Hm|Hm].
  - rewrite Hsmall in Hc by auto. injection Hc as <-. lia.
  - destruct (Nat.le_gt_cases (steps m) fuel') as [Hf|Hf].
    + rewrite count_params_run in Hc by (auto; lia). injection Hc as <-.
      pose proof (consumed_ge_2 (steps m) m ltac:(lia) eq_refl). lia.
    + unfold QCNN.count_params in Hc.
      rewrite (count_loop_short (steps m)) in Hc by (auto; lia).
      discriminate.
Qed.

Lemma count_params_below_2_witness :
  1 <= 1 /\ QCNN.count_params 0 1 = Done (-2)
  /\ QCNN.init 0 (fun _ => 1%Q) 1 = Raise ValueError.
Proof.
  assert (H1 : 1 <= 1) by lia.
  split; [exact H1|].
  destruct (count_params_below_2 1 0 (fun _ => 1%Q) H1) as (_ & Hc & _ & Hi & _).
  split; [exact Hc | exact Hi].
Defined.

(** ** The drivers *)

Lemma product_nonneg (training_ratio : Q) (N : Z) :
  (0 <= training_ratio)%Q -> 0 <= N -> (0 <= training_ratio * inject_Z N)%Q.
Proof.
  intros H HN. destruct training_ratio as [a d].
  unfold Qle in *. cbn in *. nia.
Qed.

Lemma training_period_nonneg (training_ratio : Q) (labels : list Q) :
  (0 <= training_ratio)%Q -> 0 <= training_period training_ratio labels.
Proof.
  intros H. unfold training_period, Py.fmul.
  apply int_ge; [lia|]. apply round64_lower; [lia|].
  apply (product_nonneg training_ratio); [exact H | lia].
Qed.

(** The index at which the split cuts, for a ratio strictly between 0 and
    1: the floor of the exact product, or one more when the binary64
    product rounds up to that integer. *)
Lemma training_period_cut (training_ratio : Q) (labels : list Q) :
  (0 < training_ratio)%Q -> (training_ratio < 1)%Q ->
  let N := Z.of_nat (length labels) in
  let x := (training_ratio * inject_Z N)%Q in
  let k := training_period training_ratio labels in
  0 <= k <= N
  /\ (k = Qfloor x
      \/ (k = Qfloor x + 1
          /\ (Py.fmul training_ratio (inject_Z N) == inject_Z (Qfloor x + 1))%Q)).
Proof.
  intros Hpos Hlt N x k.
  assert (HN : 0 <= N) by (unfold N; lia).
  assert (H0 : (0 <= x)%Q)
    by (apply product_nonneg; [now apply Qlt_le_weak | exact HN]).
  assert (HxN : (x <= inject_Z N)%Q).
  { unfold x. destruct training_ratio as [a d].
    unfold Qlt in Hlt. unfold Qle. cbn in *. nia. }
  unfold k, training_period, Py.fmul. fold N. fold x.
  split; [split|].
  - apply training_period_nonneg. now apply Qlt_le_weak.
  - apply int_le; [|now apply round64_upper].
    apply (round64_lower x 0); [lia | exact H0].
  - now apply int_round64.
Qed.

Lemma omap_length {A B : Type} (f : A -> outcome B) (l : list A) (r : list B) :
  omap f l = Done r -> length r = length l.
Proof.
  revert r. induction l as [|x l IH]; intros r H; cbn in H.
  - now injection H as <-.
  - destruct (f x); try discriminate. cbn in H.
    destruct (omap f l) as [ys| |]; try discriminate. cbn in H.
    injection H as <-. cbn. f_equal. now apply IH.
Qed.

(** The partition, for a cut index that is not negative. *)
Lemma split_at {fvec : Type} (feature_vectors : list fvec) (labels : list Q)
      (training_ratio : Q) :
  0 <= training_period training_ratio labels ->
  let k := Z.to_nat (training_period training_ratio labels) in
  split feature_vectors labels training_ratio
  = {| training_vectors := firstn k feature_vectors;
       testing_vectors := skipn k feature_vectors;
       training_labels := firstn k labels;
       testing_labels := skipn k labels |}.
Proof.
  intros Hk k. unfold split.
  now rewrite !slice_to, !slice_from by exact Hk.
Qed.

(** C8, as amended: for a ratio strictly between 0 and 1 the split is
    positional and cuts at [k = int(training_ratio * N)], the product being
    the binary64 one: [k] lies between 0 and [N] and is the floor of the
    exact product, or one more when the product rounds up to that integer.
    The first [k] samples are the training partition and the rest is the
    test partition, in the order of the dataset, so that the two are
    disjoint and exhaust it. The kernel classifier fits on the former and
    scores and predicts on the latter; the cost functions of the QCNN work
    on the former and its predictions are made on the latter. *)
Theorem split_positional
        (fvec : Type) (feature_vectors : list fvec) (labels : list Q)
        (training_ratio : Q) :
  (0 < training_ratio)%Q -> (training_ratio < 1)%Q ->
  length feature_vectors = length labels ->
  let N := Z.of_nat (length labels) in
  let x := (training_ratio * inject_Z N)%Q in
  let k := Py.int (Py.fmul training_ratio (inject_Z N)) in
  let d := split feature_vectors labels training_ratio in
  0 <= k <= N
  /\ (k = Qfloor x
      \/ (k = Qfloor x + 1
          /\ (Py.fmul training_ratio (inject_Z N) == inject_Z (Qfloor x + 1))%Q))
  /\ training_vectors d = firstn (Z.to_nat k) feature_vectors
  /\ testing_vectors d = skipn (Z.to_nat k) feature_vectors
  /\ training_labels d = firstn (Z.to_nat k) labels
  /\ testing_labels d = skipn (Z.to_nat k) labels
  /\ training_vectors d ++ testing_vectors d = feature_vectors
  /\ training_labels d ++ testing_labels d = labels
  /\ Z.of_nat (length (training_vectors d)) = k
  /\ Z.of_nat (length (testing_vectors d)) = N - k
  /\ (forall expval_PauliZ prob (model : Type) svm_fit svm_score svm_predict self,
        Kernel.run fvec expval_PauliZ prob model svm_fit svm_score svm_predict
                   self feature_vectors labels training_ratio
        = obind (svm_fit (Kernel.qkernel fvec expval_PauliZ prob self)
                         (firstn (Z.to_nat k) feature_vectors)
                         (firstn (Z.to_nat k) labels)) (fun m =>
          obind (svm_score m (skipn (Z.to_nat k) feature_vectors)
                             (skipn (Z.to_nat k) labels)) (fun score =>
          obind (svm_predict m (skipn (Z.to_nat k) feature_vectors)) (fun predictions =>
          Done (score, predictions)))))
  /\ (forall expval_PauliZ prob error_function fuel self params,
        QCNN.cost_function fvec expval_PauliZ prob error_function fuel self d params tt
        = obind (omap (fun v => QCNN.circuit_to_optimize fvec expval_PauliZ prob
                                  fuel self v params)
                      (firstn (Z.to_nat k) feature_vectors))
                (fun resulting_labels =>
                   Done (error_function resulting_labels
                                        (firstn (Z.to_nat k) labels), tt)))
  /\ (forall expval_PauliZ prob get_score error_function uninitialised fuel self
             optimizer_function,
        QCNN.run fvec expval_PauliZ prob get_score error_function uninitialised
                 fuel self feature_vectors labels optimizer_function training_ratio
        = obind (optimize (QCNN.cost_function fvec expval_PauliZ prob error_function
                                              fuel self d)
                          (optimizer_function (QCNN.params self)) tt) (fun r =>
          obind (QCNN.predict fvec expval_PauliZ prob fuel
                              (QCNN.set_params self (fst (fst r)))
                              (skipn (Z.to_nat k) feature_vectors)
                              (QCNN.empty_like uninitialised
                                               (skipn (Z.to_nat k) labels)))
                (fun predictions =>
          Done (QCNN.set_params self (fst (fst r)),
                (get_score predictions (skipn (Z.to_nat k) labels), predictions)))))
  /\ (forall expval_PauliZ prob error_function fuel self L params batch_number,
        QCNN.batched_cost_function fvec expval_PauliZ prob error_function
                                   fuel self d L params batch_number
        = obind (omap (fun v => QCNN.circuit_to_optimize fvec expval_PauliZ prob
                                  fuel self v params)
                      (QCNN.batched (firstn (Z.to_nat k) feature_vectors)
                                    L batch_number))
                (fun resulting_labels =>
                   Done (error_function resulting_labels
                           (QCNN.batched (firstn (Z.to_nat k) labels) L batch_number),
                         batch_number + 1)))
  /\ (forall expval_PauliZ prob get_score error_function uninitialised fuel self
             optimizer_function num_batches,
        QCNN.run_batched fvec expval_PauliZ prob get_score error_function
                 uninitialised fuel self feature_vectors labels optimizer_function
                 num_batches training_ratio
        = obind (QCNN.batch_lenght (firstn (Z.to_nat k) labels) num_batches) (fun L =>
          obind (optimize (QCNN.batched_cost_function fvec expval_PauliZ prob
                             error_function fuel self d L)
                          (optimizer_function (QCNN.params self)) 0) (fun r =>
          obind (QCNN.predict fvec expval_PauliZ prob fuel
                              (QCNN.set_params self (fst (fst r)))
                              (skipn (Z.to_nat k) feature_vectors)
                              (QCNN.empty_like uninitialised
                                               (skipn (Z.to_nat k) labels)))
                (fun predictions =>
          Done (QCNN.set_params self (fst (fst r)),
                (get_score predictions (skipn (Z.to_nat k) labels), predictions)))))).
Proof.
  intros Hpos Hlt Hlen N x k d.
  destruct (training_period_cut training_ratio labels Hpos Hlt) as [Hb Hfl].
  change (training_period training_ratio labels) with k in Hb, Hfl.
  fold N in Hb, Hfl. fold x in Hfl.
  assert (Hd : d = {| training_vectors := firstn (Z.to_nat k) feature_vectors;
                      testing_vectors := skipn (Z.to_nat k) feature_vectors;
                      training_labels := firstn (Z.to_nat k) labels;
                      testing_labels := skipn (Z.to_nat k) labels |}).
  { apply split_at. change (training_period training_ratio labels) with k. lia. }
  clearbody k.
  assert (Htv : training_vectors d = firstn (Z.to_nat k) feature_vectors)
    by now rewrite Hd.
  assert (Hsv : testing_vectors d = skipn (Z.to_nat k) feature_vectors)
    by now rewrite Hd.
  assert (Htl : training_labels d = firstn (Z.to_nat k) labels)
    by now rewrite Hd.
  assert (Hsl : testing_labels d = skipn (Z.to_nat k) labels)
    by now rewrite Hd.
  clear Hd.
  split; [exact Hb|]. split; [exact Hfl|].
  do 4 (split; [assumption|]).
  split; [rewrite Htv, Hsv; apply firstn_skipn|].
  split; [rewrite Htl, Hsl; apply firstn_skipn|].
  split; [rewrite Htv, length_firstn; unfold N in *; lia|].
  split; [rewrite Hsv, length_skipn; unfold N in *; lia|].
  split; [|split; [|split; [|split]]].
  - intros. unfold Kernel.run. fold d. cbv zeta.
    rewrite Htv, Hsv, Htl, Hsl. reflexivity.
  - intros. unfold QCNN.cost_function. rewrite Htv, Htl. reflexivity.
  - intros. unfold QCNN.run. fold d. cbv zeta.
    rewrite Hsv, Hsl. reflexivity.
  - intros. unfold QCNN.batched_cost_function. rewrite Htv, Htl. reflexivity.
  - intros. unfold QCNN.run_batched, QCNN.train_batched. fold d. cbv zeta.
    rewrite Htl, Hsv, Hsl.
    destruct (QCNN.batch_lenght _ _) as [L| |]; reflexivity.
Qed.

(** The product [0.75 * 11] is exact: the cut is at 8. *)
Lemma split_positional_witness :
  (0 < 3 # 4)%Q /\ (3 # 4 < 1)%Q /\
  training_vectors (split (Py.range 1 12) (map inject_Z (Py.range 1 12)) (3 # 4))
  = [1; 2; 3; 4; 5; 6; 7; 8]
  /\ testing_vectors (split (Py.range 1 12) (map inject_Z (Py.range 1 12)) (3 # 4))
     = [9; 10; 11].
Proof.
  assert (H0 : (0 < 3 # 4)%Q) by reflexivity.
  assert (H1 : (3 # 4 < 1)%Q) by reflexivity.
  split; [exact H0|]. split; [exact H1|].
  destruct (split_positional Z (Py.range 1 12) (map inject_Z (Py.range 1 12))
              (3 # 4) H0 H1 eq_refl) as (_ & _ & Htv & Hsv & _).
  split; [exact Htv | exact Hsv].
Defined.

(** The claim C8 as stated fails: the double nearest to 1/3 is below 1/3,
    so with 3 samples the floor of the exact product is 0, but the binary64
    product is 1.0 and the split trains on the first sample. *)
Lemma split_cut_is_rounded :
  (0 < 6004799503160661 # 18014398509481984)%Q
  /\ (6004799503160661 # 18014398509481984 < 1)%Q
  /\ Qfloor ((6004799503160661 # 18014398509481984) * inject_Z 3) = 0
  /\ training_period (6004799503160661 # 18014398509481984) [1; -1; 1]%Q = 1
  /\ training_vectors
       (split [10; 20; 30] [1; -1; 1]%Q (6004799503160661 # 18014398509481984))
     = [10]
  /\ training_vectors
       (split [10; 20; 30] [1; -1; 1]%Q (6004799503160661 # 18014398509481984))
     <> firstn (Z.to_nat (Qfloor ((6004799503160661 # 18014398509481984)
                                  * inject_Z 3)))
               [10; 20; 30].
Proof.
  repeat split; try (vm_compute; reflexivity).
  vm_compute. discriminate.
Qed.

Lemma omap_obind_map {A B C : Type} (f : A -> outcome B) (g : B -> C) (l : list A) :
  forall r,
    omap (fun x => obind (f x) (fun y => Done (g y))) l = Done r ->
    exists ys, omap f l = Done ys /\ r = map g ys.
Proof.
  induction l as [|x l IH]; intros r H; cbn in H.
  - injection H as <-. exists []. auto.
  - cbn [omap]. destruct (f x) as [y| |]; try discriminate. cbn [obind] in *.
    destruct (omap (fun x => obind (f x) (fun y => Done (g y))) l)
      as [r'| |]; try discriminate.
    cbn [obind] in H. injection H as <-.
    destruct (IH r' eq_refl) as (ys & -> & ->).
    exists (y :: ys). auto.
Qed.

Lemma omap_exists {A B : Type} (f : A -> outcome B) (l : list A) :
  (forall x, exists y, f x = Done y) -> exists ys, omap f l = Done ys.
Proof.
  intros Hf. induction l as [|x l [ys IH]]; cbn.
  - now exists [].
  - destruct (Hf x) as [y ->]. rewrite IH. cbn. now exists (y :: ys).
Qed.

Lemma sign_zero (x : Q) : (x == 0)%Q -> Py.sign x = 0%Q.
Proof.
  intros H. unfold Py.sign.
  now rewrite (proj1 (Qeq_alt x 0) H).
Qed.

Lemma sign_valid (x : Q) : valid_label (Py.sign x) <-> ~ (x == 0)%Q.
Proof.
  unfold valid_label, Py.sign.
  destruct (Qcompare_spec x 0) as [E|L|G].
  - split; [intros [H|H]; discriminate H | intros H; contradiction].
  - split; [intros _ E; rewrite E in L; discriminate L | intros _; now right].
  - split; [intros _ E; rewrite E in G; discriminate G | intros _; now left].
Qed.

Lemma setitem_in {A : Type} (l : list A) (i : nat) (x : A) :
  (i < length l)%nat ->
  Py.setitem l (Z.of_nat i) x = Done (firstn i l ++ x :: skipn (S i) l).
Proof.
  intros Hi. unfold Py.setitem.
  destruct (Z.ltb_spec (Z.of_nat i) 0); [lia|].
  destruct (Z.leb_spec 0 (Z.of_nat i)); [|lia].
  destruct (Z.ltb_spec (Z.of_nat i) (Z.of_nat (length l))); [|lia].
  cbn [andb]. now rewrite Nat2Z.id.
Qed.

Lemma setitem_out {A : Type} (l : list A) (i : Z) (x : A) :
  Z.of_nat (length l) <= i -> Py.setitem l i x = Raise IndexError.
Proof.
  intros Hi. unfold Py.setitem.
  destruct (Z.ltb_spec i 0); [lia|].
  destruct (Z.ltb_spec i (Z.of_nat (length l))); [lia|].
  now rewrite andb_false_r.
Qed.

(** An optimizer that keeps enough parameters returns, whenever the cost
    function returns on enough parameters. *)
Lemma optimize_total {S : Type} (cost_function : list Q -> S -> outcome (Q * S))
      (c : Z) (o : optimizer) :
  (forall p s, c <= Z.of_nat (length p) -> exists r, cost_function p s = Done r) ->
  well_sized c o ->
  forall s, exists p s' log,
      optimize cost_function o s = Done (p, s', log)
      /\ c <= Z.of_nat (length p).
Proof.
  intros Hcost. induction o as [q|q k IH]; intros Hw s; cbn in *.
  - exists q, s, []. auto.
  - destruct Hw as [Hq Hk].
    destruct (Hcost q s Hq) as [[cost s1] ->]. cbn [obind fst snd].
    destruct (IH cost (Hk cost) s1) as (p & s' & log & -> & Hp).
    cbn [obind fst snd]. exists p, s', (s :: log). auto.
Qed.

Lemma slice_length_indep {A B : Type} (l : list A) (l' : list B) (lo hi : option Z) :
  length l = length l' -> length (Py.slice l lo hi) = length (Py.slice l' lo hi).
Proof.
  intros H. unfold Py.slice.
  rewrite !length_firstn, !length_skipn, H. reflexivity.
Qed.

Section Predictions.

Variable fvec : Type.
Variable expval_PauliZ : tape fvec -> Z -> Q.
Variable prob : tape fvec -> list Z -> list bool -> Q.
Variable get_score : list Q -> list Q -> Z.
Variable error_function : list Q -> list Q -> Q.
Variable uninitialised : nat -> Q.

Local Abbreviation circuit := (QCNN.circuit_to_optimize fvec expval_PauliZ prob).
Local Abbreviation predict := (QCNN.predict fvec expval_PauliZ prob).
Local Abbreviation fill := (QCNN.fill fvec expval_PauliZ prob).

(** The node measures the generated circuit: the embedding of the feature
    vector followed by the gates of the layers. *)
Lemma circuit_run (fuel : nat) (self : QCNN.QCNN_Solver) (v : fvec) (p : list Q) :
  let n := QCNN.num_qubits self in
  2 <= n -> (steps n <= fuel)%nat ->
  consumed (steps n) n <= Z.of_nat (length p) ->
  exists gates,
    QCNN.generate_qcnn_circuit fvec fuel self v p []
    = Done (Expval_PauliZ 0, Embedding v :: gates)
    /\ angles gates = firstn (Z.to_nat (consumed (steps n) n)) p
    /\ circuit fuel self v p = Done (expval_PauliZ (Embedding v :: gates) 0).
Proof.
  intros n Hn Hf Hp.
  destruct (layers_run (steps n) n fuel p 0 [Embedding v]
              Hn eq_refl Hf ltac:(lia) ltac:(lia)) as (gates & Hl & Ha).
  exists gates.
  assert (Hg : QCNN.generate_qcnn_circuit fvec fuel self v p []
               = Done (Expval_PauliZ 0, Embedding v :: gates)).
  { unfold QCNN.generate_qcnn_circuit, bind, queue, ret. cbn [app].
    fold n. now rewrite Hl. }
  split; [exact Hg|]. split; [exact Ha|].
  unfold QCNN.circuit_to_optimize, get_qnode_instance. now rewrite Hg.
Qed.

(** The loop stores the signs at the first positions of the array, in
    order, and leaves the rest of it as it was. *)
Lemma fill_run (fuel : nat) (self : QCNN.QCNN_Solver) (vs : list fvec) :
  forall xs stored rest,
    omap (fun v => circuit fuel self v (QCNN.params self)) vs = Done xs ->
    (length vs <= length rest)%nat ->
    fill fuel self (Z.of_nat (length stored)) vs (stored ++ rest)
    = Done (stored ++ map Py.sign xs ++ skipn (length vs) rest).
Proof.
  induction vs as [|v vs IH]; intros xs stored rest H Hlen; cbn in H.
  - injection H as <-. reflexivity.
  - cbn [QCNN.fill].
    destruct (circuit fuel self v (QCNN.params self)) as [x| |];
      try discriminate.
    cbn [obind] in *.
    destruct (omap _ vs) as [xs'| |] eqn:E; try discriminate.
    cbn [obind] in H. injection H as <-.
    destruct rest as [|r rest]; [cbn in Hlen; lia|].
    rewrite setitem_in by (rewrite length_app; cbn; lia).
    cbn [obind].
    replace (firstn (length stored) (stored ++ r :: rest)) with stored
      by (rewrite firstn_app, Nat.sub_diag, firstn_all; cbn;
          now rewrite app_nil_r).
    replace (skipn (S (length stored)) (stored ++ r :: rest)) with rest
      by (rewrite skipn_app, skipn_all2 by lia;
          now replace (S (length stored) - length stored)%nat with 1%nat by lia).
    replace (Z.of_nat (length stored) + 1)
      with (Z.of_nat (length (stored ++ [Py.sign x])))
      by (rewrite length_app; cbn; lia).
    replace (stored ++ Py.sign x :: rest) with ((stored ++ [Py.sign x]) ++ rest)
      by now rewrite <- app_assoc.
    rewrite (IH xs' (stored ++ [Py.sign x]) rest eq_refl) by (cbn in Hlen; lia).
    rewrite <- app_assoc. reflexivity.
Qed.

(** With one cell per test vector every cell is overwritten. *)
Lemma predict_run (fuel : nat) (self : QCNN.QCNN_Solver) (vs : list fvec)
      (labels xs : list Q) :
  omap (fun v => circuit fuel self v (QCNN.params self)) vs = Done xs ->
  length vs = length labels ->
  predict fuel self vs (QCNN.empty_like uninitialised labels)
  = Done (map Py.sign xs).
Proof.
  intros H Hlen. unfold QCNN.predict.
  assert (Hl : length (QCNN.empty_like uninitialised labels) = length vs).
  { unfold QCNN.empty_like. now rewrite length_map, length_seq. }
  pose proof (fill_run fuel self vs xs [] _ H (Nat.eq_le_incl _ _ (eq_sym Hl)))
    as Hfill.
  cbn [app length Z.of_nat] in Hfill. rewrite Hfill.
  rewrite skipn_all2 by lia. now rewrite app_nil_r.
Qed.

Lemma circuits_total (fuel : nat) (self : QCNN.QCNN_Solver) (p : list Q)
      (vs : list fvec) :
  let n := QCNN.num_qubits self in
  2 <= n -> (steps n <= fuel)%nat ->
  consumed (steps n) n <= Z.of_nat (length p) ->
  exists xs, omap (fun v => circuit fuel self v p) vs = Done xs.
Proof.
  intros n Hn Hf Hp. apply omap_exists. intros v.
  destruct (circuit_run fuel self v p Hn Hf Hp) as (gates & _ & _ & ->).
  eauto.
Qed.

Lemma split_test_lengths (feature_vectors : list fvec) (labels : list Q)
      (training_ratio : Q) :
  length feature_vectors = length labels ->
  length (testing_vectors (split feature_vectors labels training_ratio))
  = length (testing_labels (split feature_vectors labels training_ratio)).
Proof. intros H. unfold split. cbn. now apply slice_length_indep. Qed.

End Predictions.

(** C7: in [run] and in [run_batched] each prediction is the sign of the
    observable of the circuit on the test vector, evaluated at the
    parameters that the optimizer returned. For a register of at least 2
    positions, as many feature vectors as labels and an optimizer that
    keeps enough parameters, the circuit returns the expectation of
    Pauli-Z on position 0 after the embedding and the gates of the layers,
    and both methods return: the instance with the optimized parameters,
    and one prediction per test vector, its sign. An observable of exactly
    0 gives the sign 0, which is not a label: the sign is a valid label
    exactly when the observable is not 0. *)
Theorem predictions_are_signs
        (fvec : Type)
        (expval_PauliZ : tape fvec -> Z -> Q)
        (prob : tape fvec -> list Z -> list bool -> Q)
        (get_score : list Q -> list Q -> Z)
        (error_function : list Q -> list Q -> Q)
        (uninitialised : nat -> Q)
        (fuel : nat) (self : QCNN.QCNN_Solver)
        (feature_vectors : list fvec) (labels : list Q)
        (optimizer_function : list Q -> optimizer) (training_ratio : Q) :
  let n := QCNN.num_qubits self in
  let c := consumed (steps n) n in
  let d := split feature_vectors labels training_ratio in
  let circuit := QCNN.circuit_to_optimize fvec expval_PauliZ prob fuel self in
  2 <= n -> (steps n <= fuel)%nat ->
  length feature_vectors = length labels ->
  well_sized c (optimizer_function (QCNN.params self)) ->
  (forall v p, c <= Z.of_nat (length p) ->
     exists gates,
       QCNN.generate_qcnn_circuit fvec fuel self v p []
       = Done (Expval_PauliZ 0, Embedding v :: gates)
       /\ angles gates = firstn (Z.to_nat c) p
       /\ circuit v p = Done (expval_PauliZ (Embedding v :: gates) 0))
  /\ (exists p log observables,
        optimize (QCNN.cost_function fvec expval_PauliZ prob error_function fuel self d)
                 (optimizer_function (QCNN.params self)) tt = Done (p, tt, log)
        /\ omap (fun v => circuit v p) (testing_vectors d) = Done observables
        /\ length observables = length (testing_vectors d)
        /\ QCNN.run fvec expval_PauliZ prob get_score error_function uninitialised
                    fuel self feature_vectors labels optimizer_function training_ratio
           = Done (QCNN.set_params self p,
                   (get_score (map Py.sign observables) (testing_labels d),
                    map Py.sign observables)))
  /\ (forall num_batches, num_batches <> 0 ->
      exists p b log observables,
        QCNN.train_batched fvec expval_PauliZ prob error_function fuel self
               feature_vectors labels optimizer_function num_batches training_ratio
        = Done (p, b, log)
        /\ omap (fun v => circuit v p) (testing_vectors d) = Done observables
        /\ length observables = length (testing_vectors d)
        /\ QCNN.run_batched fvec expval_PauliZ prob get_score error_function
                    uninitialised fuel self feature_vectors labels
                    optimizer_function num_batches training_ratio
           = Done (QCNN.set_params self p,
                   (get_score (map Py.sign observables) (testing_labels d),
                    map Py.sign observables)))
  /\ (forall x, (x == 0)%Q -> Py.sign x = 0%Q /\ ~ valid_label (Py.sign x))
  /\ (forall x, valid_label (Py.sign x) <-> ~ (x == 0)%Q).
Proof.
  intros n c d circuit Hn Hf Hlen Hw.
  assert (Hcirc : forall p vs, c <= Z.of_nat (length p) ->
            exists xs, omap (fun v => circuit v p) vs = Done xs).
  { intros p vs Hp.
    exact (circuits_total fvec expval_PauliZ prob fuel self p vs Hn Hf Hp). }
  assert (Hpred : forall p xs,
            omap (fun v => circuit v p) (testing_vectors d) = Done xs ->
            QCNN.predict fvec expval_PauliZ prob fuel (QCNN.set_params self p)
                         (testing_vectors d)
                         (QCNN.empty_like uninitialised (testing_labels d))
            = Done (map Py.sign xs)).
  { intros p xs Hxs. apply predict_run; [exact Hxs|].
    now apply split_test_lengths. }
  split; [|split; [|split; [|split]]].
  - intros v p Hp.
    exact (circuit_run fvec expval_PauliZ prob fuel self v p Hn Hf Hp).
  - destruct (optimize_total
                (QCNN.cost_function fvec expval_PauliZ prob error_function fuel self d)
                c (optimizer_function (QCNN.params self))) with (s := tt)
      as (p & [] & log & Ho & Hp); [|exact Hw|].
    { intros q s Hq. unfold QCNN.cost_function.
      destruct (Hcirc q (training_vectors d) Hq) as [xs Hxs].
      fold circuit. rewrite Hxs. cbn. eauto. }
    destruct (Hcirc p (testing_vectors d) Hp) as [xs Hxs].
    exists p, log, xs. split; [exact Ho|]. split; [exact Hxs|].
    split; [now apply omap_length in Hxs|].
    unfold QCNN.run. fold d. cbv zeta. rewrite Ho. cbn [obind fst snd].
    rewrite (Hpred p xs Hxs). reflexivity.
  - intros num_batches HN.
    assert (HL : exists L, QCNN.batch_lenght (training_labels d) num_batches = Done L).
    { unfold QCNN.batch_lenght, Py.truediv.
      destruct (Z.eqb_spec num_batches 0); [contradiction|]. cbn. eauto. }
    destruct HL as [L HL].
    destruct (optimize_total
                (QCNN.batched_cost_function fvec expval_PauliZ prob error_function
                                            fuel self d L)
                c (optimizer_function (QCNN.params self))) with (s := 0)
      as (p & b & log & Ho & Hp); [|exact Hw|].
    { intros q s Hq. unfold QCNN.batched_cost_function.
      destruct (Hcirc q (QCNN.batched (training_vectors d) L s) Hq) as [xs Hxs].
      fold circuit. rewrite Hxs. cbn. eauto. }
    assert (Ht : QCNN.train_batched fvec expval_PauliZ prob error_function fuel self
                   feature_vectors labels optimizer_function num_batches training_ratio
                 = Done (p, b, log)).
    { unfold QCNN.train_batched. fold d. cbv zeta. rewrite HL. cbn [obind].
      exact Ho. }
    destruct (Hcirc p (testing_vectors d) Hp) as [xs Hxs].
    exists p, b, log, xs. split; [exact Ht|]. split; [exact Hxs|].
    split; [now apply omap_length in Hxs|].
    unfold QCNN.run_batched. fold d. cbv zeta. rewrite Ht. cbn [obind fst snd].
    rewrite (Hpred p xs Hxs). reflexivity.
  - intros x Hx. split; [now apply sign_zero|].
    intros Hv. apply sign_valid in Hv. contradiction.
  - apply sign_valid.
Qed.

(** With the ratio 3/4 on 11 samples there are 3 test vectors; the
    observable of the example simulator is 0 on each. *)
Lemma predictions_are_signs_witness :
  QCNN.run Z Example.expval_PauliZ Example.prob Example.get_score
           Example.error_function Example.uninitialised 1 Example.self
           Example.feature_vectors Example.labels (Example.calls 1) (3 # 4)
  = Done (Example.self, (0, [0; 0; 0]%Q))
  /\ QCNN.run_batched Z Example.expval_PauliZ Example.prob Example.get_score
           Example.error_function Example.uninitialised 1 Example.self
           Example.feature_vectors Example.labels (Example.calls 1) 2 (3 # 4)
     = Done (Example.self, (0, [0; 0; 0]%Q)).
Proof.
  assert (Hw : well_sized (consumed (steps 2) 2)
                 (Example.calls 1 (QCNN.params Example.self))).
  { vm_compute. split; [intro H; discriminate H | intros _ H; discriminate H]. }
  destruct (predictions_are_signs Z Example.expval_PauliZ Example.prob
              Example.get_score Example.error_function Example.uninitialised
              1 Example.self Example.feature_vectors Example.labels
              (Example.calls 1) (3 # 4)
              ltac:(vm_compute; discriminate) ltac:(vm_compute; lia) eq_refl Hw)
    as (_ & (p & log & xs & Ho & Hxs & _ & Hrun) & Hb & _).
  split.
  - rewrite Hrun. vm_compute in Ho. injection Ho as <- <-.
    vm_compute in Hxs. injection Hxs as <-. vm_compute. reflexivity.
  - destruct (Hb 2 ltac:(lia)) as (p' & b & log' & xs' & Ht & Hxs' & _ & Hrunb).
    rewrite Hrunb. vm_compute in Ht. injection Ht as <- <- <-.
    vm_compute in Hxs'. injection Hxs' as <-. vm_compute. reflexivity.
Defined.

(** ** Batches *)

Lemma range_snoc (lo hi : Z) :
  lo <= hi -> Py.range lo (hi + 1) = Py.range lo hi ++ [hi].
Proof.
  intros H. unfold Py.range.
  replace (Z.to_nat (hi + 1 - lo)) with (Z.to_nat (hi - lo) + 1)%nat by lia.
  rewrite seq_app, map_app. cbn. do 2 f_equal. lia.
Qed.

Lemma batch_lenght_run (training_labels : list Q) (num_batches : Z) :
  0 < num_batches ->
  QCNN.batch_lenght training_labels num_batches
  = Done (Z.of_nat (length training_labels) / num_batches).
Proof.
  intros HN. unfold QCNN.batch_lenght, Py.truediv.
  destruct (Z.eqb_spec num_batches 0); [lia|]. cbn [obind]. f_equal.
  destruct num_batches as [|p|p]; try lia.
  unfold Py.int, Qdiv, Qinv, Qmult. cbn [Qnum Qden].
  rewrite Z.mul_1_r, Pos.mul_1_l.
  apply Z.quot_div_nonneg; lia.
Qed.

Lemma batched_run {A : Type} (training : list A) (L k : Z) :
  0 <= L -> 0 <= k ->
  QCNN.batched training L k
  = firstn (Z.to_nat L) (skipn (Z.to_nat (k * L)) training).
Proof.
  intros HL Hk. unfold QCNN.batched.
  rewrite slice_between by nia. do 2 f_equal. lia.
Qed.

Lemma batched_length {A : Type} (training : list A) (L k : Z) :
  0 <= L -> 0 <= k ->
  Z.of_nat (length (QCNN.batched training L k))
  = Z.min L (Z.max 0 (Z.of_nat (length training) - k * L)).
Proof.
  intros HL Hk. rewrite batched_run, length_firstn, length_skipn by auto.
  assert (0 <= k * L) by nia. lia.
Qed.

Lemma concat_batches {A : Type} (training : list A) (L : Z) (n : nat) :
  0 <= L ->
  concat (map (QCNN.batched training L) (Py.range 0 (Z.of_nat n)))
  = firstn (Z.to_nat (Z.of_nat n * L)) training.
Proof.
  intros HL. induction n as [|n IH].
  - cbn. reflexivity.
  - replace (Z.of_nat (S n)) with (Z.of_nat n + 1) by lia.
    rewrite range_snoc, map_app, concat_app, IH by lia.
    cbn [map concat]. rewrite app_nil_r, batched_run by lia.
    replace (Z.to_nat ((Z.of_nat n + 1) * L))
      with (Z.to_nat (Z.of_nat n * L) + Z.to_nat L)%nat by nia.
    now rewrite firstn_plus.
Qed.

Section Batches.

Variable fvec : Type.
Variable expval_PauliZ : tape fvec -> Z -> Q.
Variable prob : tape fvec -> list Z -> list bool -> Q.
Variable error_function : list Q -> list Q -> Q.

Local Abbreviation cost :=
  (QCNN.batched_cost_function fvec expval_PauliZ prob error_function).

(** The batch index advances by one on every call that returns. *)
Lemma optimize_batched_log (fuel : nat) (self : QCNN.QCNN_Solver)
      (d : partition fvec) (L : Z) (o : optimizer) :
  forall b0 p b log,
    optimize (cost fuel self d L) o b0 = Done (p, b, log) ->
    log = Py.range b0 (b0 + Z.of_nat (length log))
    /\ b = b0 + Z.of_nat (length log).
Proof.
  induction o as [q|q k IH]; intros b0 p b log H; cbn in H.
  - injection H as <- <- <-. cbn. rewrite range_nil by lia.
    split; [reflexivity | lia].
  - unfold cost, QCNN.batched_cost_function in H.
    destruct (omap _ _) as [resulting| |]; try discriminate.
    cbn [obind fst snd] in H.
    fold (QCNN.batched_cost_function fvec expval_PauliZ prob error_function) in H.
    fold cost in H.
    destruct (optimize _ _ _) as [[[p' b'] log']| |] eqn:E; try discriminate.
    cbn [obind fst snd] in H. injection H as <- <- <-.
    destruct (IH _ _ _ _ _ E) as [Hlog ->].
    cbn [length]. rewrite range_cons by lia. split; [|lia].
    f_equal. rewrite Hlog at 1. f_equal. lia.
Qed.

End Batches.


Lemma train_batched_run (fvec : Type)
      (expval_PauliZ : tape fvec -> Z -> Q)
      (prob : tape fvec -> list Z -> list bool -> Q)
      (error_function : list Q -> list Q -> Q)
      (fuel : nat) (self : QCNN.QCNN_Solver)
      (feature_vectors : list fvec) (labels : list Q)
      (optimizer_function : list Q -> optimizer)
      (N : Z) (training_ratio : Q) :
  0 < N ->
  length feature_vectors = length labels ->
  let d := split feature_vectors labels training_ratio in
  let L := Z.of_nat (length (training_vectors d)) / N in
  QCNN.batch_lenght (training_labels d) N = Done L
  /\ QCNN.train_batched fvec expval_PauliZ prob error_function fuel self
       feature_vectors labels optimizer_function N training_ratio
     = optimize (QCNN.batched_cost_function fvec expval_PauliZ prob error_function
                   fuel self d L)
                (optimizer_function (QCNN.params self)) 0.
Proof.
  intros HN Hlen d L.
  assert (HL : QCNN.batch_lenght (training_labels d) N = Done L).
  { rewrite batch_lenght_run by auto. unfold L, d, split.
    cbn [training_vectors training_labels]. do 3 f_equal.
    symmetry. now apply slice_length_indep. }
  split; [exact HL|].
  unfold QCNN.train_batched. fold d. cbv zeta. now rewrite HL.
Qed.

(** C3: in [run_batched] with [num_batches = N], the optimizer runs against
    the cost function of batch length [L = floor(training_count / N)],
    from the batch index 0, and the [k]-th call of the cost function (from
    0) works on the slice [[k*L, (k+1)*L)] of the training partition. When
    the optimizer has called the cost function exactly [N] times the
    batches are, in call order, the consecutive blocks of length [L] of the
    first [N*L] training samples: each of these samples is in exactly one
    batch, at its own position, and the samples from [N*L] on are in
    none. *)
Theorem batches_partition
        (fvec : Type)
        (expval_PauliZ : tape fvec -> Z -> Q)
        (prob : tape fvec -> list Z -> list bool -> Q)
        (error_function : list Q -> list Q -> Q)
        (fuel : nat) (self : QCNN.QCNN_Solver)
        (feature_vectors : list fvec) (labels : list Q)
        (optimizer_function : list Q -> optimizer)
        (N : Z) (training_ratio : Q)
        (p : list Q) (b : Z) (log : list Z) :
  0 < N ->
  length feature_vectors = length labels ->
  QCNN.train_batched fvec expval_PauliZ prob error_function fuel self
       feature_vectors labels optimizer_function N training_ratio
  = Done (p, b, log) ->
  Z.of_nat (length log) = N ->
  let d := split feature_vectors labels training_ratio in
  let tv := training_vectors d in
  let tl := training_labels d in
  let count := Z.of_nat (length tv) in
  let L := count / N in
  QCNN.batch_lenght tl N = Done L
  /\ QCNN.train_batched fvec expval_PauliZ prob error_function fuel self
       feature_vectors labels optimizer_function N training_ratio
     = optimize (QCNN.batched_cost_function fvec expval_PauliZ prob error_function
                   fuel self d L)
                (optimizer_function (QCNN.params self)) 0
  /\ (forall get_score uninitialised,
        QCNN.run_batched fvec expval_PauliZ prob get_score error_function
             uninitialised fuel self feature_vectors labels optimizer_function
             N training_ratio
        = obind (QCNN.predict fvec expval_PauliZ prob fuel (QCNN.set_params self p)
                   (testing_vectors d)
                   (QCNN.empty_like uninitialised (testing_labels d)))
                (fun predictions =>
                   Done (QCNN.set_params self p,
                         (get_score predictions (testing_labels d), predictions))))
  /\ log = Py.range 0 N
  /\ b = N
  /\ N * L <= count < N * L + N
  /\ (forall k params, 0 <= k < N ->
        QCNN.batched tv L k = firstn (Z.to_nat L) (skipn (Z.to_nat (k * L)) tv)
        /\ QCNN.batched tl L k = firstn (Z.to_nat L) (skipn (Z.to_nat (k * L)) tl)
        /\ Z.of_nat (length (QCNN.batched tv L k)) = L
        /\ (forall j, 0 <= j < L ->
              nth_error (QCNN.batched tv L k) (Z.to_nat j)
              = nth_error tv (Z.to_nat (k * L + j)))
        /\ QCNN.batched_cost_function fvec expval_PauliZ prob error_function
             fuel self d L params k
           = obind (omap (fun v => QCNN.circuit_to_optimize fvec expval_PauliZ prob
                                     fuel self v params)
                         (firstn (Z.to_nat L) (skipn (Z.to_nat (k * L)) tv)))
                   (fun r => Done (error_function r
                                     (firstn (Z.to_nat L) (skipn (Z.to_nat (k * L)) tl)),
                                   k + 1)))
  /\ concat (map (QCNN.batched tv L) log) = firstn (Z.to_nat (N * L)) tv
  /\ concat (map (QCNN.batched tl L) log) = firstn (Z.to_nat (N * L)) tl.
Proof.
  intros HN Hlen Hrun Hcalls d tv tl count L.
  assert (Hcount : Z.of_nat (length tl) = count).
  { unfold count, tv, tl, d, split. cbn [training_vectors training_labels].
    f_equal. symmetry. now apply slice_length_indep. }
  destruct (train_batched_run fvec expval_PauliZ prob error_function fuel self
              feature_vectors labels optimizer_function N training_ratio HN Hlen)
    as [HL Htie].
  fold d in HL, Htie. fold tv tl in HL. fold tv count L in HL, Htie.
  assert (HL0 : 0 <= L) by (apply Z.div_pos; unfold count; lia).
  assert (Hb : N * L <= count < N * L + N).
  { pose proof (Z.div_mod count N ltac:(lia)).
    pose proof (Z.mod_pos_bound count N HN). fold L in H. lia. }
  split; [exact HL|]. split; [exact Htie|].
  split.
  { intros get_score uninitialised. unfold QCNN.run_batched. fold d. cbv zeta.
    rewrite Hrun. reflexivity. }
  rewrite Htie in Hrun.
  apply optimize_batched_log in Hrun. destruct Hrun as [Hlog Hbn].
  rewrite Hcalls in Hlog, Hbn. cbn in Hlog, Hbn.
  split; [exact Hlog|]. split; [lia|]. split; [exact Hb|].
  split; [|split].
  - intros k params Hk.
    assert (Hbv := batched_run tv L k HL0 ltac:(lia)).
    assert (Hbl := batched_run tl L k HL0 ltac:(lia)).
    split; [exact Hbv|]. split; [exact Hbl|]. split; [|split].
    + rewrite batched_length by lia. fold count. nia.
    + intros j Hj. rewrite Hbv, nth_error_firstn, nth_error_skipn.
      destruct (Nat.ltb_spec (Z.to_nat j) (Z.to_nat L)); [|lia].
      f_equal. nia.
    + unfold QCNN.batched_cost_function. fold tv tl. now rewrite Hbv, Hbl.
  - rewrite Hlog. rewrite <- (Z2Nat.id N) at 1 2 by lia.
    apply concat_batches. exact HL0.
  - rewrite Hlog. rewrite <- (Z2Nat.id N) at 1 2 by lia.
    apply concat_batches. exact HL0.
Qed.

(** Ten training samples in three batches of three: the optimizer is
    handed the cost of each batch, one unit per sample, and the tenth
    sample is in no batch. *)
Lemma batches_partition_witness :
  0 < 3 /\
  QCNN.train_batched Z Example.expval_PauliZ Example.prob Example.error_function
       1 Example.self Example.feature_vectors Example.labels
       (fun q => Example.record 3 q []) 3 (15 # 16)
  = Done ([3; 3; 3]%Q, 3, [0; 1; 2])
  /\ concat (map (QCNN.batched
                    (training_vectors
                       (split Example.feature_vectors Example.labels (15 # 16)))
                    3)
                 [0; 1; 2])
     = [1; 2; 3; 4; 5; 6; 7; 8; 9].
Proof.
  assert (E : QCNN.train_batched Z Example.expval_PauliZ Example.prob
                Example.error_function 1 Example.self
                Example.feature_vectors Example.labels
                (fun q => Example.record 3 q []) 3 (15 # 16)
              = Done ([3; 3; 3]%Q, 3, [0; 1; 2])) by (vm_compute; reflexivity).
  split; [lia|]. split; [exact E|].
  destruct (batches_partition Z Example.expval_PauliZ Example.prob
              Example.error_function 1 Example.self
              Example.feature_vectors Example.labels
              (fun q => Example.record 3 q []) 3 (15 # 16)
              _ _ _ ltac:(lia) eq_refl E eq_refl)
    as (_ & _ & _ & _ & _ & _ & _ & Hc & _).
  exact Hc.
Defined.

(** C10, as amended: in [run_batched] the optimizer runs against the cost
    function of batch length [L = floor(count / num_batches)], and the
    [k]-th call has the batch index [k]. A call beyond the
    [num_batches]-th raises no out-of-range error, because the slice is
    clipped to the training partition: the batch holds the samples at the
    indices from [k*L] to [min((k+1)*L, count)], the call returns the error
    of that batch whenever the circuit returns, and the batch is empty
    exactly when [L = 0] or [k*L >= count]. Every extra batch is empty when
    [num_batches] divides the training count (the error function is then
    evaluated on two empty sequences); otherwise, for [L > 0], the first
    extra call receives remainder samples. When [num_batches] exceeds the
    training count, [L = 0] and every batch is empty. *)
Theorem extra_batches_clipped
        (fvec : Type)
        (expval_PauliZ : tape fvec -> Z -> Q)
        (prob : tape fvec -> list Z -> list bool -> Q)
        (error_function : list Q -> list Q -> Q)
        (fuel : nat) (self : QCNN.QCNN_Solver)
        (feature_vectors : list fvec) (labels : list Q)
        (optimizer_function : list Q -> optimizer)
        (N : Z) (training_ratio : Q) (k : Z) (params : list Q) :
  0 < N ->
  length feature_vectors = length labels ->
  N <= k ->
  let d := split feature_vectors labels training_ratio in
  let tv := training_vectors d in
  let tl := training_labels d in
  let count := Z.of_nat (length tv) in
  let L := count / N in
  let n := QCNN.num_qubits self in
  QCNN.batch_lenght tl N = Done L
  /\ QCNN.train_batched fvec expval_PauliZ prob error_function fuel self
       feature_vectors labels optimizer_function N training_ratio
     = optimize (QCNN.batched_cost_function fvec expval_PauliZ prob error_function
                   fuel self d L)
                (optimizer_function (QCNN.params self)) 0
  /\ (forall p b log,
        QCNN.train_batched fvec expval_PauliZ prob error_function fuel self
          feature_vectors labels optimizer_function N training_ratio
        = Done (p, b, log) ->
        log = Py.range 0 (Z.of_nat (length log)) /\ b = Z.of_nat (length log))
  /\ QCNN.batched tv L k = firstn (Z.to_nat L) (skipn (Z.to_nat (k * L)) tv)
  /\ QCNN.batched tl L k = firstn (Z.to_nat L) (skipn (Z.to_nat (k * L)) tl)
  /\ QCNN.batched_cost_function fvec expval_PauliZ prob error_function
       fuel self d L params k
     = obind (omap (fun v => QCNN.circuit_to_optimize fvec expval_PauliZ prob
                               fuel self v params)
                   (firstn (Z.to_nat L) (skipn (Z.to_nat (k * L)) tv)))
             (fun r => Done (error_function r
                               (firstn (Z.to_nat L) (skipn (Z.to_nat (k * L)) tl)),
                             k + 1))
  /\ (2 <= n -> (steps n <= fuel)%nat ->
      consumed (steps n) n <= Z.of_nat (length params) ->
      exists observables,
        omap (fun v => QCNN.circuit_to_optimize fvec expval_PauliZ prob
                         fuel self v params)
             (QCNN.batched tv L k) = Done observables
        /\ QCNN.batched_cost_function fvec expval_PauliZ prob error_function
             fuel self d L params k
           = Done (error_function observables (QCNN.batched tl L k), k + 1))
  /\ Z.of_nat (length (QCNN.batched tv L k)) = Z.min L (Z.max 0 (count - k * L))
  /\ (QCNN.batched tv L k = [] <-> L = 0 \/ count <= k * L)
  /\ (count mod N = 0 ->
      QCNN.batched tv L k = [] /\ QCNN.batched tl L k = []
      /\ QCNN.batched_cost_function fvec expval_PauliZ prob error_function
           fuel self d L params k
         = Done (error_function [] [], k + 1))
  /\ (0 < L -> count mod N <> 0 -> QCNN.batched tv L N <> [])
  /\ (count < N ->
      L = 0 /\ forall j, 0 <= j ->
                 QCNN.batched tv L j = [] /\ QCNN.batched tl L j = []).
Proof.
  intros HN Hlen0 Hk d tv tl count L n.
  destruct (train_batched_run fvec expval_PauliZ prob error_function fuel self
              feature_vectors labels optimizer_function N training_ratio HN Hlen0)
    as [HL Htie].
  fold d in HL, Htie. fold tv tl in HL. fold tv count L in HL, Htie.
  assert (Hlen : length tv = length tl).
  { unfold tv, tl, d, split. cbn [training_vectors training_labels].
    now apply slice_length_indep. }
  assert (HL0 : 0 <= L) by (apply Z.div_pos; unfold count; lia).
  assert (Hdm := Z.div_mod count N ltac:(lia)).
  assert (Hmb := Z.mod_pos_bound count N HN).
  fold L in Hdm.
  assert (Hbv := batched_run tv L k HL0 ltac:(lia)).
  assert (Hbl := batched_run tl L k HL0 ltac:(lia)).
  assert (Hlv := batched_length tv L k HL0 ltac:(lia)). fold count in Hlv.
  assert (Hll := batched_length tl L k HL0 ltac:(lia)).
  rewrite <- Hlen in Hll. fold count in Hll.
  assert (Hnil : forall (A : Type) (l : list A), Z.of_nat (length l) = 0 -> l = []).
  { intros A l H. apply length_zero_iff_nil. lia. }
  split; [exact HL|]. split; [exact Htie|].
  split.
  { intros p b log Hrun. rewrite Htie in Hrun.
    apply optimize_batched_log in Hrun. exact Hrun. }
  split; [exact Hbv|]. split; [exact Hbl|].
  split; [unfold QCNN.batched_cost_function; fold tv tl; now rewrite Hbv, Hbl|].
  split.
  { intros Hn Hf Hp.
    destruct (circuits_total fvec expval_PauliZ prob fuel self params
                (QCNN.batched tv L k) Hn Hf Hp) as [xs Hxs].
    exists xs. split; [exact Hxs|].
    unfold QCNN.batched_cost_function. fold tv tl. now rewrite Hxs. }
  split; [exact Hlv|].
  split; [|split; [|split]].
  - split.
    + intros E. rewrite E in Hlv. cbn in Hlv. lia.
    + intros H. apply Hnil. lia.
  - intros Hmod.
    assert (Hkl : count <= k * L) by nia.
    assert (Ev : QCNN.batched tv L k = []) by (apply Hnil; lia).
    assert (El : QCNN.batched tl L k = []) by (apply Hnil; lia).
    split; [exact Ev|]. split; [exact El|].
    unfold QCNN.batched_cost_function. fold tv tl. rewrite Ev, El. reflexivity.
  - intros HLpos Hmod E.
    pose proof (batched_length tv L N HL0 ltac:(lia)) as HlN.
    fold count in HlN. rewrite E in HlN. cbn in HlN. lia.
  - intros Hsmall.
    assert (HLz : L = 0) by (apply Z.div_small; unfold count; lia).
    split; [exact HLz|].
    intros j Hj. rewrite !batched_run by lia. rewrite HLz. split; reflexivity.
Qed.

(** Ten training samples in five batches of two: the sixth and the seventh
    call of the cost function get an empty batch, whose cost is 0. *)
Lemma extra_batches_clipped_witness :
  0 < 5 /\ 5 <= 6 /\
  QCNN.train_batched Z Example.expval_PauliZ Example.prob Example.error_function
       1 Example.self Example.feature_vectors Example.labels
       (fun q => Example.record 7 q []) 5 (15 # 16)
  = Done ([2; 2; 2; 2; 2; 0; 0]%Q, 7, [0; 1; 2; 3; 4; 5; 6])
  /\ QCNN.batched (training_vectors
                     (split Example.feature_vectors Example.labels (15 # 16))) 2 6
     = []
  /\ QCNN.batched_cost_function Z Example.expval_PauliZ Example.prob
       Example.error_function 1 Example.self
       (split Example.feature_vectors Example.labels (15 # 16)) 2 [] 6
     = Done (Example.error_function [] [], 6 + 1).
Proof.
  assert (H5 : 0 < 5) by lia.
  assert (H6 : 5 <= 6) by lia.
  split; [exact H5|]. split; [exact H6|].
  destruct (extra_batches_clipped Z Example.expval_PauliZ Example.prob
              Example.error_function 1 Example.self
              Example.feature_vectors Example.labels
              (fun q => Example.record 7 q []) 5 (15 # 16) 6 [] H5 eq_refl H6)
    as (_ & Htie & _ & _ & _ & _ & _ & _ & _ & Hdiv & _).
  split; [rewrite Htie; vm_compute; reflexivity|].
  destruct (Hdiv eq_refl) as (Ev & _ & Ec).
  split; [exact Ev | exact Ec].
Defined.

(** The claim C10 as stated fails: with 10 training samples and 3 batches
    ([L = 3]) an optimizer that calls the cost function a fourth time gets
    the batch of index 3, the slice [[9:12]], which holds the last sample:
    the cost of that call is that of one sample, not of an empty batch. *)
Lemma extra_batch_not_empty :
  training_vectors (split Example.feature_vectors Example.labels (15 # 16))
  = [1; 2; 3; 4; 5; 6; 7; 8; 9; 10]
  /\ QCNN.batch_lenght
       (training_labels (split Example.feature_vectors Example.labels (15 # 16))) 3
     = Done 3
  /\ QCNN.train_batched Z Example.expval_PauliZ Example.prob Example.error_function
       1 Example.self Example.feature_vectors Example.labels
       (fun q => Example.record 4 q []) 3 (15 # 16)
     = Done ([3; 3; 3; 1]%Q, 4, [0; 1; 2; 3])
  /\ Qred (Example.error_function [] []) = 0%Q
  /\ QCNN.batched
       (training_vectors (split Example.feature_vectors Example.labels (15 # 16)))
       3 3
     = [10]
  /\ QCNN.batched
       (training_vectors (split Example.feature_vectors Example.labels (15 # 16)))
       3 3
     <> [].
Proof.
  repeat split; try (vm_compute; reflexivity).
  vm_compute. discriminate.
Qed.

(** ** The kernel matrix *)

Lemma basis_states_first (n : nat) :
  nth_error (basis_states n) 0 = Some (repeat false n).
Proof.
  induction n as [|n IH]; [reflexivity|].
  cbn [basis_states repeat].
  destruct (basis_states n) as [|o os]; [discriminate|].
  cbn in *. now injection IH as ->.
Qed.

Lemma basis_states_length (n : nat) :
  length (basis_states n) = (2 ^ n)%nat.
Proof.
  induction n as [|n IH]; [reflexivity|].
  cbn [basis_states]. rewrite length_app, !length_map, IH. cbn. lia.
Qed.

Lemma omap_total {A B : Type} (f : A -> outcome B) (g : A -> B) (l : list A) :
  (forall x, f x = Done (g x)) -> omap f l = Done (map g l).
Proof.
  intros H. induction l as [|x l IH]; cbn; [reflexivity|].
  now rewrite H, IH.
Qed.

Section KernelMatrix.

Variable fvec : Type.
Variable expval_PauliZ : tape fvec -> Z -> Q.
Variable prob : tape fvec -> list Z -> list bool -> Q.
Variable self : Kernel.Quantum_Kernel_Classification.

Lemma kernel_circuit_run (a b : fvec) :
  Kernel.kernel_circuit fvec expval_PauliZ prob self a b
  = Done (Vector (map (prob [Embedding a; Adjoint (Embedding b)]
                            (Py.range 0 (Kernel.num_qubits self)))
                      (basis_states
                         (length (Py.range 0 (Kernel.num_qubits self)))))).
Proof. reflexivity. Qed.

Lemma kernel_entry_run (a b : fvec) :
  obind (Kernel.kernel_circuit fvec expval_PauliZ prob self a b) Kernel.item0
  = Done (kernel_value fvec prob self a b).
Proof.
  rewrite kernel_circuit_run. cbn [obind Kernel.item0].
  apply getitem_nth; [lia|]. cbn [Z.to_nat].
  rewrite nth_error_map, basis_states_first. reflexivity.
Qed.

Lemma qkernel_run (A B : list fvec) :
  Kernel.qkernel fvec expval_PauliZ prob self A B
  = Done (map (fun a => map (kernel_value fvec prob self a) B) A).
Proof.
  unfold Kernel.qkernel. apply omap_total. intros a.
  apply omap_total. intros b. apply kernel_entry_run.
Qed.

End KernelMatrix.

(** C6: the kernel matrix has one row per vector of the first set and one
    column per vector of the second; its entry for [a] and [b] is the element
    of index 0 of the probability vector measured over all [num_qubits]
    positions after the embedding of [a] and the adjoint of the embedding of
    [b], that is the probability of the all-zero outcome. *)
Theorem kernel_matrix_entry
        (fvec : Type)
        (expval_PauliZ : tape fvec -> Z -> Q)
        (prob : tape fvec -> list Z -> list bool -> Q)
        (self : Kernel.Quantum_Kernel_Classification)
        (A B : list fvec) (i j : nat) (a b : fvec) :
  nth_error A i = Some a ->
  nth_error B j = Some b ->
  let wires := Py.range 0 (Kernel.num_qubits self) in
  let circuit := [Embedding a; Adjoint (Embedding b)] in
  exists M row v,
    Kernel.qkernel fvec expval_PauliZ prob self A B = Done M
    /\ length M = length A
    /\ nth_error M i = Some row
    /\ length row = length B
    /\ Kernel.get_kernel_embedding fvec self a b [] = Done (Probs wires, circuit)
    /\ Kernel.kernel_circuit fvec expval_PauliZ prob self a b = Done (Vector v)
    /\ v = map (prob circuit wires) (basis_states (length wires))
    /\ nth_error (basis_states (length wires)) 0 = Some (repeat false (length wires))
    /\ nth_error row j = nth_error v 0
    /\ nth_error row j = Some (prob circuit wires (repeat false (length wires))).
Proof.
  intros Ha Hb wires circuit.
  exists (map (fun a => map (kernel_value fvec prob self a) B) A),
         (map (kernel_value fvec prob self a) B),
         (map (prob circuit wires) (basis_states (length wires))).
  assert (Hj : nth_error (map (kernel_value fvec prob self a) B) j
               = Some (prob circuit wires (repeat false (length wires)))).
  { rewrite nth_error_map, Hb. reflexivity. }
  split; [apply qkernel_run|]. split; [apply length_map|].
  split; [rewrite nth_error_map, Ha; reflexivity|].
  split; [apply length_map|]. split; [reflexivity|].
  split; [apply kernel_circuit_run|]. split; [reflexivity|].
  split; [apply basis_states_first|].
  split; [|exact Hj].
  rewrite Hj, nth_error_map, basis_states_first. reflexivity.
Qed.

Lemma kernel_matrix_entry_witness :
  Kernel.qkernel Z Example.expval_PauliZ Example.prob
                 {| Kernel.num_qubits := 2 |} [10; 20] [30]
  = Done [[1 # 4]; [1 # 4]]%Q
  /\ exists row,
       nth_error [[1 # 4]; [1 # 4]]%Q 1 = Some row
       /\ nth_error row 0
          = Some (Example.prob [Embedding 20; Adjoint (Embedding 30)]
                               (Py.range 0 2) [false; false]).
Proof.
  split; [vm_compute; reflexivity|].
  destruct (kernel_matrix_entry Z Example.expval_PauliZ Example.prob
              {| Kernel.num_qubits := 2 |} [10; 20] [30] 1 0 20 30
              eq_refl eq_refl)
    as (M & row & v & HM & _ & Hrow & _ & _ & _ & _ & _ & _ & Hentry).
  assert (EM : M = [[1 # 4]; [1 # 4]]%Q).
  { assert (E : Kernel.qkernel Z Example.expval_PauliZ Example.prob
                  {| Kernel.num_qubits := 2 |} [10; 20] [30]
                = Done [[1 # 4]; [1 # 4]]%Q) by (vm_compute; reflexivity).
    rewrite E in HM. now injection HM as <-. }
  exists row. rewrite <- EM. split; [exact Hrow | exact Hentry].
Defined.

(** * Further properties of the code *)

(** ** The convolution in closed form *)

Lemma getitem_out {A : Type} (l : list A) (i : Z) :
  Z.of_nat (length l) <= i -> Py.getitem l i = Raise IndexError.
Proof.
  intros H. unfold Py.getitem.
  destruct (Z.ltb_spec i 0); [lia|].
  destruct (Z.ltb_spec i (Z.of_nat (length l))); [lia|].
  now rewrite andb_false_r.
Qed.

Lemma getitem_in {A : Type} (l : list A) (i : Z) (d : A) :
  0 <= i < Z.of_nat (length l) -> Py.getitem l i = Done (nth (Z.to_nat i) l d).
Proof.
  intros H. apply getitem_nth; [lia|].
  apply nth_error_nth'. lia.
Qed.

Section Closed.

Context {fvec : Type}.

Lemma conv_body_gates (n : Z) (params : list Q) (i i_param : Z) (t : tape fvec) :
  0 <= i_param -> i_param + 2 <= Z.of_nat (length params) ->
  i <> conv_target n i ->
  conv_body n params i i_param t
  = Done (i_param + 2,
          t ++ [RY (nth (Z.to_nat i_param) params 0%Q) i;
                RY (nth (Z.to_nat (i_param + 1)) params 0%Q) (conv_target n i);
                CNOT i (conv_target n i)]).
Proof.
  intros H0 Hlen Hne. unfold conv_body, bind, lift, queue, ret.
  rewrite (getitem_in params i_param 0%Q) by lia.
  rewrite (getitem_in params (i_param + 1) 0%Q) by lia.
  fold (conv_target n i). rewrite cnot_run by exact Hne.
  rewrite <- !app_assoc. reflexivity.
Qed.

(** Two positions that coincide: the entangling gate is refused, once both
    rotations are queued. *)
Lemma conv_body_same (n : Z) (params : list Q) (i i_param : Z) (t : tape fvec) :
  0 <= i_param -> i_param + 2 <= Z.of_nat (length params) ->
  i = conv_target n i ->
  conv_body n params i i_param t = Raise ValueError.
Proof.
  intros H0 Hlen He. unfold conv_body, bind, lift, queue, ret.
  rewrite (getitem_in params i_param 0%Q) by lia.
  rewrite (getitem_in params (i_param + 1) 0%Q) by lia.
  fold (conv_target n i). rewrite <- He. now rewrite cnot_same.
Qed.

Lemma conv_body_short (n : Z) (params : list Q) (i i_param : Z) (t : tape fvec) :
  0 <= i_param -> Z.of_nat (length params) < i_param + 2 ->
  conv_body n params i i_param t = Raise IndexError.
Proof.
  intros H0 Hlen. unfold conv_body, bind, lift, queue, ret.
  destruct (Z.le_gt_cases (Z.of_nat (length params)) i_param).
  - now rewrite getitem_out by lia.
  - rewrite (getitem_in params i_param 0%Q) by lia.
    now rewrite getitem_out by lia.
Qed.

(** The loop of the general convolution from position [lo] on, the
    parameter index being twice the position. *)
Lemma conv_loop_closed (n : Z) (params : list Q) (lo hi : Z) :
  2 <= n -> hi <= n ->
  forall t : tape fvec,
    0 <= lo -> 2 * lo <= Z.of_nat (length params) ->
    for_ (Py.range lo hi) (conv_body n params) (2 * lo) t
    = if 2 * Z.max lo hi <=? Z.of_nat (length params)
      then Done (2 * Z.max lo hi,
                 t ++ flat_map
                        (fun i => [RY (nth (Z.to_nat (2 * i)) params 0%Q) i;
                                   RY (nth (Z.to_nat (2 * i + 1)) params 0%Q)
                                      (conv_target n i);
                                   CNOT i (conv_target n i)])
                        (Py.range lo hi))
      else Raise IndexError.
Proof.
  intros Hn. pattern lo, hi. apply range_ind; clear lo hi.
  - intros lo hi Hle Hhi t H0 Hlo. rewrite range_nil by auto.
    rewrite Z.max_l by lia. cbn [for_ flat_map]. unfold ret.
    rewrite app_nil_r.
    destruct (Z.leb_spec (2 * lo) (Z.of_nat (length params))); [reflexivity|lia].
  - intros lo hi Hlt IH Hhi t H0 Hlo. rewrite range_cons by auto.
    cbn [for_ flat_map]. unfold bind at 1.
    rewrite Z.max_r by lia.
    destruct (Z.le_gt_cases (2 * lo + 2) (Z.of_nat (length params))) as [Hl|Hl].
    + rewrite conv_body_gates
        by (try lia; apply conv_target_other; lia).
      replace (2 * lo + 2) with (2 * (lo + 1)) by lia.
      rewrite IH by lia. rewrite Z.max_r by lia.
      destruct (Z.leb_spec (2 * hi) (Z.of_nat (length params)));
        [|reflexivity].
      rewrite <- app_assoc. reflexivity.
    + rewrite conv_body_short by lia.
      destruct (Z.leb_spec (2 * hi) (Z.of_nat (length params))); [lia|].
      reflexivity.
Qed.

Lemma convolution_general_closed (n : Z) (params : list Q) (t : tape fvec) :
  QCNN.convolution_general fvec n params t
  = if 2 * Z.max 0 n <=? Z.of_nat (length params)
    then (if n =? 1 then Raise ValueError
          else Done (2 * Z.max 0 n, t ++ conv_gates n params))
    else Raise IndexError.
Proof.
  destruct (Z.le_gt_cases 2 n) as [Hn|Hn].
  - destruct (Z.eqb_spec n 1); [lia|].
    exact (conv_loop_closed n params 0 n Hn ltac:(lia) t ltac:(lia) ltac:(lia)).
  - destruct (Z.eqb_spec n 1) as [->|Hne].
    + change (QCNN.convolution_general fvec 1 params t)
        with (bind (conv_body 1 params 0 0) (for_ [] (conv_body 1 params)) t).
      unfold bind at 1. change (2 * Z.max 0 1) with 2.
      destruct (Z.leb_spec 2 (Z.of_nat (length params))).
      * rewrite conv_body_same by (try lia; reflexivity). reflexivity.
      * rewrite conv_body_short by lia. reflexivity.
    + unfold QCNN.convolution_general, conv_gates.
      rewrite range_nil by lia. rewrite (Z.max_l 0 n) by lia.
      cbn [for_ flat_map]. unfold ret. rewrite app_nil_r.
      destruct (Z.leb_spec (2 * 0) (Z.of_nat (length params))); [reflexivity|lia].
Qed.

Lemma convolution_base_closed (params : list Q) (t : tape fvec) :
  QCNN.convolution fvec 2 params t
  = if 2 <=? Z.of_nat (length params)
    then Done (2, t ++ base_gates params)
    else Raise IndexError.
Proof.
  unfold QCNN.convolution. cbn [Z.eqb Pos.eqb].
  unfold bind, lift, queue, ret.
  destruct (Z.leb_spec 2 (Z.of_nat (length params))).
  - rewrite (getitem_in params 0 0%Q) by lia.
    rewrite (getitem_in params 1 0%Q) by lia.
    rewrite cnot_run by discriminate.
    rewrite <- !app_assoc. reflexivity.
  - destruct (Z.le_gt_cases (Z.of_nat (length params)) 0).
    + now rewrite getitem_out by lia.
    + rewrite (getitem_in params 0 0%Q) by lia.
      now rewrite getitem_out by lia.
Qed.

(** The convolution, whatever the size and the parameters. *)
Lemma convolution_closed (n : Z) (params : list Q) (t : tape fvec) :
  QCNN.convolution fvec n params t
  = if conv_need n <=? Z.of_nat (length params)
    then (if n =? 1 then Raise ValueError
          else Done (conv_need n,
                     t ++ (if n =? 2 then base_gates params
                           else conv_gates n params)))
    else Raise IndexError.
Proof.
  unfold conv_need. destruct (Z.eqb_spec n 2) as [->|Hne].
  - apply convolution_base_closed.
  - unfold QCNN.convolution. destruct (Z.eqb_spec n 2); [contradiction|].
    apply convolution_general_closed.
Qed.

End Closed.

(** X1: the convolution raises an index error exactly when it is given
    fewer parameters than it needs (2 at size 2, twice the size otherwise,
    none for a size of 0 or less). With enough parameters it returns that
    number and appends its gates to the tape, a surplus of parameters being
    ignored, except at size 1, where the entangling gate would act twice on
    position 0 and is refused with a value error. *)
Theorem convolution_closed_form
        (fvec : Type) (n : Z) (params : list Q) (t : tape fvec) :
  (Z.of_nat (length params) < conv_need n <->
   QCNN.convolution fvec n params t = Raise IndexError)
  /\ (conv_need n <= Z.of_nat (length params) ->
      QCNN.convolution fvec n params t
      = if n =? 1 then Raise ValueError
        else Done (conv_need n,
                   t ++ (if n =? 2 then base_gates params
                         else conv_gates n params))).
Proof.
  rewrite convolution_closed.
  destruct (Z.leb_spec (conv_need n) (Z.of_nat (length params))) as [H|H].
  - split; [|reflexivity]. split; [lia|].
    destruct (n =? 1); discriminate.
  - split; [tauto | lia].
Qed.

Lemma convolution_closed_form_witness :
  QCNN.convolution Z 1 [1; 2]%Q [] = Raise ValueError
  /\ QCNN.convolution Z 3 [1; 2; 3; 4; 5; 6; 7]%Q []
     = Done (6, [RY 1 0; RY 2 1; CNOT 0 1;
                 RY 3 1; RY 4 2; CNOT 1 2;
                 RY 5 2; RY 6 0; CNOT 2 0]%Q).
Proof.
  split.
  - exact (proj2 (convolution_closed_form Z 1 [1; 2]%Q []) ltac:(vm_compute; discriminate)).
  - exact (proj2 (convolution_closed_form Z 3 [1; 2; 3; 4; 5; 6; 7]%Q [])
                 ltac:(vm_compute; discriminate)).
Defined.

(** ** The wiring of the convolution and of the pooling *)

Lemma nth_error_flat_map3 {A B : Type} (f : A -> list B) (l : list A) :
  (forall x, length (f x) = 3%nat) ->
  forall k r, (r < 3)%nat ->
    nth_error (flat_map f l) (3 * k + r)
    = match nth_error l k with
      | Some x => nth_error (f x) r
      | None => None
      end.
Proof.
  intros Hf. induction l as [|x l IH]; intros k r Hr.
  - cbn [flat_map]. now rewrite !nth_error_nil.
  - cbn [flat_map]. destruct k as [|k].
    + cbn [nth_error Nat.mul Nat.add]. apply nth_error_app1. rewrite Hf. lia.
    + rewrite nth_error_app2 by (rewrite Hf; lia). rewrite Hf.
      replace (3 * S k + r - 3)%nat with (3 * k + r)%nat by lia.
      cbn [nth_error]. now apply IH.
Qed.

Lemma conv_target_bound (n i : Z) : 0 < n -> 0 <= conv_target n i < n.
Proof. intros Hn. unfold conv_target. apply Z.mod_pos_bound. lia. Qed.

Lemma conv_target_cases (n i : Z) :
  3 <= n -> 0 <= i < n ->
  let o := Z.max (n - 3) 1 in
  1 <= o < n
  /\ (conv_target n i = i + o \/ conv_target n i = i + o - n).
Proof.
  intros Hn Hi o. split; [unfold o; lia|].
  unfold conv_target. fold o.
  destruct (Z.lt_ge_cases (i + o) n) as [Hs|Hs].
  - left. apply Z.mod_small. unfold o in *. lia.
  - right. symmetry. apply (Z.mod_unique _ _ 1); unfold o in *; lia.
Qed.

(** X2: on 3 positions or more the general convolution queues, for each
    position [i] in order, a rotation on [i], a rotation on its target and
    an entangling gate from [i] to the target; the target is another
    position of the register, and each position is the target of exactly
    one position. *)
Theorem convolution_wiring
        (fvec : Type) (n : Z) (params : list Q) (t : tape fvec) :
  3 <= n -> 2 * n <= Z.of_nat (length params) ->
  QCNN.convolution fvec n params t = Done (2 * n, t ++ conv_gates n params)
  /\ Z.of_nat (length (conv_gates (fvec := fvec) n params)) = 3 * n
  /\ (forall i, 0 <= i < n ->
        nth_error (conv_gates (fvec := fvec) n params) (Z.to_nat (3 * i))
        = Some (RY (nth (Z.to_nat (2 * i)) params 0%Q) i)
        /\ nth_error (conv_gates (fvec := fvec) n params) (Z.to_nat (3 * i + 1))
           = Some (RY (nth (Z.to_nat (2 * i + 1)) params 0%Q) (conv_target n i))
        /\ nth_error (conv_gates (fvec := fvec) n params) (Z.to_nat (3 * i + 2))
           = Some (CNOT i (conv_target n i)))
  /\ (forall i, 0 <= i < n -> 0 <= conv_target n i < n /\ conv_target n i <> i)
  /\ (forall i j, 0 <= i < n -> 0 <= j < n ->
        conv_target n i = conv_target n j -> i = j)
  /\ (forall j, 0 <= j < n -> exists i, 0 <= i < n /\ conv_target n i = j).
Proof.
  intros Hn Hlen.
  assert (Hnth : forall i r, 0 <= i < n -> (r < 3)%nat ->
            nth_error (conv_gates (fvec := fvec) n params) (3 * Z.to_nat i + r)
            = nth_error [RY (nth (Z.to_nat (2 * i)) params 0%Q) i;
                         RY (nth (Z.to_nat (2 * i + 1)) params 0%Q) (conv_target n i);
                         @CNOT fvec i (conv_target n i)] r).
  { intros i r Hi Hr. unfold conv_gates.
    rewrite nth_error_flat_map3 by auto.
    rewrite (range_nth 0 n i) by lia.
    now rewrite Z.add_0_l. }
  split; [|split; [|split; [|split; [|split]]]].
  - rewrite convolution_closed. unfold conv_need.
    destruct (Z.eqb_spec n 2); [lia|]. rewrite Z.max_r by lia.
    destruct (Z.eqb_spec n 1); [lia|].
    destruct (Z.leb_spec (2 * n) (Z.of_nat (length params))); [reflexivity|lia].
  - unfold conv_gates.
    assert (H3 : forall l : list Z,
               length (flat_map
                         (fun i => [RY (nth (Z.to_nat (2 * i)) params 0%Q) i;
                                    RY (nth (Z.to_nat (2 * i + 1)) params 0%Q)
                                       (conv_target n i);
                                    @CNOT fvec i (conv_target n i)]) l)
               = (3 * length l)%nat).
    { induction l as [|x l IH]; cbn [flat_map]; [reflexivity|].
      rewrite length_app, IH. cbn. lia. }
    rewrite H3, range_length. lia.
  - intros i Hi.
    replace (Z.to_nat (3 * i)) with (3 * Z.to_nat i + 0)%nat by lia.
    replace (Z.to_nat (3 * i + 1)) with (3 * Z.to_nat i + 1)%nat by lia.
    replace (Z.to_nat (3 * i + 2)) with (3 * Z.to_nat i + 2)%nat by lia.
    rewrite !Hnth by (auto; lia). repeat split; reflexivity.
  - intros i Hi. split; [apply conv_target_bound; lia|].
    destruct (conv_target_cases n i Hn Hi) as [Ho [E|E]]; lia.
  - intros i j Hi Hj E.
    pose proof (conv_target_bound n i ltac:(lia)).
    pose proof (conv_target_bound n j ltac:(lia)).
    destruct (conv_target_cases n i Hn Hi) as [Ho [Ei|Ei]];
      destruct (conv_target_cases n j Hn Hj) as [_ [Ej|Ej]]; lia.
  - intros j Hj.
    exists ((j - Z.max (n - 3) 1) mod n). split; [apply Z.mod_pos_bound; lia|].
    unfold conv_target. rewrite Z.add_mod_idemp_l by lia.
    replace (j - Z.max (n - 3) 1 + Z.max (n - 3) 1) with j by lia.
    apply Z.mod_small. lia.
Qed.

Lemma convolution_wiring_witness :
  3 <= 5 /\
  QCNN.convolution unit 5 (map inject_Z (Py.range 0 10)) []
  = Done (10, conv_gates 5 (map inject_Z (Py.range 0 10)))
  /\ map (conv_target 5) (Py.range 0 5) = [2; 3; 4; 0; 1].
Proof.
  assert (H5 : 3 <= 5) by lia.
  split; [exact H5|].
  destruct (convolution_wiring unit 5 (map inject_Z (Py.range 0 10)) [] H5
              ltac:(vm_compute; discriminate)) as (E & _).
  split; [exact E | reflexivity].
Defined.

(** X3: the pooling step entangles every discarded position (from the new
    size up) into a kept one: the gate of the discarded position [c] targets
    [old_size - c - 1], a kept position below [c]; the kept positions
    reached are those below [old_size - new_size], each by one gate, and
    the step queues nothing else. *)
Theorem pool_wiring (fvec : Type) (old_size : Z) (t : tape fvec) :
  exists gates,
    QCNN.pool fvec old_size t = Done (Py.ceil_half old_size, t ++ gates)
    /\ (forall o, In o gates -> exists c tg, o = CNOT c tg)
    /\ (forall c tg, In (CNOT c tg) gates <->
                     Py.ceil_half old_size <= c < old_size /\ tg = old_size - c - 1)
    /\ (forall c tg, In (CNOT c tg) gates ->
                     0 <= tg < Py.ceil_half old_size /\ tg < c)
    /\ (forall j, 0 <= j < Py.ceil_half old_size ->
                  (exists c, In (CNOT c j) gates) <-> j < old_size - Py.ceil_half old_size)
    /\ NoDup gates.
Proof.
  pose proof (ceil_half_spec old_size) as Hc.
  set (new_size := Py.ceil_half old_size) in *.
  exists (map (fun i => CNOT i (old_size - i - 1)) (Py.range new_size old_size)).
  assert (Hin : forall c tg,
             In (@CNOT fvec c tg)
                (map (fun i => CNOT i (old_size - i - 1)) (Py.range new_size old_size))
             <-> new_size <= c < old_size /\ tg = old_size - c - 1).
  { intros c tg. rewrite in_map_iff. split.
    - intros (i & E & Hi). apply range_In in Hi. injection E as <- <-. lia.
    - intros (Hcr & ->). exists c. split; [reflexivity|]. now apply range_In. }
  split; [apply pool_run|]. split; [|split; [exact Hin|split; [|split]]].
  - intros o Ho. apply in_map_iff in Ho. destruct Ho as (i & <- & _). eauto.
  - intros c tg H. apply Hin in H. lia.
  - intros j Hj. split.
    + intros (c & H). apply Hin in H. lia.
    + intros H. exists (old_size - j - 1). apply Hin. lia.
  - apply NoDup_map_NoDup_ForallPairs.
    + intros i j _ _ E. now injection E.
    + unfold Py.range. apply NoDup_map_NoDup_ForallPairs; [|apply seq_NoDup].
      intros a b _ _ E. lia.
Qed.

(** ** The generation loop: errors, divergence and positions *)

Section Generation.

Context {fvec : Type}.

Lemma layers_diverges (fuel : nat) :
  forall s params u (t : tape fvec),
    s <= 0 -> QCNN.layers fvec fuel params u s t = OutOfFuel.
Proof.
  induction fuel as [|fuel IH]; intros s params u t Hs; [reflexivity|].
  rewrite layers_S, convolution_closed. unfold conv_need.
  destruct (Z.eqb_spec s 2); [lia|]. rewrite Z.max_l by lia.
  cbn [Z.mul]. destruct (Z.leb_spec 0 (Z.of_nat (length (Py.slice params (Some u) None))));
    [|lia].
  destruct (Z.eqb_spec s 1); [lia|].
  rewrite pool_run. pose proof (ceil_half_spec s) as Hc.
  destruct (Z.eqb_spec (Py.ceil_half s) 1); [lia|].
  apply IH. lia.
Qed.

Lemma layers_index_error (k : nat) :
  forall s fuel params u (t : tape fvec),
    2 <= s -> steps s = k -> (k <= fuel)%nat -> 0 <= u ->
    Z.of_nat (length params) < u + consumed k s ->
    QCNN.layers fvec fuel params u s t = Raise IndexError.
Proof.
  induction k as [|k IH]; intros s fuel params u t Hs Hk Hf Hu Hlen.
  - pose proof (steps_pos s Hs). lia.
  - destruct fuel as [|fuel]; [lia|].
    rewrite layers_S, slice_from, convolution_closed by auto.
    assert (Hneed : conv_need s = conv_cost s).
    { unfold conv_need, conv_cost. destruct (s =? 2); lia. }
    rewrite Hneed, length_skipn.
    pose proof (conv_cost_ge s Hs) as Hcost.
    cbn [consumed] in Hlen.
    destruct (steps_cases (S k) s Hs Hk)
      as [[-> Hk1] | (H3 & Hc & k' & Ek & Hk')].
    + injection Hk1 as ->. cbn [consumed] in Hlen.
      destruct (Z.leb_spec (conv_cost 2) (Z.of_nat (length params - Z.to_nat u)));
        [lia|reflexivity].
    + injection Ek as ->.
      pose proof (consumed_nonneg _ _ Hc Hk') as Hnn.
      destruct (Z.leb_spec (conv_cost s) (Z.of_nat (length params - Z.to_nat u)));
        [|reflexivity].
      destruct (Z.eqb_spec s 1); [lia|].
      rewrite pool_run.
      destruct (Z.eqb_spec (Py.ceil_half s) 1); [lia|].
      apply (IH _ fuel); auto; lia.
Qed.

End Generation.

(** X4: for a register of at least 2 positions, the circuit generation
    succeeds exactly when it is given at least the precomputed number of
    parameters; given fewer it raises an index error (it does not stop
    early, wrap around or pad). *)
Theorem generation_needs_all_params
        (fvec : Type) (fuel fuel' : nat) (self : QCNN.QCNN_Solver) (c : Z)
        (x : fvec) (params : list Q) (t : tape fvec) :
  2 <= QCNN.num_qubits self ->
  (steps (QCNN.num_qubits self) <= fuel')%nat ->
  QCNN.count_params fuel (QCNN.num_qubits self) = Done c ->
  (Z.of_nat (length params) < c ->
   QCNN.generate_qcnn_circuit fvec fuel' self x params t = Raise IndexError)
  /\ (c <= Z.of_nat (length params) ->
      exists gates,
        QCNN.generate_qcnn_circuit fvec fuel' self x params t
        = Done (Expval_PauliZ 0, t ++ Embedding x :: gates)
        /\ angles gates = firstn (Z.to_nat c) params).
Proof.
  intros Hn Hf Hc.
  set (n := QCNN.num_qubits self) in *.
  assert (Ec : c = consumed (steps n) n).
  { destruct (Nat.le_gt_cases (steps n) fuel) as [Hle|Hgt].
    - rewrite count_params_run in Hc by auto. now injection Hc.
    - unfold QCNN.count_params in Hc.
      rewrite (count_loop_short (steps n)) in Hc by auto. discriminate. }
  subst c. split; intros Hlen.
  - unfold QCNN.generate_qcnn_circuit, bind, queue, ret. fold n.
    now rewrite (layers_index_error (steps n)) by (auto; lia).
  - destruct (layers_run (steps n) n fuel' params 0 (t ++ [Embedding x])
                Hn eq_refl Hf ltac:(lia) ltac:(lia)) as (gates & E & Hang).
    exists gates. unfold QCNN.generate_qcnn_circuit, bind, queue, ret. fold n.
    rewrite E. split; [now rewrite <- app_assoc|exact Hang].
Qed.

Lemma generation_needs_all_params_witness :
  2 <= 3 /\
  QCNN.count_params 2 3 = Done 8
  /\ QCNN.generate_qcnn_circuit unit 2
       {| QCNN.num_qubits := 3; QCNN.num_params := 8; QCNN.params := [] |}
       tt (map inject_Z (Py.range 0 7)) []
     = Raise IndexError.
Proof.
  assert (H3 : 2 <= 3) by lia.
  split; [exact H3|]. split; [reflexivity|].
  destruct (generation_needs_all_params unit 2 2
              {| QCNN.num_qubits := 3; QCNN.num_params := 8; QCNN.params := [] |}
              8 tt (map inject_Z (Py.range 0 7)) []
              H3 ltac:(vm_compute; lia) eq_refl) as [Hshort _].
  apply Hshort. vm_compute. reflexivity.
Defined.

(** X5: for a register size of 0 or less the loop of the circuit generation
    never ends: each turn queues nothing, consumes nothing and leaves a size
    that is again 0 or less, so the exit test [== 1] never holds. *)
Theorem generation_diverges
        (fvec : Type) (fuel : nat) (self : QCNN.QCNN_Solver)
        (x : fvec) (params : list Q) (t : tape fvec) :
  QCNN.num_qubits self <= 0 ->
  QCNN.generate_qcnn_circuit fvec fuel self x params t = OutOfFuel
  /\ (forall u, QCNN.layers fvec fuel params u (QCNN.num_qubits self) t = OutOfFuel)
  /\ (forall t', QCNN.convolution fvec (QCNN.num_qubits self) params t' = Done (0, t'))
  /\ (forall t', exists s', s' <= 0
                 /\ QCNN.pool fvec (QCNN.num_qubits self) t' = Done (s', t')).
Proof.
  intros Hn. split; [|split; [|split]].
  - unfold QCNN.generate_qcnn_circuit, bind, queue, ret.
    now rewrite layers_diverges.
  - intros u. now apply layers_diverges.
  - intros t'. rewrite convolution_closed. unfold conv_need.
    destruct (Z.eqb_spec (QCNN.num_qubits self) 2); [lia|].
    rewrite Z.max_l by lia. cbn [Z.mul].
    destruct (Z.leb_spec 0 (Z.of_nat (length params))); [|lia].
    destruct (Z.eqb_spec (QCNN.num_qubits self) 1); [lia|].
    unfold conv_gates. rewrite range_nil by lia. cbn. now rewrite app_nil_r.
  - intros t'. pose proof (ceil_half_spec (QCNN.num_qubits self)).
    exists (Py.ceil_half (QCNN.num_qubits self)). split; [lia|].
    rewrite pool_run, range_nil by lia. cbn. now rewrite app_nil_r.
Qed.

Lemma generation_diverges_witness :
  0 <= 0 /\
  QCNN.generate_qcnn_circuit unit 1000
    {| QCNN.num_qubits := 0; QCNN.num_params := -2; QCNN.params := [] |}
    tt [] []
  = OutOfFuel.
Proof.
  assert (H0 : 0 <= 0) by lia.
  split; [exact H0|].
  exact (proj1 (generation_diverges unit 1000
                  {| QCNN.num_qubits := 0; QCNN.num_params := -2; QCNN.params := [] |}
                  tt [] [] H0)).
Defined.

(** ** The positions that the circuit touches *)

Lemma within_app {fvec : Type} (s : Z) (a b : tape fvec) :
  within s a -> within s b -> within s (a ++ b).
Proof. intros Ha Hb. apply Forall_app. now split. Qed.

Lemma within_mono {fvec : Type} (s s' : Z) (t : tape fvec) :
  s <= s' -> within s t -> within s' t.
Proof.
  intros Hs Ht. unfold within in *.
  eapply Forall_impl; [|exact Ht].
  intros o Ho. eapply Forall_impl; [|exact Ho]. cbn. intros w Hw. lia.
Qed.

Lemma conv_gates_within {fvec : Type} (n : Z) (params : list Q) :
  within n (conv_gates (fvec := fvec) n params).
Proof.
  unfold within, conv_gates. apply Forall_flat_map, Forall_forall.
  intros i Hi. apply range_In in Hi.
  pose proof (conv_target_bound n i ltac:(lia)).
  repeat constructor; cbn; lia.
Qed.

Lemma base_gates_within {fvec : Type} (params : list Q) :
  within 2 (base_gates (fvec := fvec) params).
Proof. repeat constructor; cbn; lia. Qed.

Lemma pool_gates_within {fvec : Type} (old_size : Z) :
  within old_size
         (map (fun i => @CNOT fvec i (old_size - i - 1))
              (Py.range (Py.ceil_half old_size) old_size)).
Proof.
  unfold within. apply Forall_map, Forall_forall.
  intros i Hi. apply range_In in Hi.
  pose proof (ceil_half_spec old_size).
  repeat constructor; cbn; lia.
Qed.

Section Positions.

Context {fvec : Type}.

(** The gates of one turn of the loop at size [s]: a convolution, then the
    pooling. *)
Lemma turn_run (fuel : nat) (s : Z) (params : list Q) (u : Z) (t : tape fvec)
      (r : Z * Z) (t' : tape fvec) :
  QCNN.layers fvec (S fuel) params u s t = Done (r, t') ->
  let p := Py.slice params (Some u) None in
  let g1 := (if s =? 2 then base_gates p else conv_gates s p)
            ++ map (fun i => CNOT i (s - i - 1)) (Py.range (Py.ceil_half s) s) in
  within s g1
  /\ (if Py.ceil_half s =? 1
      then r = (u + conv_need s, 1) /\ t' = t ++ g1
      else QCNN.layers fvec fuel params (u + conv_need s) (Py.ceil_half s) (t ++ g1)
           = Done (r, t')).
Proof.
  intros H p g1. split.
  - apply within_app; [|apply pool_gates_within].
    destruct (Z.eqb_spec s 2) as [->|]; [apply base_gates_within|].
    apply conv_gates_within.
  - rewrite layers_S, convolution_closed in H. fold p in H.
    destruct (conv_need s <=? Z.of_nat (length p)); [|discriminate].
    destruct (s =? 1); [discriminate|].
    rewrite pool_run, <- app_assoc in H. fold g1 in H.
    destruct (Z.eqb_spec (Py.ceil_half s) 1) as [E|]; [|exact H].
    injection H as <- <-. now rewrite E.
Qed.

Lemma layers_within (fuel : nat) :
  forall s params u (t : tape fvec) r t',
    QCNN.layers fvec fuel params u s t = Done (r, t') ->
    exists gates, t' = t ++ gates /\ within s gates.
Proof.
  induction fuel as [|fuel IH]; intros s params u t r t' H; [discriminate|].
  destruct (Z.le_gt_cases s 0) as [Hs|Hs].
  { rewrite layers_diverges in H by auto. discriminate. }
  destruct (turn_run fuel s params u t r t' H) as [Hg1 Hrest].
  pose proof (ceil_half_spec s) as Hc.
  destruct (Py.ceil_half s =? 1).
  - destruct Hrest as [_ ->]. eauto.
  - destruct (IH _ _ _ _ _ _ Hrest) as (g2 & -> & Hg2).
    eexists. rewrite <- app_assoc. split; [reflexivity|].
    apply within_app; [exact Hg1|].
    apply (within_mono (Py.ceil_half s)); [lia|exact Hg2].
Qed.

Lemma layers_final_size (fuel : nat) :
  forall s params u (t : tape fvec) r t',
    QCNN.layers fvec fuel params u s t = Done (r, t') -> snd r = 1.
Proof.
  induction fuel as [|fuel IH]; intros s params u t r t' H; [discriminate|].
  rewrite layers_S in H.
  destruct (QCNN.convolution fvec s _ t) as [[used t1]| |]; try discriminate.
  rewrite pool_run in H.
  destruct (Z.eqb_spec (Py.ceil_half s) 1) as [E|].
  - injection H as <- _. exact E.
  - eapply IH. exact H.
Qed.

End Positions.

(** X6: a circuit generation that returns has a register of at least one
    position, measures position 0 and, after the embedding, queues only
    gates that act on positions of the register: no rotation or entangling
    gate is ever placed on a position below 0 or from [num_qubits] on. *)
Theorem generation_stays_in_register
        (fvec : Type) (fuel : nat) (self : QCNN.QCNN_Solver)
        (x : fvec) (params : list Q) (t : tape fvec)
        (m : measurement) (t' : tape fvec) :
  QCNN.generate_qcnn_circuit fvec fuel self x params t = Done (m, t') ->
  1 <= QCNN.num_qubits self
  /\ m = Expval_PauliZ 0
  /\ exists gates,
       t' = t ++ Embedding x :: gates
       /\ within (QCNN.num_qubits self) gates.
Proof.
  intros H. unfold QCNN.generate_qcnn_circuit, bind, queue, ret in H.
  destruct (QCNN.layers fvec fuel params 0 (QCNN.num_qubits self) (t ++ [Embedding x]))
    as [[r t'']| |] eqn:E; try discriminate.
  injection H as <- <-.
  split.
  - destruct (Z.le_gt_cases (QCNN.num_qubits self) 0) as [Hn|Hn]; [|lia].
    rewrite layers_diverges in E by auto. discriminate.
  - split; [reflexivity|].
    destruct (layers_within _ _ _ _ _ _ _ E) as (gates & -> & Hw).
    exists gates. split; [now rewrite <- app_assoc|exact Hw].
Qed.

Lemma generation_stays_in_register_witness :
  exists gates,
    QCNN.generate_qcnn_circuit unit 2
      {| QCNN.num_qubits := 3; QCNN.num_params := 8; QCNN.params := [] |}
      tt (map inject_Z (Py.range 0 8)) []
    = Done (Expval_PauliZ 0, Embedding tt :: gates)
    /\ within 3 gates.
Proof.
  destruct (generation_stays_in_register unit 2
              {| QCNN.num_qubits := 3; QCNN.num_params := 8; QCNN.params := [] |}
              tt (map inject_Z (Py.range 0 8)) []
              (Expval_PauliZ 0)
              (Embedding tt ::
               [RY 0 0; RY 1 1; CNOT 0 1; RY 2 1; RY 3 2; CNOT 1 2;
                RY 4 2; RY 5 0; CNOT 2 0; CNOT 2 0;
                RY 6 0; RY 7 1; CNOT 0 1; CNOT 1 0])
              eq_refl)
    as (_ & _ & gates & E & Hw).
  exists gates. cbn [app] in E. rewrite <- E. split; [reflexivity|exact Hw].
Defined.

(** X7: positions discarded by a pooling are never touched again. One turn
    of the loop at size [s] queues the convolution and the pooling of that
    size, on positions below [s]; everything queued afterwards acts on
    positions below [ceil(s / 2)] only. *)
Theorem discarded_positions_untouched
        (fvec : Type) (fuel : nat) (s : Z) (params : list Q) (u : Z)
        (t : tape fvec) (r : Z * Z) (t' : tape fvec) :
  QCNN.layers fvec (S fuel) params u s t = Done (r, t') ->
  let p := Py.slice params (Some u) None in
  let g1 := (if s =? 2 then base_gates p else conv_gates s p)
            ++ map (fun i => CNOT i (s - i - 1)) (Py.range (Py.ceil_half s) s) in
  exists g2,
    t' = t ++ g1 ++ g2
    /\ within s g1
    /\ within (Py.ceil_half s) g2
    /\ snd r = 1.
Proof.
  intros H p g1.
  destruct (turn_run fuel s params u t r t' H) as [Hg1 Hrest].
  fold p in Hrest. fold g1 in Hrest, Hg1.
  destruct (Py.ceil_half s =? 1).
  - destruct Hrest as [-> ->]. exists []. rewrite app_nil_r.
    repeat split; auto. constructor.
  - destruct (layers_within _ _ _ _ _ _ _ Hrest) as (g2 & -> & Hg2).
    exists g2. rewrite <- app_assoc. repeat split; auto.
    eapply layers_final_size. exact Hrest.
Qed.

Lemma discarded_positions_untouched_witness :
  exists g2,
    QCNN.layers unit 2 (map inject_Z (Py.range 0 8)) 0 3 []
    = Done (8, 1,
            [RY 0 0; RY 1 1; CNOT 0 1; RY 2 1; RY 3 2; CNOT 1 2;
             RY 4 2; RY 5 0; CNOT 2 0; CNOT 2 0] ++ g2)
    /\ within 2 g2.
Proof.
  destruct (discarded_positions_untouched unit 1 3 (map inject_Z (Py.range 0 8)) 0 []
              (8, 1)
              [RY 0 0; RY 1 1; CNOT 0 1; RY 2 1; RY 3 2; CNOT 1 2;
               RY 4 2; RY 5 0; CNOT 2 0; CNOT 2 0;
               RY 6 0; RY 7 1; CNOT 0 1; CNOT 1 0]
              eq_refl)
    as (g2 & E & _ & Hw & _).
  exists g2. cbn [app] in E. split; [|exact Hw].
  transitivity (@Done (Z * Z * tape unit)
                  (8, 1, [RY 0 0; RY 1 1; CNOT 0 1; RY 2 1; RY 3 2; CNOT 1 2;
                          RY 4 2; RY 5 0; CNOT 2 0; CNOT 2 0;
                          RY 6 0; RY 7 1; CNOT 0 1; CNOT 1 0])).
  - reflexivity.
  - do 2 f_equal. exact E.
Defined.

(** ** The size of the parameter vector *)

Lemma accumulated_bounds (k : nat) :
  forall s, 2 <= s -> steps s = k ->
    4 * s - 4 <= accumulated k s <= 4 * s - 4 + 2 * (Z.of_nat k - 1).
Proof.
  induction k as [|k IH]; intros s Hs Hk.
  - pose proof (steps_pos s Hs). lia.
  - destruct (steps_cases (S k) s Hs Hk)
      as [[-> Hk1] | (H3 & Hc & k' & Ek & Hk')].
    + injection Hk1 as ->. cbn. lia.
    + injection Ek as ->. cbn [accumulated].
      specialize (IH _ Hc Hk'). pose proof (ceil_half_spec s). lia.
Qed.

Lemma ceil_half_double (m : Z) : Py.ceil_half (2 * m) = m.
Proof. pose proof (ceil_half_spec (2 * m)). lia. Qed.

Lemma accumulated_pow2 (k : nat) :
  accumulated (S k) (2 ^ Z.of_nat (S k)) = 4 * 2 ^ Z.of_nat (S k) - 4.
Proof.
  induction k as [|k IH]; [reflexivity|].
  cbn [accumulated] in *.
  replace (2 ^ Z.of_nat (S (S k))) with (2 * 2 ^ Z.of_nat (S k))
    by (rewrite (Nat2Z.inj_succ (S k)), Z.pow_succ_r; lia).
  rewrite ceil_half_double, IH. lia.
Qed.

(** X8: for a register of [n >= 2] positions the constructor computes a
    parameter count between [4n - 6] and [4n - 6 + 2 (ceil(log2 n) - 1)]:
    it grows linearly with the register; when [n] is a power of two it is
    exactly [4n - 6]. *)
Theorem count_params_bounds (n : Z) (fuel : nat) :
  2 <= n -> (steps n <= fuel)%nat ->
  exists c,
    QCNN.count_params fuel n = Done c
    /\ 4 * n - 6 <= c <= 4 * n - 6 + 2 * (Z.log2_up n - 1)
    /\ (n = 2 ^ Z.log2_up n -> c = 4 * n - 6).
Proof.
  intros Hn Hf. exists (consumed (steps n) n).
  split; [now apply count_params_run|].
  rewrite <- (accumulated_consumed (steps n)) by auto.
  pose proof (accumulated_bounds (steps n) n Hn eq_refl) as Hb.
  pose proof (Z.log2_up_pos n ltac:(lia)) as Hl.
  assert (Hk : Z.of_nat (steps n) = Z.log2_up n) by (unfold steps; lia).
  rewrite Hk in Hb. split; [lia|].
  intros Hpow.
  assert (Es : steps n = S (Nat.pred (steps n))) by (unfold steps; lia).
  assert (En : n = 2 ^ Z.of_nat (S (Nat.pred (steps n)))).
  { rewrite <- Es, Hk. exact Hpow. }
  pose proof (accumulated_pow2 (Nat.pred (steps n))) as Hp.
  rewrite <- En, <- Es in Hp. lia.
Qed.

Lemma count_params_bounds_witness :
  2 <= 16 /\ QCNN.count_params 4 16 = Done (4 * 16 - 6).
Proof.
  assert (H16 : 2 <= 16) by lia.
  split; [exact H16|].
  destruct (count_params_bounds 16 4 H16 ltac:(vm_compute; lia))
    as (c & -> & _ & Hpow).
  f_equal. apply Hpow. reflexivity.
Defined.

(** ** The split, whatever the ratio *)

Lemma slice_partition {A : Type} (l : list A) (i : Z) :
  Py.slice l None (Some i) ++ Py.slice l (Some i) None = l.
Proof.
  unfold Py.slice.
  set (len := Z.of_nat (length l)). set (c := Py.clamp len i).
  assert (Hc : 0 <= c <= len).
  { unfold c, Py.clamp, len. destruct (Z.ltb_spec i 0); lia. }
  rewrite Z.sub_0_r. cbn [Z.to_nat skipn].
  rewrite (firstn_all2 (n := Z.to_nat (len - c)))
    by (rewrite length_skipn; unfold len; lia).
  apply firstn_skipn.
Qed.

(** X9: whatever the training ratio (also 0, 1, above 1 or negative), the
    split cuts the feature vectors and the labels at one index: the training
    part followed by the test part is the dataset, in order, and when
    vectors and labels are as many the two cuts are aligned. *)
Theorem split_always_partitions
        (fvec : Type) (feature_vectors : list fvec) (labels : list Q)
        (training_ratio : Q) :
  let d := split feature_vectors labels training_ratio in
  training_vectors d ++ testing_vectors d = feature_vectors
  /\ training_labels d ++ testing_labels d = labels
  /\ (length feature_vectors = length labels ->
      length (training_vectors d) = length (training_labels d)
      /\ length (testing_vectors d) = length (testing_labels d)).
Proof.
  intros d. unfold d, split. cbn [training_vectors testing_vectors
                                  training_labels testing_labels].
  split; [apply slice_partition|]. split; [apply slice_partition|].
  intros Hlen. split; now apply slice_length_indep.
Qed.

Lemma split_always_partitions_witness :
  training_vectors (split [10; 20; 30; 40; 50] [1; -1; 1; -1; 1]%Q (-1 # 2))
  = [10; 20; 30]
  /\ length (training_vectors (split [10; 20; 30; 40; 50] [1; -1; 1; -1; 1]%Q (-1 # 2)))
     = length (training_labels (split [10; 20; 30; 40; 50] [1; -1; 1; -1; 1]%Q (-1 # 2))).
Proof.
  split; [reflexivity|].
  destruct (split_always_partitions Z [10; 20; 30; 40; 50] [1; -1; 1; -1; 1]%Q (-1 # 2))
    as (_ & _ & Hal).
  exact (proj1 (Hal eq_refl)).
Defined.

(** ** Degenerate splits *)

Lemma training_period_full (training_ratio : Q) (labels : list Q) :
  (1 <= training_ratio)%Q ->
  Z.of_nat (length labels) <= training_period training_ratio labels.
Proof.
  intros H. unfold training_period, Py.fmul.
  set (N := Z.of_nat (length labels)).
  assert (HN : 0 <= N) by (unfold N; lia).
  apply int_ge; [exact HN|]. apply round64_lower; [exact HN|].
  destruct training_ratio as [a d]. unfold Qle in *. cbn in *. nia.
Qed.

Lemma training_period_none (training_ratio : Q) (labels : list Q) :
  (0 <= training_ratio)%Q ->
  (Py.fmul training_ratio (inject_Z (Z.of_nat (length labels))) < 1)%Q ->
  training_period training_ratio labels = 0.
Proof.
  intros H0 H1. unfold training_period.
  apply (int_between _ 0); [lia| |exact H1].
  apply (round64_lower _ 0); [lia|].
  apply (product_nonneg training_ratio); [exact H0|lia].
Qed.

Lemma fmul_zero (x y : Q) : (Qnum x = 0 \/ Qnum y = 0) -> Py.fmul x y = 0%Q.
Proof.
  intros H. unfold Py.fmul, Py.round64.
  replace (Qnum (x * y)) with 0; [reflexivity|].
  unfold Qmult. cbn [Qnum]. destruct H as [-> | ->]; lia.
Qed.

(** X10: with a training ratio of 1 or more every sample is a training
    sample and the test partition is empty, so [run] and [run_batched],
    when they return, return no prediction at all and the score of two
    empty sequences. *)
Theorem full_ratio_predicts_nothing
        (fvec : Type) (feature_vectors : list fvec) (labels : list Q)
        (training_ratio : Q) :
  (1 <= training_ratio)%Q ->
  length feature_vectors = length labels ->
  let d := split feature_vectors labels training_ratio in
  training_vectors d = feature_vectors
  /\ training_labels d = labels
  /\ testing_vectors d = []
  /\ testing_labels d = []
  /\ (forall expval_PauliZ prob get_score error_function uninitialised fuel self
             optimizer_function r,
        QCNN.run fvec expval_PauliZ prob get_score error_function uninitialised
                 fuel self feature_vectors labels optimizer_function training_ratio
        = Done r ->
        snd r = (get_score [] [], []))
  /\ (forall expval_PauliZ prob get_score error_function uninitialised fuel self
             optimizer_function num_batches r,
        QCNN.run_batched fvec expval_PauliZ prob get_score error_function
                 uninitialised fuel self feature_vectors labels optimizer_function
                 num_batches training_ratio
        = Done r ->
        snd r = (get_score [] [], [])).
Proof.
  intros Hr Hlen d.
  pose proof (training_period_full training_ratio labels Hr) as Htp.
  assert (Htv : training_vectors d = feature_vectors).
  { unfold d, split. cbn. rewrite slice_to by lia. apply firstn_all2. lia. }
  assert (Htl : training_labels d = labels).
  { unfold d, split. cbn. rewrite slice_to by lia. apply firstn_all2. lia. }
  assert (Hsv : testing_vectors d = []).
  { unfold d, split. cbn. rewrite slice_from by lia. apply skipn_all2. lia. }
  assert (Hsl : testing_labels d = []).
  { unfold d, split. cbn. rewrite slice_from by lia. apply skipn_all2. lia. }
  do 4 (split; [assumption|]). split.
  - intros ev pr gs ef un fuel self opt r H.
    unfold QCNN.run in H. fold d in H. cbv zeta in H.
    rewrite Hsv, Hsl in H.
    destruct (optimize _ _ _) as [res| |]; try discriminate.
    cbn in H. now injection H as <-.
  - intros ev pr gs ef un fuel self opt nb r H.
    unfold QCNN.run_batched in H. fold d in H. cbv zeta in H.
    rewrite Hsv, Hsl in H.
    destruct (QCNN.train_batched _ _ _ _ _ _ _ _ _ _ _) as [res| |];
      try discriminate.
    cbn in H. now injection H as <-.
Qed.

Lemma full_ratio_predicts_nothing_witness :
  (1 <= 3 # 2)%Q /\
  QCNN.run Z Example.expval_PauliZ Example.prob Example.get_score
           Example.error_function Example.uninitialised 1 Example.self
           Example.feature_vectors Example.labels (Example.calls 1) (3 # 2)
  = Done (Example.self, (0, [])).
Proof.
  assert (H : (1 <= 3 # 2)%Q) by (unfold Qle; cbn; lia).
  split; [exact H|].
  destruct (full_ratio_predicts_nothing Z Example.feature_vectors Example.labels
              (3 # 2) H eq_refl) as (_ & _ & _ & _ & Hrun & _).
  assert (E : exists r,
             QCNN.run Z Example.expval_PauliZ Example.prob Example.get_score
                      Example.error_function Example.uninitialised 1 Example.self
                      Example.feature_vectors Example.labels (Example.calls 1) (3 # 2)
             = Done (Example.self, r)).
  { eexists. vm_compute. reflexivity. }
  destruct E as (r & E). rewrite E. do 2 f_equal.
  exact (Hrun _ _ _ _ _ _ _ _ _ E).
Defined.

(** X11: for a ratio that is not negative, when the binary64 product
    [ratio * N] is below 1 the training partition is empty and every sample
    is a test sample; the cost function of [run] then evaluates no circuit
    and returns the error of two empty sequences for every parameter
    vector. This is the case of a ratio of 0 and of an empty dataset. An
    exact product below 1 only gives a binary64 product of at most 1. *)
Theorem small_ratio_trains_on_nothing
        (fvec : Type) (feature_vectors : list fvec) (labels : list Q)
        (training_ratio : Q) :
  (0 <= training_ratio)%Q ->
  let N := inject_Z (Z.of_nat (length labels)) in
  let d := split feature_vectors labels training_ratio in
  ((training_ratio == 0)%Q \/ labels = [] -> (Py.fmul training_ratio N < 1)%Q)
  /\ ((training_ratio * N < 1)%Q -> (Py.fmul training_ratio N <= 1)%Q)
  /\ ((Py.fmul training_ratio N < 1)%Q ->
      training_period training_ratio labels = 0
      /\ training_vectors d = []
      /\ training_labels d = []
      /\ testing_vectors d = feature_vectors
      /\ testing_labels d = labels
      /\ (forall expval_PauliZ prob error_function fuel self params,
            QCNN.cost_function fvec expval_PauliZ prob error_function
                               fuel self d params tt
            = Done (error_function [] [], tt))).
Proof.
  intros H0 N d. split; [|split].
  - intros H. rewrite fmul_zero; [reflexivity|].
    destruct H as [H | ->]; [left | right; reflexivity].
    destruct training_ratio as [a b]. unfold Qeq in H. cbn in *. lia.
  - intros H1. apply (round64_upper _ 1).
    + apply (product_nonneg training_ratio); [exact H0 | lia].
    + now apply Qlt_le_weak.
  - intros H1.
    pose proof (training_period_none training_ratio labels H0 H1) as Htp.
    assert (Htv : training_vectors d = []).
    { unfold d, split. cbn. rewrite Htp. now rewrite slice_to by lia. }
    assert (Htl : training_labels d = []).
    { unfold d, split. cbn. rewrite Htp. now rewrite slice_to by lia. }
    split; [exact Htp|]. split; [exact Htv|]. split; [exact Htl|].
    split; [unfold d, split; cbn; rewrite Htp; now rewrite slice_from by lia|].
    split; [unfold d, split; cbn; rewrite Htp; now rewrite slice_from by lia|].
    intros. unfold QCNN.cost_function. now rewrite Htv, Htl.
Qed.

(** The product [0.0625 * 11] is exact and below 1. *)
Lemma small_ratio_trains_on_nothing_witness :
  (0 <= 1 # 16)%Q /\
  training_vectors (split Example.feature_vectors Example.labels (1 # 16)) = []
  /\ testing_vectors (split Example.feature_vectors Example.labels (1 # 16))
     = Example.feature_vectors.
Proof.
  assert (H0 : (0 <= 1 # 16)%Q) by (unfold Qle; cbn; lia).
  split; [exact H0|].
  destruct (small_ratio_trains_on_nothing Z Example.feature_vectors Example.labels
              (1 # 16) H0) as (_ & _ & Hsmall).
  destruct (Hsmall ltac:(vm_compute; reflexivity))
    as (_ & Htv & _ & Hsv & _).
  split; [exact Htv | exact Hsv].
Defined.

(** ** The array of the predictions *)

Section Array.

Variable fvec : Type.
Variable expval_PauliZ : tape fvec -> Z -> Q.
Variable prob : tape fvec -> list Z -> list bool -> Q.

Local Abbreviation circuit := (QCNN.circuit_to_optimize fvec expval_PauliZ prob).
Local Abbreviation fill := (QCNN.fill fvec expval_PauliZ prob).

(** With fewer cells left than test vectors the loop runs off the array,
    after it has evaluated the circuit on the first vector without cell. *)
Lemma fill_short (fuel : nat) (self : QCNN.QCNN_Solver) (vs : list fvec) :
  forall xs stored rest,
    omap (fun v => circuit fuel self v (QCNN.params self)) vs = Done xs ->
    (length rest < length vs)%nat ->
    fill fuel self (Z.of_nat (length stored)) vs (stored ++ rest)
    = Raise IndexError.
Proof.
  induction vs as [|v vs IH]; intros xs stored rest H Hlen; cbn in H, Hlen.
  - lia.
  - cbn [QCNN.fill].
    destruct (circuit fuel self v (QCNN.params self)) as [x| |];
      try discriminate.
    cbn [obind] in *.
    destruct (omap _ vs) as [xs'| |] eqn:E; try discriminate.
    destruct rest as [|r rest].
    + rewrite setitem_out by (rewrite app_nil_r; lia). reflexivity.
    + rewrite setitem_in by (rewrite length_app; cbn; lia).
      cbn [obind].
      replace (firstn (length stored) (stored ++ r :: rest)) with stored
        by (rewrite firstn_app, Nat.sub_diag, firstn_all; cbn;
            now rewrite app_nil_r).
      replace (skipn (S (length stored)) (stored ++ r :: rest)) with rest
        by (rewrite skipn_app, skipn_all2 by lia;
            now replace (S (length stored) - length stored)%nat with 1%nat by lia).
      replace (Z.of_nat (length stored) + 1)
        with (Z.of_nat (length (stored ++ [Py.sign x])))
        by (rewrite length_app; cbn; lia).
      replace (stored ++ Py.sign x :: rest) with ((stored ++ [Py.sign x]) ++ rest)
        by now rewrite <- app_assoc.
      apply (IH xs'); [reflexivity | cbn in Hlen; lia].
Qed.

End Array.

(** X16: the array of the predictions has one cell per test label, not
    per test vector, and the two counts are not compared. When the circuit
    returns on every test vector, the signs fill the first cells in order:
    with fewer test vectors than test labels the remaining cells keep
    whatever the fresh array held, and with more test vectors than test
    labels the loop raises an index error. *)
Theorem prediction_array_follows_labels
        (fvec : Type)
        (expval_PauliZ : tape fvec -> Z -> Q)
        (prob : tape fvec -> list Z -> list bool -> Q)
        (uninitialised : nat -> Q)
        (fuel : nat) (self : QCNN.QCNN_Solver)
        (testing_vectors : list fvec) (testing_labels observables : list Q) :
  omap (fun v => QCNN.circuit_to_optimize fvec expval_PauliZ prob fuel self v
                   (QCNN.params self))
       testing_vectors = Done observables ->
  let predict :=
    QCNN.predict fvec expval_PauliZ prob fuel self testing_vectors
                 (QCNN.empty_like uninitialised testing_labels) in
  let n := length testing_vectors in
  length (QCNN.empty_like uninitialised testing_labels) = length testing_labels
  /\ ((n <= length testing_labels)%nat ->
      predict = Done (map Py.sign observables
                        ++ map uninitialised (seq n (length testing_labels - n))))
  /\ ((length testing_labels < n)%nat -> predict = Raise IndexError).
Proof.
  intros H predict n.
  assert (Hl : length (QCNN.empty_like uninitialised testing_labels)
               = length testing_labels).
  { unfold QCNN.empty_like. now rewrite length_map, length_seq. }
  split; [exact Hl|]. split; intros Hn; unfold predict, QCNN.predict.
  - pose proof (fill_run fvec expval_PauliZ prob fuel self testing_vectors
                  observables [] _ H ltac:(rewrite Hl; exact Hn)) as Hfill.
    cbn [app length Z.of_nat] in Hfill. rewrite Hfill. do 2 f_equal.
    unfold QCNN.empty_like. now rewrite skipn_map, skipn_seq.
  - exact (fill_short fvec expval_PauliZ prob fuel self testing_vectors
             observables [] _ H ltac:(rewrite Hl; exact Hn)).
Qed.

(** Two test vectors and three test labels: the third cell is never
    written. Three test vectors and two test labels: the third store is
    out of range. *)
Lemma prediction_array_follows_labels_witness :
  QCNN.predict Z Example.expval_PauliZ Example.prob 1 Example.self [1; 2]
               (QCNN.empty_like Example.uninitialised [1; -1; 1]%Q)
  = Done [0; 0; 102]%Q
  /\ QCNN.predict Z Example.expval_PauliZ Example.prob 1 Example.self [1; 2; 3]
                  (QCNN.empty_like Example.uninitialised [1; -1]%Q)
     = Raise IndexError.
Proof.
  split.
  - assert (E : exists xs,
               omap (fun v => QCNN.circuit_to_optimize Z Example.expval_PauliZ
                                Example.prob 1 Example.self v
                                (QCNN.params Example.self)) [1; 2] = Done xs
               /\ map Py.sign xs = [0; 0]%Q).
    { eexists. split; vm_compute; reflexivity. }
    destruct E as (xs & E & Hs).
    destruct (prediction_array_follows_labels Z Example.expval_PauliZ Example.prob
                Example.uninitialised 1 Example.self [1; 2] [1; -1; 1]%Q xs E)
      as (_ & Hfew & _).
    rewrite (Hfew ltac:(cbn; lia)), Hs. reflexivity.
  - assert (E : exists xs,
               omap (fun v => QCNN.circuit_to_optimize Z Example.expval_PauliZ
                                Example.prob 1 Example.self v
                                (QCNN.params Example.self)) [1; 2; 3] = Done xs).
    { eexists. vm_compute. reflexivity. }
    destruct E as (xs & E).
    destruct (prediction_array_follows_labels Z Example.expval_PauliZ Example.prob
                Example.uninitialised 1 Example.self [1; 2; 3] [1; -1]%Q xs E)
      as (_ & _ & Hmany).
    exact (Hmany ltac:(cbn; lia)).
Defined.

(** ** The batch index and the number of batches *)

(** X12: in [run_batched] the batch index is never reset: when the
    optimization returns, whatever the number of calls the optimizer made,
    the calls of the cost function started at the batch indices 0, 1, 2, ...
    in this order and the final index is the number of calls. *)
Theorem batch_index_counts_calls
        (fvec : Type)
        (expval_PauliZ : tape fvec -> Z -> Q)
        (prob : tape fvec -> list Z -> list bool -> Q)
        (error_function : list Q -> list Q -> Q)
        (fuel : nat) (self : QCNN.QCNN_Solver)
        (feature_vectors : list fvec) (labels : list Q)
        (optimizer_function : list Q -> optimizer)
        (num_batches : Z) (training_ratio : Q)
        (p : list Q) (b : Z) (log : list Z) :
  QCNN.train_batched fvec expval_PauliZ prob error_function fuel self
       feature_vectors labels optimizer_function num_batches training_ratio
  = Done (p, b, log) ->
  num_batches <> 0
  /\ log = Py.range 0 (Z.of_nat (length log))
  /\ b = Z.of_nat (length log)
  /\ (forall k, 0 <= k < b -> nth_error log (Z.to_nat k) = Some k).
Proof.
  intros H. unfold QCNN.train_batched in H. cbv zeta in H.
  destruct (QCNN.batch_lenght _ num_batches) as [L| |] eqn:EL; try discriminate.
  cbn [obind] in H. apply optimize_batched_log in H. destruct H as [Hlog Hb].
  cbn in Hlog, Hb. split.
  - intros ->. unfold QCNN.batch_lenght, Py.truediv in EL. discriminate.
  - split; [exact Hlog|]. split; [exact Hb|].
    intros k Hk. rewrite Hlog, range_nth by lia. f_equal.
Qed.

Lemma batch_index_counts_calls_witness :
  QCNN.train_batched Z Example.expval_PauliZ Example.prob Example.error_function
       1 Example.self Example.feature_vectors Example.labels
       (Example.calls 7) 3 (15 # 16)
  = Done ([1 # 2; -1 # 2]%Q, 7, Py.range 0 7).
Proof.
  assert (E : exists b log,
             QCNN.train_batched Z Example.expval_PauliZ Example.prob
               Example.error_function 1 Example.self
               Example.feature_vectors Example.labels (Example.calls 7) 3 (15 # 16)
             = Done ([1 # 2; -1 # 2]%Q, b, log) /\ length log = 7%nat).
  { do 2 eexists. split; vm_compute; reflexivity. }
  destruct E as (b & log & E & Hl). rewrite E.
  destruct (batch_index_counts_calls _ _ _ _ _ _ _ _ _ _ _ _ _ _ E)
    as (_ & Hlog & Hb & _).
  rewrite Hl in Hlog, Hb. now rewrite Hlog, Hb.
Defined.

(** [run_batched] does not validate [num_batches]: with 0 batches the
    batch length cannot be computed and the call raises a division error
    before the optimizer or any circuit is run. *)
Theorem zero_batches_raises
        (fvec : Type)
        (expval_PauliZ : tape fvec -> Z -> Q)
        (prob : tape fvec -> list Z -> list bool -> Q)
        (get_score : list Q -> list Q -> Z)
        (error_function : list Q -> list Q -> Q)
        (uninitialised : nat -> Q)
        (fuel : nat) (self : QCNN.QCNN_Solver)
        (feature_vectors : list fvec) (labels : list Q)
        (optimizer_function : list Q -> optimizer) (training_ratio : Q) :
  QCNN.run_batched fvec expval_PauliZ prob get_score error_function uninitialised
       fuel self feature_vectors labels optimizer_function 0 training_ratio
  = Raise ZeroDivisionError
  /\ QCNN.train_batched fvec expval_PauliZ prob error_function fuel self
       feature_vectors labels optimizer_function 0 training_ratio
     = Raise ZeroDivisionError.
Proof.
  split; reflexivity.
Qed.

Lemma batch_lenght_negative (training_labels : list Q) (num_batches : Z) :
  num_batches < 0 ->
  QCNN.batch_lenght training_labels num_batches
  = Done (- (Z.of_nat (length training_labels) / - num_batches)).
Proof.
  intros HN. unfold QCNN.batch_lenght, Py.truediv.
  destruct (Z.eqb_spec num_batches 0); [lia|]. cbn [obind]. f_equal.
  destruct num_batches as [|p|p]; try lia.
  unfold Py.int, Qdiv, Qinv, Qmult. cbn [Qnum Qden Z.opp].
  rewrite Pos.mul_1_l.
  replace (Z.of_nat (length training_labels) * Z.neg 1)
    with (- Z.of_nat (length training_labels)) by lia.
  rewrite Z.quot_opp_l by lia. f_equal.
  apply Z.quot_div_nonneg; lia.
Qed.

Lemma batched_nonpos {A : Type} (training : list A) (L : Z) :
  L <= 0 -> - Z.of_nat (length training) <= L ->
  QCNN.batched training L 0
  = firstn (Z.to_nat (if L =? 0 then 0 else Z.of_nat (length training) + L))
           training
  /\ (forall k, 1 <= k -> QCNN.batched training L k = []).
Proof.
  intros HL Hlow. set (count := Z.of_nat (length training)) in *. split.
  - unfold QCNN.batched, Py.slice. fold count.
    change (0 * L) with 0. replace ((0 + 1) * L) with L by lia.
    unfold Py.clamp. cbn [Z.ltb Z.compare].
    rewrite (Z.min_l 0 count) by (unfold count; lia).
    cbn [Z.to_nat skipn]. rewrite Z.sub_0_r.
    destruct (Z.eqb_spec L 0) as [E|HL0].
    + rewrite E. cbn [Z.ltb Z.compare].
      rewrite (Z.min_l 0 count) by (unfold count; lia). reflexivity.
    + destruct (Z.ltb_spec L 0); [|lia]. f_equal. lia.
  - intros k Hk. unfold QCNN.batched, Py.slice. fold count.
    unfold Py.clamp.
    assert (Hkl : (k + 1) * L <= k * L) by (rewrite Z.mul_add_distr_r; lia).
    assert (Hkl0 : (k - 1) * L <= 0) by (apply Z.mul_nonneg_nonpos; lia).
    rewrite Z.mul_sub_distr_r in Hkl0.
    destruct (Z.ltb_spec (k * L) 0); destruct (Z.ltb_spec ((k + 1) * L) 0);
      match goal with
      | |- firstn ?n _ = _ => replace n with 0%nat by lia
      end; reflexivity.
Qed.

(** X13: a negative [num_batches] is accepted too. The division is
    truncated toward zero, so [run_batched] runs the optimizer against the
    cost function of batch length [- floor(count / -N)]; when it is
    negative the first call of the cost function works on all the training
    samples but the last [floor(count / -N)], and every later call works on
    an empty batch and returns the error of two empty sequences. *)
Theorem negative_batches
        (fvec : Type)
        (expval_PauliZ : tape fvec -> Z -> Q)
        (prob : tape fvec -> list Z -> list bool -> Q)
        (error_function : list Q -> list Q -> Q)
        (fuel : nat) (self : QCNN.QCNN_Solver)
        (feature_vectors : list fvec) (labels : list Q)
        (optimizer_function : list Q -> optimizer)
        (N : Z) (training_ratio : Q) :
  N < 0 ->
  length feature_vectors = length labels ->
  let d := split feature_vectors labels training_ratio in
  let tv := training_vectors d in
  let tl := training_labels d in
  let count := Z.of_nat (length tv) in
  let L := - (count / - N) in
  let first := Z.to_nat (if L =? 0 then 0 else count + L) in
  QCNN.batch_lenght tl N = Done L
  /\ QCNN.train_batched fvec expval_PauliZ prob error_function fuel self
       feature_vectors labels optimizer_function N training_ratio
     = optimize (QCNN.batched_cost_function fvec expval_PauliZ prob error_function
                   fuel self d L)
                (optimizer_function (QCNN.params self)) 0
  /\ L <= 0
  /\ (L < 0 <-> - N <= count)
  /\ QCNN.batched tv L 0 = firstn first tv
  /\ QCNN.batched tl L 0 = firstn first tl
  /\ (forall k, 1 <= k -> QCNN.batched tv L k = [] /\ QCNN.batched tl L k = [])
  /\ (forall params,
        QCNN.batched_cost_function fvec expval_PauliZ prob error_function
          fuel self d L params 0
        = obind (omap (fun v => QCNN.circuit_to_optimize fvec expval_PauliZ prob
                                  fuel self v params)
                      (firstn first tv))
                (fun r => Done (error_function r (firstn first tl), 1)))
  /\ (forall params k, 1 <= k ->
        QCNN.batched_cost_function fvec expval_PauliZ prob error_function
          fuel self d L params k
        = Done (error_function [] [], k + 1)).
Proof.
  intros HN Hlen0 d tv tl count L first.
  assert (Hlen : length tv = length tl).
  { unfold tv, tl, d, split. cbn [training_vectors training_labels].
    now apply slice_length_indep. }
  assert (Hq : 0 <= count / - N) by (apply Z.div_pos; unfold count; lia).
  assert (Hqle : count / - N <= count).
  { apply Z.div_le_upper_bound; unfold count; nia. }
  assert (HL : QCNN.batch_lenght tl N = Done L).
  { rewrite batch_lenght_negative by auto. now rewrite <- Hlen. }
  assert (HL0 : L <= 0) by (unfold L; lia).
  destruct (batched_nonpos tv L HL0 ltac:(unfold L, count in *; lia)) as [Hv0 Hvk].
  destruct (batched_nonpos tl L HL0 ltac:(rewrite <- Hlen; unfold L, count in *; lia))
    as [Hl0 Hlk].
  rewrite <- Hlen in Hl0. fold count in Hv0, Hl0. fold first in Hv0, Hl0.
  split; [exact HL|].
  split; [unfold QCNN.train_batched; fold d; cbv zeta; fold tl; now rewrite HL|].
  split; [exact HL0|]. split; [|split; [|split; [|split; [|split]]]].
  - unfold L. split; intros H.
    + destruct (Z.lt_ge_cases count (- N)) as [Hs|]; [|assumption].
      rewrite Z.div_small in H by (unfold count in *; lia). lia.
    + assert (1 <= count / - N) by (apply Z.div_le_lower_bound; lia). lia.
  - exact Hv0.
  - exact Hl0.
  - intros k Hk. split; [now apply Hvk | now apply Hlk].
  - intros params. unfold QCNN.batched_cost_function. fold tv tl.
    now rewrite Hv0, Hl0.
  - intros params k Hk. unfold QCNN.batched_cost_function. fold tv tl.
    now rewrite (Hvk k Hk), (Hlk k Hk).
Qed.

(** Ten training samples and [num_batches = -3]: the first call costs the
    first seven samples, the next two cost nothing. *)
Lemma negative_batches_witness :
  -3 < 0 /\
  QCNN.batch_lenght
    (training_labels (split Example.feature_vectors Example.labels (15 # 16))) (-3)
  = Done (-3)
  /\ QCNN.train_batched Z Example.expval_PauliZ Example.prob Example.error_function
       1 Example.self Example.feature_vectors Example.labels
       (fun q => Example.record 3 q []) (-3) (15 # 16)
     = Done ([7; 0; 0]%Q, 3, [0; 1; 2])
  /\ QCNN.batched
       (training_vectors (split Example.feature_vectors Example.labels (15 # 16)))
       (-3) 0
     = [1; 2; 3; 4; 5; 6; 7].
Proof.
  assert (H : -3 < 0) by lia.
  split; [exact H|].
  destruct (negative_batches Z Example.expval_PauliZ Example.prob
              Example.error_function 1 Example.self
              Example.feature_vectors Example.labels
              (fun q => Example.record 3 q []) (-3) (15 # 16) H eq_refl)
    as (HL & Htie & _ & _ & H0 & _).
  split; [exact HL|].
  split; [rewrite Htie; vm_compute; reflexivity|]. exact H0.
Defined.

(** ** The entry point *)

(** Rounding to nearest moves a value by at most half a unit of the grid. *)
Lemma rne_near (A : Z) (b : positive) :
  2 * Z.pos b * Py.rne A b <= 2 * A + Z.pos b.
Proof.
  unfold Py.rne.
  pose proof (Z.div_mod A (Z.pos b) ltac:(lia)) as Hdm.
  pose proof (Z.mod_pos_bound A (Z.pos b) ltac:(lia)) as Hr.
  destruct (Z.compare_spec (2 * (A mod Z.pos b)) (Z.pos b));
    [destruct (Z.even _)| |]; nia.
Qed.

Lemma round64_pos_near (a : Z) (b : positive) :
  0 < a -> a < Z.pos b * 2 ^ 50 ->
  (Py.round64_pos a b <= (a # b) + (1 # 8))%Q.
Proof.
  intros Ha Hlt. unfold Py.round64_pos.
  destruct (Z.leb_spec (Z.pos b * 2 ^ 53) a) as [Hbig|_].
  { assert (2 ^ 50 < 2 ^ 53) by (apply Z.pow_lt_mono_r; lia). nia. }
  set (s := Py.grid_bits a b).
  assert (Hs2 : 2 <= s).
  { unfold s, Py.grid_bits.
    assert (Hk : Z.log2 a <= Z.log2 (Z.pos b) + 50).
    { pose proof (Z.log2_mul_pow2 (Z.pos b) 50 ltac:(lia) ltac:(lia)) as Hl.
      pose proof (Z.log2_le_mono a (Z.pos b * 2 ^ 50) ltac:(lia)). lia. }
    destruct (_ <=? _); lia. }
  assert (H4 : 2 ^ 2 <= 2 ^ s) by (apply Z.pow_le_mono_r; lia).
  change (2 ^ 2) with 4 in H4.
  pose proof (rne_near (a * 2 ^ s) b) as Hm.
  unfold Qle, Qplus. cbn [Qnum Qden].
  rewrite Z2Pos.id by lia. rewrite Pos2Z.inj_mul.
  set (m := Py.rne (a * 2 ^ s) b) in *. clearbody m s.
  change (Z.pos 8) with 8. nia.
Qed.

Lemma round64_near (x : Q) :
  (0 < x)%Q -> (x < inject_Z (2 ^ 50))%Q -> (Py.round64 x <= x + (1 # 8))%Q.
Proof.
  intros H0 Hlt. destruct x as [a b].
  unfold Qlt, inject_Z in H0, Hlt. cbn [Qnum Qden] in H0, Hlt.
  unfold Py.round64. cbn [Qnum Qden].
  destruct a as [|p|p]; try lia.
  apply round64_pos_near; lia.
Qed.

(** A product below 2^50 that lies at least an eighth below the next
    integer is truncated, once rounded, to its floor. *)
Lemma int_round64_near (x : Q) (F : Z) :
  0 <= F -> (0 < x)%Q -> (x < inject_Z (2 ^ 50))%Q ->
  (inject_Z F <= x)%Q -> (x + (1 # 8) < inject_Z (F + 1))%Q ->
  Py.int (Py.round64 x) = F.
Proof.
  intros HF H0 Hsmall Hlo Hhi.
  apply int_between; [exact HF| |].
  - now apply round64_lower.
  - apply (Qle_lt_trans _ (x + (1 # 8))); [|exact Hhi].
    now apply round64_near.
Qed.

Lemma main_cut (labels : list Q) :
  Py.int (inject_Z (Z.of_nat (length labels)) * (4 # 5))%Q
  = 4 * Z.of_nat (length labels) / 5
  /\ (Z.of_nat (length labels) < 2 ^ 50 ->
      training_period (4 # 5) labels = 4 * Z.of_nat (length labels) / 5).
Proof.
  split.
  - unfold Py.int, Qmult, inject_Z. cbn [Qnum Qden Pos.mul].
    rewrite Z.quot_div_nonneg by lia. f_equal. lia.
  - intros Hsmall. unfold training_period, Py.fmul.
    set (N := Z.of_nat (length labels)) in *.
    assert (HN : 0 <= N) by (unfold N; lia). clearbody N.
    pose proof (Z.div_mod (4 * N) 5 ltac:(lia)) as Hdm.
    pose proof (Z.mod_pos_bound (4 * N) 5 ltac:(lia)) as Hr.
    set (F := 4 * N / 5) in *.
    assert (HF : 0 <= F) by (apply Z.div_pos; lia).
    destruct (Z.eq_dec N 0) as [E0|Hpos].
    { unfold F. rewrite E0. reflexivity. }
    apply int_round64_near; [exact HF|..];
      unfold Qlt, Qle, Qplus, Qmult, inject_Z; cbn [Qnum Qden]; lia.
Qed.

(** The cut of [main] as binary64 computes it: on fewer than 2^50 labels
    the product with the literal [0.8] is truncated to [floor(4 * N / 5)],
    in [main] and in the split of [run]. *)
Lemma literal_cut (labels : list Q) :
  Z.of_nat (length labels) < 2 ^ 50 ->
  Py.int (Py.fmul (inject_Z (Z.of_nat (length labels))) Main.literal_0_8)
  = 4 * Z.of_nat (length labels) / 5
  /\ training_period Main.literal_0_8 labels = 4 * Z.of_nat (length labels) / 5.
Proof.
  intros Hsmall. unfold training_period, Py.fmul, Main.literal_0_8.
  set (N := Z.of_nat (length labels)) in *.
  assert (HN : 0 <= N) by (unfold N; lia). clearbody N.
  pose proof (Z.div_mod (4 * N) 5 ltac:(lia)) as Hdm.
  pose proof (Z.mod_pos_bound (4 * N) 5 ltac:(lia)) as Hr.
  set (F := 4 * N / 5) in *.
  assert (HF : 0 <= F) by (apply Z.div_pos; lia).
  change (2 ^ 50) with 1125899906842624 in *.
  destruct (Z.eq_dec N 0) as [E0|Hpos].
  { unfold F. rewrite E0. split; reflexivity. }
  split; (apply int_round64_near; [exact HF|..];
          unfold Qlt, Qle, Qplus, Qmult, inject_Z; cbn [Qnum Qden]; lia).
Qed.

Section MainProperties.

Variable fvec : Type.
Variable expval_PauliZ : tape fvec -> Z -> Q.
Variable prob : tape fvec -> list Z -> list bool -> Q.
Variable model : Type.
Variable svm_fit :
  (list fvec -> list fvec -> outcome (list (list Q))) ->
  list fvec -> list Q -> outcome model.
Variable svm_score : model -> list fvec -> list Q -> outcome Q.
Variable svm_predict : model -> list fvec -> outcome (list Q).

Local Abbreviation main :=
  (Main.main fvec expval_PauliZ prob model svm_fit svm_score svm_predict).
Local Abbreviation kernel_run :=
  (Kernel.run fvec expval_PauliZ prob model svm_fit svm_score svm_predict).

Lemma main_run (feature_vectors : list fvec) (labels : list Q)
      (training_ratio : Q) (out : Main.printed) :
  main feature_vectors labels training_ratio = Done out ->
  kernel_run {| Kernel.num_qubits := 4 |} feature_vectors labels training_ratio
  = Done (Main.the_score out, Main.the_predictions out)
  /\ Main.the_true_labels out
     = skipn (Z.to_nat (4 * Z.of_nat (length labels) / 5)) labels.
Proof.
  intros H. unfold Main.main in H. cbv zeta in H.
  destruct (Kernel.run _ _ _ _ _ _ _ _ _ _ _) as [[sc preds]| |];
    try discriminate.
  cbn [obind fst snd] in H. injection H as <-.
  cbn [Main.the_score Main.the_predictions Main.the_true_labels].
  split; [reflexivity|].
  rewrite (proj1 (main_cut labels)). apply slice_from.
  apply Z.div_pos; lia.
Qed.

End MainProperties.

(** X14: [main] prints the labels from the index [floor(0.8 * N)] on,
    whatever training ratio it was given, next to the score and the
    predictions of the kernel classifier on 4 positions. They are the
    labels of the test partition when the ratio cuts at that index, as 0.8
    does on fewer than [2 ^ 50] samples; with another ratio they are not
    the labels that were scored. *)
Theorem main_prints_fixed_cut
        (fvec : Type)
        (expval_PauliZ : tape fvec -> Z -> Q)
        (prob : tape fvec -> list Z -> list bool -> Q)
        (model : Type)
        (svm_fit : (list fvec -> list fvec -> outcome (list (list Q))) ->
                   list fvec -> list Q -> outcome model)
        (svm_score : model -> list fvec -> list Q -> outcome Q)
        (svm_predict : model -> list fvec -> outcome (list Q))
        (feature_vectors : list fvec) (labels : list Q)
        (training_ratio : Q) (out : Main.printed) :
  Main.main fvec expval_PauliZ prob model svm_fit svm_score svm_predict
            feature_vectors labels training_ratio = Done out ->
  let N := Z.of_nat (length labels) in
  Kernel.run fvec expval_PauliZ prob model svm_fit svm_score svm_predict
             {| Kernel.num_qubits := 4 |} feature_vectors labels training_ratio
  = Done (Main.the_score out, Main.the_predictions out)
  /\ Main.the_true_labels out = skipn (Z.to_nat (4 * N / 5)) labels
  /\ (N < 2 ^ 50 -> training_period (4 # 5) labels = 4 * N / 5)
  /\ (training_period training_ratio labels = 4 * N / 5 ->
      Main.the_true_labels out
      = testing_labels (split feature_vectors labels training_ratio)).
Proof.
  intros H N.
  destruct (main_run _ _ _ _ _ _ _ _ _ _ _ H) as [Hrun Hlab].
  split; [exact Hrun|]. split; [exact Hlab|].
  split; [exact (proj2 (main_cut labels))|].
  intros Htp. rewrite Hlab. unfold split. cbn [testing_labels].
  rewrite Htp. symmetry. apply slice_from. apply Z.div_pos; lia.
Qed.

Lemma main_prints_fixed_cut_witness :
  exists out,
    Main.main Z Example.expval_PauliZ Example.prob (list Z * list Q)
              Example.svm_fit Example.svm_score Example.svm_predict
              Example.feature_vectors Example.labels (1 # 2) = Done out
    /\ length (Main.the_predictions out) = 6%nat
    /\ Main.the_true_labels out = skipn 8 Example.labels.
Proof.
  assert (E : exists out,
             Main.main Z Example.expval_PauliZ Example.prob (list Z * list Q)
                       Example.svm_fit Example.svm_score Example.svm_predict
                       Example.feature_vectors Example.labels (1 # 2) = Done out
             /\ length (Main.the_predictions out) = 6%nat).
  { eexists. split; vm_compute; reflexivity. }
  destruct E as (out & E & Hp). exists out.
  split; [exact E|]. split; [exact Hp|].
  destruct (main_prints_fixed_cut _ _ _ _ _ _ _ _ _ _ _ E) as (_ & Hl & _).
  exact Hl.
Defined.

(** X15: on a dataset of at least 2049 rows the entry point keeps the 100
    rows from 1949 on, fits the classifier on the rows 1949 to 2028 and
    scores and predicts on the rows 2029 to 2048; the labels printed are
    those of the rows 2029 to 2048. *)
Theorem entry_rows
        (fvec : Type)
        (expval_PauliZ : tape fvec -> Z -> Q)
        (prob : tape fvec -> list Z -> list bool -> Q)
        (model : Type)
        (svm_fit : (list fvec -> list fvec -> outcome (list (list Q))) ->
                   list fvec -> list Q -> outcome model)
        (svm_score : model -> list fvec -> list Q -> outcome Q)
        (svm_predict : model -> list fvec -> outcome (list Q))
        (dataset_vectors : list fvec) (dataset_labels : list Q) :
  (2049 <= length dataset_vectors)%nat ->
  (2049 <= length dataset_labels)%nat ->
  Main.entry fvec expval_PauliZ prob model svm_fit svm_score svm_predict
             dataset_vectors dataset_labels
  = obind (svm_fit (Kernel.qkernel fvec expval_PauliZ prob {| Kernel.num_qubits := 4 |})
                   (firstn 80 (skipn 1949 dataset_vectors))
                   (firstn 80 (skipn 1949 dataset_labels))) (fun m =>
    obind (svm_score m (firstn 20 (skipn 2029 dataset_vectors))
                       (firstn 20 (skipn 2029 dataset_labels))) (fun score =>
    obind (svm_predict m (firstn 20 (skipn 2029 dataset_vectors))) (fun predictions =>
    Done {| Main.the_score := score;
            Main.the_predictions := predictions;
            Main.the_true_labels := firstn 20 (skipn 2029 dataset_labels) |}))).
Proof.
  intros Hv Hl. unfold Main.entry. cbv zeta.
  assert (Hsl : forall (A : Type) (l : list A),
             Py.slice l (Some 1949) (Some 2049) = firstn 100 (skipn 1949 l)).
  { intros A l. rewrite slice_between by lia. reflexivity. }
  rewrite !Hsl.
  set (fv := firstn 100 (skipn 1949 dataset_vectors)).
  set (lb := firstn 100 (skipn 1949 dataset_labels)).
  assert (Hlfv : length fv = 100%nat).
  { unfold fv. rewrite length_firstn, length_skipn. lia. }
  assert (Hllb : length lb = 100%nat).
  { unfold lb. rewrite length_firstn, length_skipn. lia. }
  assert (Htp : training_period (4 # 5) lb = 80).
  { unfold training_period. rewrite Hllb. vm_compute. reflexivity. }
  assert (Hcut : Py.int (inject_Z (Z.of_nat (length lb)) * (4 # 5))%Q = 80).
  { rewrite (proj1 (main_cut lb)), Hllb. reflexivity. }
  assert (Hfirst : forall (A : Type) (l : list A),
             firstn 80 (firstn 100 (skipn 1949 l)) = firstn 80 (skipn 1949 l)).
  { intros A l. rewrite firstn_firstn. reflexivity. }
  assert (Hrest : forall (A : Type) (l : list A),
             skipn 80 (firstn 100 (skipn 1949 l)) = firstn 20 (skipn 2029 l)).
  { intros A l. rewrite skipn_firstn_comm, skipn_skipn. reflexivity. }
  unfold Main.main, Kernel.run, split. cbv zeta.
  cbn [training_vectors testing_vectors training_labels testing_labels].
  rewrite Htp, Hcut.
  rewrite !slice_to, !slice_from by lia.
  change (Z.to_nat 80) with 80%nat.
  unfold fv, lb. rewrite !Hfirst, !Hrest.
  destruct (svm_fit _ _ _) as [m| |]; cbn [obind]; try reflexivity.
  destruct (svm_score _ _ _) as [sc| |]; cbn [obind]; try reflexivity.
  destruct (svm_predict _ _) as [preds| |]; cbn [obind]; reflexivity.
Qed.

Lemma entry_rows_witness :
  (2049 <= length (repeat 7 2049))%nat /\
  Main.entry Z Example.expval_PauliZ Example.prob (list Z * list Q)
             Example.svm_fit Example.svm_score Example.svm_predict
             (repeat 7 2049) (repeat 1%Q 2049)
  = obind (Example.svm_fit
             (Kernel.qkernel Z Example.expval_PauliZ Example.prob
                             {| Kernel.num_qubits := 4 |})
             (firstn 80 (skipn 1949 (repeat 7 2049)))
             (firstn 80 (skipn 1949 (repeat 1%Q 2049)))) (fun m =>
    obind (Example.svm_score m (firstn 20 (skipn 2029 (repeat 7 2049)))
                               (firstn 20 (skipn 2029 (repeat 1%Q 2049)))) (fun score =>
    obind (Example.svm_predict m (firstn 20 (skipn 2029 (repeat 7 2049))))
          (fun predictions =>
    Done {| Main.the_score := score;
            Main.the_predictions := predictions;
            Main.the_true_labels := firstn 20 (skipn 2029 (repeat 1%Q 2049)) |}))).
Proof.
  assert (Hv : (2049 <= length (repeat 7 2049))%nat)
    by (rewrite repeat_length; apply le_n).
  assert (Hl : (2049 <= length (repeat 1%Q 2049))%nat)
    by (rewrite repeat_length; apply le_n).
  split; [exact Hv|].
  exact (entry_rows Z Example.expval_PauliZ Example.prob (list Z * list Q)
           Example.svm_fit Example.svm_score Example.svm_predict
           (repeat 7 2049) (repeat 1%Q 2049) Hv Hl).
Defined.

